(** * DentaDesk: the WhatsApp session service

    A shallow embedding of [src/electron/services/whatsapp.ts]: the module
    variables, the [connection.update] and [messages.upsert] handlers, the
    timer callbacks, [initializeClient], [attemptReinitialization],
    [clearSessionData], [reinitializeConnection], [handle405Error] and
    [sendMessage], followed by the properties of the connection lifecycle and
    of message delivery. *)

From Stdlib Require Import ZArith NArith List Bool Lia String Ascii.
Import ListNotations.

Set Implicit Arguments.
Local Open Scope Z_scope.

(** ** JavaScript strings

    A JavaScript string is a sequence of UTF-16 code units.  Only the
    operations the service uses are defined. *)

Module JS.

Definition jsstring := list N.

(** Code units of an ASCII literal of the source. *)
Definition lit (s : string) : jsstring :=
  List.map N_of_ascii (list_ascii_of_string s).

(** The characters matched by [\s] and removed by [trim()]: WhiteSpace and
    LineTerminator of ECMAScript. *)
Definition isWhiteSpace (c : N) : bool :=
  ((9 <=? c) && (c <=? 13) || (c =? 32) || (c =? 160) || (c =? 5760)
   || (8192 <=? c) && (c <=? 8202) || (c =? 8232) || (c =? 8233)
   || (c =? 8239) || (c =? 8287) || (c =? 12288) || (c =? 65279))%N.

Fixpoint trimStart (s : jsstring) : jsstring :=
  match s with
  | c :: s' => if isWhiteSpace c then trimStart s' else s
  | [] => []
  end.

Definition trim (s : jsstring) : jsstring :=
  rev (trimStart (rev (trimStart s))).

(** Truthiness of a string: the empty string is falsy. *)
Definition truthy (s : jsstring) : bool :=
  match s with [] => false | _ :: _ => true end.

(** Truthiness of a [string | null] value. *)
Definition truthyOpt (s : option jsstring) : bool :=
  match s with Some s => truthy s | None => false end.

Fixpoint startsWith (s prefix : jsstring) : bool :=
  match prefix, s with
  | [], _ => true
  | p :: prefix', c :: s' => (N.eqb p c) && startsWith s' prefix'
  | _ :: _, [] => false
  end.

Fixpoint includes (s needle : jsstring) : bool :=
  startsWith s needle
  || match s with
     | [] => false
     | _ :: s' => includes s' needle
     end.

(** [s.replace(/[-\s]/g, '')]: every dash and every white space removed. *)
Definition removeDashesAndSpaces (s : jsstring) : jsstring :=
  List.filter (fun c => negb ((c =? 45)%N || isWhiteSpace c)) s.

Definition lengthOf (s : jsstring) : Z := Z.of_nat (List.length s).

End JS.

Import JS.

(** ** Data model *)

(** The Baileys socket, as far as the service looks at it: whether
    [typeof sock.sendMessage === 'function'], and whether [sock.end()]
    throws. *)
Record Socket := mkSocket {
  sockId : nat;
  hasSendMessage : bool;
  endThrows : bool
}.

(** [lastDisconnect.error]: [instanceof Boom], [output.statusCode] and
    [message]. *)
Record DisconnectError := mkDisconnectError {
  isBoom : bool;
  statusCode : option Z;
  message : option jsstring
}.

Inductive Connection := Connecting | ConnOpen | ConnClose.

(** The argument of a [connection.update] event. *)
Record Update := mkUpdate {
  connection : option Connection;
  lastDisconnect : option DisconnectError;
  qr : option jsstring
}.

(** The callbacks handed to [setTimeout]. *)
Inductive TimerTask :=
| AutoReadyAfterQr         (* lines 142-168, 30000 ms *)
| AutoReadyAfterMessages   (* lines 399-405, 3000 ms *)
| RetryInitialization      (* lines 497-505 *)
| Recover405.              (* handle405Error after its 2000 ms pause, and its [then] *)

Record Timer := mkTimer {
  scheduledAt : Z;
  delay : Z;
  task : TimerTask
}.

(** The module variables (lines 13-19). *)
Record Globals := mkGlobals {
  sock : option Socket;
  lastQr : option jsstring;
  isReady : bool;
  lastReadyAt : option Z;
  initializationAttempts : Z;
  isInitializing : bool
}.

(** The module variables together with what the service reaches outside
    itself: the session directory, the clock, the pending timers, and how
    often each outside operation has been used. *)
Record World := mkWorld {
  vars : Globals;
  sessionDir : bool;          (* fs.existsSync(sessionPath) *)
  now : Z;                    (* Date.now() *)
  timers : list Timer;
  awaits : nat;
  sends : nat;
  setups : nat;
  removals : nat
}.

(** A promise may reject with any value, [undefined] and [null] among
    them. *)
Inductive Nullish := Undefined | Null.

Inductive SendOutcome :=
| SendOk
| SendThrows (msg : option jsstring)  (* rejects with an object; [msg] is its [message] *)
| SendHangs                   (* not settled within the 30 s race *)
| SendRejects (v : Nullish).  (* rejects with [undefined] or [null] *)

Inductive SetupOutcome :=
| SetupOk (s : Socket)
| SetupThrows (msg : option jsstring) (code : option Z).

(** What lies outside the service.  [interleave n] is what the other tasks do
    to the module variables while the service is suspended at its [n]-th
    await; [transportSend n] is the outcome of the [n]-th
    [sock.sendMessage]; [authSetup n] the outcome of the [n]-th
    [useMultiFileAuthState] and [makeWASocket]; [rmSyncThrows n] whether the
    [n]-th [fs.rmSync] throws; [loggedOut] is [DisconnectReason.loggedOut]
    of the Baileys library. *)
Record Env := mkEnv {
  interleave : nat -> Globals -> Globals;
  transportSend : nat -> SendOutcome;
  authSetup : nat -> SetupOutcome;
  rmSyncThrows : nat -> bool;
  loggedOut : Z
}.

Inductive AuthFailureKind := LoggedOutFromWhatsApp | MaxAttemptsReached.
Inductive AutoClearReason := Unauthorized401 | Recovery405Failed.

(** The messages sent to every live window ([webContents.send]). *)
Inductive Notification :=
| N_qr (q : jsstring)
| N_ready (timestamp : option Z) (autoReady : bool)
| N_session_connected (timestamp : option Z)
| N_405_recovery_attempted (timestamp : Z)
| N_session_auto_cleared (reason : AutoClearReason) (timestamp : Z)
| N_connection_failure (errorMessage : jsstring) (errorCode : option Z)
                       (timestamp : Z) (shouldRetry : bool)
| N_auth_failure (kind : AuthFailureKind) (timestamp : Z)
| N_init_failure (msg : option jsstring) (errorCode : option Z)
                 (timestamp : Z) (attempts : Z)
| N_session_cleared (timestamp : Z).

Inductive SleepSite :=
| WaitReady          (* line 814 *)
| RetryDelay         (* line 889 *)
| ReinitCleanup.     (* line 607 *)

Inductive LogLine :=
| L_init_in_progress                 (* line 25 *)
| L_attempt (n : Z)                  (* line 792 *)
| L_retrying (ms : Z) (n : Z)        (* line 886 *)
| L_reinitializing_connection.       (* line 589 *)

(** What a run of the service does to the outside, in order. *)
Inductive Effect :=
| E_Log (l : LogLine)
| E_Notify (n : Notification)
| E_IpcEmitQr (q : jsstring)
| E_SockEnd (id : nat)
| E_Mkdir
| E_RmSync
| E_SocketCreated (id : nat)
| E_TransportSend (id : nat) (jid : jsstring) (text : jsstring)
| E_Sleep (site : SleepSite) (ms : Z).

(** The values the service throws. *)
Inductive Exn :=
| NotInitialized              (* 'WhatsApp client is not initialized.' *)
| NotProperlyInitialized      (* 'WhatsApp client is not properly initialized.' *)
| InvalidPhoneNumber          (* 'Invalid phone number provided.' *)
| InvalidMessage              (* 'Invalid message provided.' *)
| PhoneTooShort               (* 'Phone number is too short or invalid.' *)
| SendFailed (attempts : Z) (cause : option jsstring)
| NullSocketTypeError         (* reading [sendMessage] of a null [sock] *)
| TransportError (msg : option jsstring)
| SendTimeout                 (* 'Message send timeout' *)
| SetupError (msg : option jsstring) (code : option Z)
| RejectedNullish (v : Nullish)   (* the value [undefined] or [null], thrown as it is *)
| MessageTypeError (v : Nullish). (* reading [message] of [undefined] or [null] *)

Definition exnMessage (e : Exn) : option jsstring :=
  match e with
  | NotInitialized => Some (lit "WhatsApp client is not initialized.")
  | NotProperlyInitialized => Some (lit "WhatsApp client is not properly initialized.")
  | InvalidPhoneNumber => Some (lit "Invalid phone number provided.")
  | InvalidMessage => Some (lit "Invalid message provided.")
  | PhoneTooShort => Some (lit "Phone number is too short or invalid.")
  | SendFailed _ cause => cause
  | NullSocketTypeError => Some (lit "Cannot read properties of null (reading 'sendMessage')")
  | TransportError msg => msg
  | SendTimeout => Some (lit "Message send timeout")
  | SetupError msg _ => msg
  | RejectedNullish _ => None
  | MessageTypeError Undefined =>
      Some (lit "Cannot read properties of undefined (reading 'message')")
  | MessageTypeError Null =>
      Some (lit "Cannot read properties of null (reading 'message')")
  end.

(** What was caught, when it is [undefined] or [null]. *)
Definition nullishOf (e : Exn) : option Nullish :=
  match e with RejectedNullish v => Some v | _ => None end.

(** The errors of the validation block of [sendMessage] (lines 833-847). *)
Definition isInvalidInput (e : Exn) : bool :=
  match e with
  | InvalidPhoneNumber | InvalidMessage | PhoneTooShort => true
  | _ => false
  end.

(** ** The monad of the service: state, exceptions and a log of effects *)

Inductive Result (A : Type) :=
| Returned (a : A)
| Thrown (e : Exn)
| OutOfFuel.

Arguments Thrown {A} e.
Arguments OutOfFuel {A}.

Record Outcome (A : Type) := mkOutcome {
  result : Result A;
  final : World;
  emitted : list Effect
}.

Definition M (A : Type) := World -> Outcome A.

Definition ret {A} (a : A) : M A := fun w => mkOutcome (Returned a) w [].

Definition bind {A B} (m : M A) (k : A -> M B) : M B :=
  fun w =>
    match m w with
    | mkOutcome (Returned a) w' effects =>
        match k a w' with
        | mkOutcome r w'' effects' => mkOutcome r w'' (effects ++ effects')
        end
    | mkOutcome (Thrown e) w' effects => mkOutcome (Thrown e) w' effects
    | mkOutcome OutOfFuel w' effects => mkOutcome OutOfFuel w' effects
    end.

Definition throw {A} (e : Exn) : M A := fun w => mkOutcome (Thrown e) w [].

Definition outOfFuel {A} : M A := fun w => mkOutcome OutOfFuel w [].

(** [try { m } catch (e) { h e }]. *)
Definition tryCatch {A} (m : M A) (h : Exn -> M A) : M A :=
  fun w =>
    match m w with
    | mkOutcome (Thrown e) w' effects =>
        match h e w' with
        | mkOutcome r w'' effects' => mkOutcome r w'' (effects ++ effects')
        end
    | o => o
    end.

Definition emit (e : Effect) : M unit := fun w => mkOutcome (Returned tt) w [e].

Definition getWorld : M World := fun w => mkOutcome (Returned w) w [].

Definition getVars : M Globals := fun w => mkOutcome (Returned (vars w)) w [].

Definition modifyWorld (f : World -> World) : M unit :=
  fun w => mkOutcome (Returned tt) (f w) [].

Declare Scope service_scope.
Delimit Scope service_scope with service.
Notation "x <- m ;; k" := (bind m (fun x => k))
  (at level 61, m at next level, right associativity) : service_scope.
Notation "m ;; k" := (bind m (fun _ => k))
  (at level 61, right associativity) : service_scope.
Local Open Scope service_scope.

(** Assignments to the module variables. *)
Definition setVars (f : Globals -> Globals) (w : World) : World :=
  mkWorld (f (vars w)) (sessionDir w) (now w) (timers w)
          (awaits w) (sends w) (setups w) (removals w).

Definition set_sock (v : option Socket) (g : Globals) : Globals :=
  mkGlobals v (lastQr g) (isReady g) (lastReadyAt g)
            (initializationAttempts g) (isInitializing g).
Definition set_lastQr (v : option jsstring) (g : Globals) : Globals :=
  mkGlobals (sock g) v (isReady g) (lastReadyAt g)
            (initializationAttempts g) (isInitializing g).
Definition set_isReady (v : bool) (g : Globals) : Globals :=
  mkGlobals (sock g) (lastQr g) v (lastReadyAt g)
            (initializationAttempts g) (isInitializing g).
Definition set_lastReadyAt (v : option Z) (g : Globals) : Globals :=
  mkGlobals (sock g) (lastQr g) (isReady g) v
            (initializationAttempts g) (isInitializing g).
Definition set_initializationAttempts (v : Z) (g : Globals) : Globals :=
  mkGlobals (sock g) (lastQr g) (isReady g) (lastReadyAt g)
            v (isInitializing g).
Definition set_isInitializing (v : bool) (g : Globals) : Globals :=
  mkGlobals (sock g) (lastQr g) (isReady g) (lastReadyAt g)
            (initializationAttempts g) v.

Definition assign (f : Globals -> Globals) : M unit := modifyWorld (setVars f).

(** [BrowserWindow.getAllWindows().forEach(window => ... send(channel, payload))]. *)
Definition notify (n : Notification) : M unit := emit (E_Notify n).

(** [setTimeout(callback, ms)]. *)
Definition setTimeout (t : TimerTask) (ms : Z) : M unit :=
  modifyWorld (fun w =>
    mkWorld (vars w) (sessionDir w) (now w)
            (timers w ++ [mkTimer (now w) ms t])
            (awaits w) (sends w) (setups w) (removals w)).

(** ** The service *)

Definition MAX_INITIALIZATION_ATTEMPTS : Z := 5.

(** The delay computed at lines 486-493. *)
Definition reinitializationDelay (attempts : Z) : Z :=
  if attempts <=? 2 then (attempts + 1) * 3000 else (attempts + 1) * 5000.

Definition isSome {A} (o : option A) : bool :=
  match o with Some _ => true | None => false end.

Definition optZ_eqb (a b : option Z) : bool :=
  match a, b with
  | Some x, Some y => x =? y
  | None, None => true
  | _, _ => false
  end.

Definition exnCode (e : Exn) : option Z :=
  match e with SetupError _ c => c | _ => None end.

Section Service.

Variable env : Env.

(** An await: the other tasks run, then the service resumes. *)
Definition suspend : M unit :=
  modifyWorld (fun w =>
    mkWorld (interleave env (awaits w) (vars w)) (sessionDir w) (now w)
            (timers w) (S (awaits w)) (sends w) (setups w) (removals w)).

Definition advanceClock (ms : Z) : M unit :=
  modifyWorld (fun w =>
    mkWorld (vars w) (sessionDir w) (now w + ms) (timers w)
            (awaits w) (sends w) (setups w) (removals w)).

(** [await new Promise(resolve => setTimeout(resolve, ms))]. *)
Definition sleep (site : SleepSite) (ms : Z) : M unit :=
  emit (E_Sleep site ms) ;; advanceClock ms ;; suspend.

(** [if (sock) { try { sock.end(); sock = null; } catch { } }]
    (lines 41-49, 546-554, 591-600). *)
Definition endSocket : M unit :=
  g <- getVars ;;
  match sock g with
  | Some s =>
      if endThrows s then ret tt
      else emit (E_SockEnd (sockId s)) ;; assign (set_sock None)
  | None => ret tt
  end.

(** [try { fs.rmSync(sessionPath, ...) } catch { }]. *)
Definition rmSync : M unit :=
  fun w =>
    if rmSyncThrows env (removals w) then
      mkOutcome (Returned tt)
        (mkWorld (vars w) (sessionDir w) (now w) (timers w)
                 (awaits w) (sends w) (setups w) (S (removals w))) []
    else
      mkOutcome (Returned tt)
        (mkWorld (vars w) false (now w) (timers w)
                 (awaits w) (sends w) (setups w) (S (removals w))) [E_RmSync].

Definition mkdirSync : M unit :=
  emit E_Mkdir ;;
  modifyWorld (fun w =>
    mkWorld (vars w) true (now w) (timers w)
            (awaits w) (sends w) (setups w) (removals w)).

(** Lines 543-585. *)
Definition clearSessionData : M unit :=
  endSocket ;;
  assign (set_isReady false) ;;
  assign (set_lastQr None) ;;
  assign (set_initializationAttempts 0) ;;
  assign (set_isInitializing false) ;;
  w <- getWorld ;;
  (if sessionDir w then rmSync else ret tt) ;;
  w <- getWorld ;;
  notify (N_session_cleared (now w)).

(** Lines 483-524. *)
Definition attemptReinitialization : M unit :=
  g <- getVars ;;
  if initializationAttempts g <? MAX_INITIALIZATION_ATTEMPTS then
    setTimeout RetryInitialization
               (reinitializationDelay (initializationAttempts g))
  else
    clearSessionData ;;
    w <- getWorld ;;
    notify (N_auth_failure MaxAttemptsReached (now w)).

(** The catch block of [initializeClient], lines 411-479. *)
Definition initializeClient_catch (error : Exn) : M unit :=
  assign (set_isReady false) ;;
  assign (set_lastQr None) ;;
  assign (set_isInitializing false) ;;
  w <- getWorld ;;
  notify (N_init_failure (exnMessage error) (exnCode error) (now w)
                         (initializationAttempts (vars w))) ;;
  (if initializationAttempts (vars w) <? MAX_INITIALIZATION_ATTEMPTS then
     attemptReinitialization
   else
     clearSessionData) ;;
  throw error.

(** [await useMultiFileAuthState(sessionPath)], [makeWASocket] and the
    registration of the handlers (lines 63-409). *)
Definition createSocket : M unit :=
  suspend ;;
  fun w =>
    let w' := mkWorld (vars w) (sessionDir w) (now w) (timers w)
                      (awaits w) (sends w) (S (setups w)) (removals w) in
    match authSetup env (setups w) with
    | SetupOk s =>
        mkOutcome (Returned tt) (setVars (set_sock (Some s)) w')
                  [E_SocketCreated (sockId s)]
    | SetupThrows msg code =>
        mkOutcome (Thrown (SetupError msg code)) w' []
    end.

(** Lines 23-480. *)
Definition initializeClient : M unit :=
  g <- getVars ;;
  if isInitializing g then
    emit (E_Log L_init_in_progress)
  else
    assign (set_isInitializing true) ;;
    assign (fun g => set_initializationAttempts (initializationAttempts g + 1) g) ;;
    g <- getVars ;;
    if isSome (sock g) && isReady g then
      assign (set_isInitializing false)
    else
      endSocket ;;
      tryCatch
        (w <- getWorld ;;
         (if sessionDir w then ret tt else mkdirSync) ;;
         createSocket)
        initializeClient_catch.

(** The callback of the timer of [attemptReinitialization], lines 497-505. *)
Definition retryInitialization : M unit :=
  tryCatch
    (assign (set_isInitializing false) ;; initializeClient)
    (fun _ => ret tt).

(** Lines 588-617. *)
Definition reinitializeConnection : M unit :=
  emit (E_Log L_reinitializing_connection) ;;
  endSocket ;;
  assign (set_isReady false) ;;
  assign (set_lastQr None) ;;
  sleep ReinitCleanup 1000 ;;
  tryCatch initializeClient (fun error => throw error).

(** [handle405Error] (lines 672-699) up to its 2000 ms pause; the pause is a
    timer whose callback is [recover405]. *)
Definition handle405Error_start : M unit :=
  clearSessionData ;;
  setTimeout Recover405 2000.

(** [handle405Error] after its pause. *)
Definition handle405Error_resume : M bool :=
  tryCatch
    (assign (set_initializationAttempts 0) ;;
     assign (set_isInitializing false) ;;
     initializeClient ;;
     ret true)
    (fun _ => ret false).

(** The [then] of [handle405Error()], lines 203-241. *)
Definition recover405 : M unit :=
  recoverySuccess <- handle405Error_resume ;;
  if recoverySuccess then
    w <- getWorld ;;
    notify (N_405_recovery_attempted (now w))
  else
    clearSessionData ;;
    w <- getWorld ;;
    notify (N_session_auto_cleared Recovery405Failed (now w)).

(** The callback at lines 142-168. *)
Definition autoReadyAfterQr : M unit :=
  g <- getVars ;;
  match sock g with
  | Some s =>
      if negb (isReady g) && truthyOpt (lastQr g) then
        if hasSendMessage s then
          w <- getWorld ;;
          assign (set_isReady true) ;;
          assign (set_lastReadyAt (Some (now w))) ;;
          notify (N_ready (Some (now w)) true)
        else ret tt
      else ret tt
  | None => ret tt
  end.

(** The callback at lines 399-405. *)
Definition autoReadyAfterMessages : M unit :=
  g <- getVars ;;
  if negb (isReady g) && isSome (sock g) then
    w <- getWorld ;;
    assign (set_isReady true) ;;
    assign (set_lastReadyAt (Some (now w)))
  else ret tt.

Definition runTask (t : TimerTask) : M unit :=
  match t with
  | AutoReadyAfterQr => autoReadyAfterQr
  | AutoReadyAfterMessages => autoReadyAfterMessages
  | RetryInitialization => retryInitialization
  | Recover405 => recover405
  end.

(** The [qr] part of the [connection.update] handler, lines 108-169.  The
    result is [true] when the handler returns at line 115. *)
Definition onQr (q : jsstring) : M bool :=
  assign (set_lastQr (Some q)) ;;
  if lengthOf (trim q) =? 0 then ret true
  else
    notify (N_qr q) ;;
    emit (E_IpcEmitQr q) ;;
    setTimeout AutoReadyAfterQr 30000 ;;
    ret false.

Definition errorCodeOf (error : option DisconnectError) : option Z :=
  match error with Some e => statusCode e | None => None end.

(** [error?.message || 'Unknown error']. *)
Definition errorMessageOf (error : option DisconnectError) : jsstring :=
  match error with
  | Some e =>
      match message e with
      | Some m => if truthy m then m else lit "Unknown error"
      | None => lit "Unknown error"
      end
  | None => lit "Unknown error"
  end.

(** Lines 289-291. *)
Definition shouldReconnect (error : option DisconnectError) : bool :=
  match error with
  | Some e =>
      if isBoom e then negb (optZ_eqb (statusCode e) (Some (loggedOut env)))
      else true
  | None => true
  end.

(** [connection === 'close'], lines 171-337. *)
Definition onClose (error : option DisconnectError) : M unit :=
  let errorCode := errorCodeOf error in
  let errorMessage := errorMessageOf error in
  (if optZ_eqb errorCode (Some 405) then
     handle405Error_start
   else if optZ_eqb errorCode (Some 401) then
     clearSessionData ;;
     w <- getWorld ;;
     notify (N_session_auto_cleared Unauthorized401 (now w))
   else ret tt) ;;
  if shouldReconnect error then
    assign (set_isReady false) ;;
    assign (set_lastQr None) ;;
    assign (set_isInitializing false) ;;
    w <- getWorld ;;
    notify (N_connection_failure errorMessage errorCode (now w) true) ;;
    attemptReinitialization
  else
    assign (set_isReady false) ;;
    assign (set_lastQr None) ;;
    w <- getWorld ;;
    notify (N_auth_failure LoggedOutFromWhatsApp (now w)) ;;
    assign (set_isInitializing false).

(** [connection === 'open'], lines 338-376. *)
Definition onOpen : M unit :=
  assign (set_isReady true) ;;
  w <- getWorld ;;
  assign (set_lastReadyAt (Some (now w))) ;;
  notify (N_ready (Some (now w)) false) ;;
  notify (N_session_connected (Some (now w))) ;;
  assign (set_isInitializing false) ;;
  assign (set_initializationAttempts 0).

(** The first [connection.update] handler, lines 97-377. *)
Definition onConnectionUpdate (u : Update) : M unit :=
  returned <- match qr u with
              | Some q => if truthy q then onQr q else ret false
              | None => ret false
              end ;;
  if returned then ret tt
  else
    match connection u with
    | Some ConnClose => onClose (lastDisconnect u)
    | Some ConnOpen => onOpen
    | _ => ret tt
    end.

(** The [messages.upsert] handler, lines 395-407. *)
Definition onMessagesUpsert (messages : option (list jsstring)) : M unit :=
  g <- getVars ;;
  match messages with
  | Some ms =>
      if negb (isReady g) && (0 <? Z.of_nat (List.length ms)) then
        setTimeout AutoReadyAfterMessages 3000
      else ret tt
  | None => ret tt
  end.

(** ** The event loop *)

Inductive Action :=
| Start                                   (* a call of [initializeClient] from outside *)
| ConnectionUpdate (u : Update)
| MessagesUpsert (messages : option (list jsstring))
| TimerFires (i : nat).                   (* the [i]-th pending timer is due *)

Fixpoint removeNth {A} (i : nat) (l : list A) : list A :=
  match i, l with
  | O, _ :: l' => l'
  | S i', x :: l' => x :: removeNth i' l'
  | _, [] => []
  end.

Definition fireTimer (i : nat) : M unit :=
  w <- getWorld ;;
  match nth_error (timers w) i with
  | Some t =>
      modifyWorld (fun w =>
        mkWorld (vars w) (sessionDir w)
                (Z.max (now w) (scheduledAt t + delay t))
                (removeNth i (timers w))
                (awaits w) (sends w) (setups w) (removals w)) ;;
      runTask (task t)
  | None => ret tt
  end.

Definition step (a : Action) : M unit :=
  match a with
  | Start => tryCatch initializeClient (fun _ => ret tt)
  | ConnectionUpdate u => onConnectionUpdate u
  | MessagesUpsert ms => onMessagesUpsert ms
  | TimerFires i => fireTimer i
  end.

Fixpoint run (actions : list Action) : M unit :=
  match actions with
  | [] => ret tt
  | a :: rest => step a ;; run rest
  end.

End Service.

(** The module variables when the module is loaded (lines 13-19). *)
Definition initialGlobals : Globals :=
  mkGlobals None None false None 0 false.

Definition initialWorld : World :=
  mkWorld initialGlobals false 0 [] 0 0 0 0.

Definition isOpenUpdate (a : Action) : bool :=
  match a with
  | ConnectionUpdate u =>
      match connection u with Some ConnOpen => true | _ => false end
  | _ => false
  end.

(** ** Message delivery *)

Definition MAX_RETRIES : Z := 3.
Definition RETRY_DELAY : Z := 1000.

Record SendReceipt := mkSendReceipt {
  success : bool;
  phoneNumber : jsstring
}.

(** Lines 849 and 855: the leading [+] added when missing. *)
Definition finalNumberOf (sanitizedNumber : jsstring) : jsstring :=
  if startsWith sanitizedNumber (lit "+") then sanitizedNumber
  else lit "+" ++ sanitizedNumber.

Definition jidOf (finalNumber : jsstring) : jsstring :=
  finalNumber ++ lit "@s.whatsapp.net".

(** Lines 833-849: the error thrown, or the final number and the trimmed
    text. *)
Definition validate (phone text : jsstring) : Exn + (jsstring * jsstring) :=
  if negb (truthy phone) then inl InvalidPhoneNumber
  else if negb (truthy text) || (lengthOf (trim text) =? 0) then
    inl InvalidMessage
  else
    let sanitizedNumber := removeDashesAndSpaces phone in
    if negb (truthy sanitizedNumber) || (lengthOf sanitizedNumber <? 8) then
      inl PhoneTooShort
    else inr (finalNumberOf sanitizedNumber, trim text).

(** Lines 870-882. *)
Definition recoverablePatterns : list jsstring :=
  [ lit "attrs"; lit "undefined"; lit "Cannot read properties";
    lit "Connection lost"; lit "timeout"; lit "network";
    lit "ECONNRESET"; lit "ENOTFOUND" ].

Definition isRecoverableError (error : Exn) : bool :=
  match exnMessage error with
  | Some m => truthy m && existsb (includes m) recoverablePatterns
  | None => false
  end.

Section Delivery.

Variable env : Env.

(** The loop at lines 812-816; [remaining] is
    [maxWaitAttempts - waitAttempts]. *)
Fixpoint waitForReady (remaining : nat) : M unit :=
  match remaining with
  | O => ret tt
  | S remaining' =>
      g <- getVars ;;
      if negb (isReady g) && isSome (sock g) then
        sleep env WaitReady 1000 ;; waitForReady remaining'
      else ret tt
  end.

(** Lines 794-831; the result is the socket the message goes to. *)
Definition checkConnection : M Socket :=
  g <- getVars ;;
  match sock g with
  | None => throw NotInitialized
  | Some s =>
      (if negb (isReady g) then
         if hasSendMessage s then waitForReady 5
         else throw NotProperlyInitialized
       else ret tt) ;;
      g <- getVars ;;
      match sock g with
      | None => throw NullSocketTypeError
      | Some s =>
          if hasSendMessage s then ret s else throw NotProperlyInitialized
      end
  end.

(** Lines 855-862: [sock.sendMessage] raced against a 30 s timeout. *)
Definition transportCall (s : Socket) (jid text : jsstring) : M unit :=
  emit (E_TransportSend (sockId s) jid text) ;;
  w <- getWorld ;;
  modifyWorld (fun w =>
    mkWorld (vars w) (sessionDir w) (now w) (timers w)
            (awaits w) (S (sends w)) (setups w) (removals w)) ;;
  suspend env ;;
  match transportSend env (sends w) with
  | SendOk => ret tt
  | SendThrows msg => throw (TransportError msg)
  | SendHangs => advanceClock 30000 ;; throw SendTimeout
  | SendRejects v => throw (RejectedNullish v)
  end.

(** Lines 788-909.  The recursion of the source is on [retryCount]; [fuel]
    bounds its depth. *)
Fixpoint sendMessage_fuel (fuel : nat) (phone text : jsstring)
    (retryCount : Z) : M SendReceipt :=
  match fuel with
  | O => outOfFuel
  | S fuel' =>
      emit (E_Log (L_attempt (retryCount + 1))) ;;
      s <- checkConnection ;;
      match validate phone text with
      | inl error => throw error
      | inr (finalNumber, trimmed) =>
          tryCatch
            (transportCall s (jidOf finalNumber) trimmed ;;
             ret (mkSendReceipt true finalNumber))
            (fun error =>
               match nullishOf error with
               | Some v =>
                   (* line 871 reads [error.message] of what was caught *)
                   throw (MessageTypeError v)
               | None =>
                   if isRecoverableError error && (retryCount <? MAX_RETRIES) then
                     emit (E_Log (L_retrying RETRY_DELAY (retryCount + 2))) ;;
                     sleep env RetryDelay RETRY_DELAY ;;
                     (if retryCount =? 0 then
                        tryCatch (reinitializeConnection env) (fun _ => ret tt)
                      else ret tt) ;;
                     sendMessage_fuel fuel' phone text (retryCount + 1)
                   else
                     throw (SendFailed (retryCount + 1) (exnMessage error))
               end)
      end
  end.

(** [sendMessage(phoneNumber, message, retryCount)]. *)
Definition sendMessage (phone text : jsstring) (retryCount : Z) : M SendReceipt :=
  sendMessage_fuel (S (Z.to_nat (MAX_RETRIES - retryCount))) phone text retryCount.

(** [sendMessage(phoneNumber, message)], [retryCount] at its default. *)
Definition send (phone text : jsstring) : M SendReceipt :=
  sendMessage phone text 0.

End Delivery.

(** The part of a run that concerns delivery: the attempts (each call of
    [sendMessage] logs its number), the transport calls, the pauses before a
    retry, and the re-establishments of the connection. *)
Inductive DeliveryEvent :=
| D_Attempt (n : Z)
| D_Send
| D_RetryDelay (ms : Z)
| D_Reinitialize.

Definition deliveryEventOf (e : Effect) : option DeliveryEvent :=
  match e with
  | E_Log (L_attempt n) => Some (D_Attempt n)
  | E_TransportSend _ _ _ => Some D_Send
  | E_Sleep RetryDelay ms => Some (D_RetryDelay ms)
  | E_Log L_reinitializing_connection => Some D_Reinitialize
  | _ => None
  end.

Fixpoint deliveryEvents (l : list Effect) : list DeliveryEvent :=
  match l with
  | [] => []
  | e :: l' =>
      match deliveryEventOf e with
      | Some d => d :: deliveryEvents l'
      | None => deliveryEvents l'
      end
  end.

(** An environment in which nothing else runs, every send and every setup
    succeeds, and [DisconnectReason.loggedOut] is 401 as in Baileys. *)
Definition quietEnv : Env :=
  mkEnv (fun _ g => g) (fun _ => SendOk)
        (fun n => SetupOk (mkSocket n true false)) (fun _ => false) 401.

(** A world in which the connection is open. *)
Definition openWorld : World :=
  mkWorld (mkGlobals (Some (mkSocket 0 true false)) None true (Some 0) 0 false)
          true 0 [] 0 0 0 0.

(** The spec's policy for the delay before a reconnection, in its own words:
    [(attempt+1) * 3s] for [attempt] in [[0,1]], [(attempt+1) * 5s] from 2
    on, multiplied by 2 for the protocol-rejected class. *)
Inductive ReasonClass := Transient | ProtocolRejected.

Definition nextDelay_spec (attempt : Z) (reason : ReasonClass) : Z :=
  (if attempt <=? 1 then (attempt + 1) * 3000 else (attempt + 1) * 5000)
  * match reason with ProtocolRejected => 2 | Transient => 1 end.

(** The delays of the pending reinitializations. *)
Definition retryDelays (ts : list Timer) : list Z :=
  List.map delay
    (List.filter
       (fun t => match task t with RetryInitialization => true | _ => false end)
       ts).

Definition withAttempts (a : Z) (w : World) : World :=
  setVars (set_initializationAttempts a) w.

(** A close event carrying a Boom error with the given status code. *)
Definition closeWith (code : Z) : Update :=
  mkUpdate (Some ConnClose)
           (Some (mkDisconnectError true (Some code) (Some (lit "Connection Failure"))))
           None.

(** The world that [clearSessionData] leaves, and what it does on the way. *)
Definition socketAfterEnd (g : Globals) : option Socket :=
  match sock g with
  | Some s => if endThrows s then Some s else None
  | None => None
  end.

Definition clearedWorld (env : Env) (w : World) : World :=
  mkWorld
    (mkGlobals (socketAfterEnd (vars w)) None false (lastReadyAt (vars w)) 0 false)
    (sessionDir w && rmSyncThrows env (removals w))
    (now w) (timers w) (awaits w) (sends w) (setups w)
    (if sessionDir w then S (removals w) else removals w).

Definition clearingEffects (env : Env) (w : World) : list Effect :=
  match sock (vars w) with
  | Some s => if endThrows s then [] else [E_SockEnd (sockId s)]
  | None => []
  end
  ++ (if sessionDir w && negb (rmSyncThrows env (removals w))
      then [E_RmSync] else [])
  ++ [E_Notify (N_session_cleared (now w))].

(** The timers that start an initialization when they fire. *)
Definition startsInitialization (t : Timer) : bool :=
  match task t with
  | RetryInitialization | Recover405 => true
  | _ => false
  end.

Definition reconnectTimers (ts : list Timer) : list Timer :=
  List.filter startsInitialization ts.

(** The event carries a [qr] that is not empty and is all white space: the
    handler returns at line 115. *)
Definition blankQr (u : Update) : bool :=
  match qr u with
  | Some q => truthy q && (lengthOf (trim q) =? 0)
  | None => false
  end.

(** The actions that cannot start an initialization by themselves: all but a
    call from outside and a close. *)
Definition passive (a : Action) : bool :=
  match a with
  | Start => false
  | ConnectionUpdate u =>
      match connection u with Some ConnClose => false | _ => true end
  | MessagesUpsert _ => true
  | TimerFires _ => true
  end.

(** The inputs that the validation of [sendMessage] rejects: an empty
    target, a target with fewer than 8 characters once dashes and white
    space are removed, or a text that is empty after trimming. *)
Definition invalidInput (phone text : jsstring) : bool :=
  negb (truthy phone)
  || (lengthOf (removeDashesAndSpaces phone) <? 8)
  || negb (truthy (trim text)).

(** The longest course a delivery can take: four attempts, each with its
    transport call, a pause before each retry, and one re-establishment
    before the first retry. *)
Definition retryPlan : list DeliveryEvent :=
  [ D_Attempt 1; D_Send; D_RetryDelay RETRY_DELAY; D_Reinitialize;
    D_Attempt 2; D_Send; D_RetryDelay RETRY_DELAY;
    D_Attempt 3; D_Send; D_RetryDelay RETRY_DELAY;
    D_Attempt 4; D_Send ].

(** The lengths of the courses that occur: an attempt ends before its
    transport call or with it, and a retry starts the next attempt. *)
Definition courseLengths : list nat := [1; 2; 5; 6; 8; 9; 11; 12]%nat.

Definition isAttempt (d : DeliveryEvent) : bool :=
  match d with D_Attempt _ => true | _ => false end.
Definition isSend (d : DeliveryEvent) : bool :=
  match d with D_Send => true | _ => false end.
Definition isRetryDelay (d : DeliveryEvent) : bool :=
  match d with D_RetryDelay _ => true | _ => false end.
Definition isReinitialize (d : DeliveryEvent) : bool :=
  match d with D_Reinitialize => true | _ => false end.

Definition count (f : DeliveryEvent -> bool) (l : list DeliveryEvent) : Z :=
  Z.of_nat (List.length (List.filter f l)).

(** The courses a delivery can take from a given [retryCount]. *)
Inductive RetrySchedule : Z -> list DeliveryEvent -> Prop :=
| RS_failed k : RetrySchedule k [D_Attempt (k + 1)]
| RS_last k : RetrySchedule k [D_Attempt (k + 1); D_Send]
| RS_retry k rest :
    k < MAX_RETRIES ->
    RetrySchedule (k + 1) rest ->
    RetrySchedule k
      (D_Attempt (k + 1) :: D_Send :: D_RetryDelay RETRY_DELAY ::
       (if k =? 0 then [D_Reinitialize] else []) ++ rest).

(** A computation is [silent] when it starts no attempt, makes no transport
    call, takes no retry pause and does not re-establish the connection; it
    is [total] when it needs no fuel. *)
Definition silent {A} (m : M A) : Prop :=
  forall w, deliveryEvents (emitted (m w)) = [].

Definition total {A} (m : M A) : Prop :=
  forall w, result (m w) <> OutOfFuel.

(** A computation [keepsSends] when it makes no transport call: the next
    [sock.sendMessage] is the one it would have been before. *)
Definition keepsSends {A} (m : M A) : Prop :=
  forall w, sends (final (m w)) = sends w.

(** What the catch block of [sendMessage] catches for an outcome of the
    transport (lines 855-866), and the outcomes it retries: the errors that
    are recoverable by lines 870-882, the timeout of the race among them. *)
Definition rejectionOf (r : SendOutcome) : option Exn :=
  match r with
  | SendOk => None
  | SendThrows msg => Some (TransportError msg)
  | SendHangs => Some SendTimeout
  | SendRejects v => Some (RejectedNullish v)
  end.

Definition recoverableFailure (r : SendOutcome) : bool :=
  match rejectionOf r with
  | Some error =>
      match nullishOf error with
      | Some _ => false
      | None => isRecoverableError error
      end
  | None => false
  end.

(** What follows a transport call that is retried: the pause, the
    re-establishment when the call was the first, and the next attempt. *)
Definition retryAfter (call : Z) : list DeliveryEvent :=
  D_RetryDelay RETRY_DELAY ::
  (if call =? 0 then [D_Reinitialize] else []) ++ [D_Attempt (call + 2)].

(** A transport that never answers. *)
Definition hangingEnv : Env :=
  mkEnv (fun _ g => g) (fun _ => SendHangs)
        (fun n => SetupOk (mkSocket (S n) true false)) (fun _ => false) 401.

(** A transport that refuses with an error no pattern of lines 870-882
    matches. *)
Definition refusingEnv : Env :=
  mkEnv (fun _ g => g) (fun _ => SendThrows (Some (lit "not-acceptable")))
        (fun n => SetupOk (mkSocket (S n) true false)) (fun _ => false) 401.

(** A transport that loses the connection once and works from then on. *)
Definition flakyEnv : Env :=
  mkEnv (fun _ g => g)
        (fun n => match n with
                  | O => SendThrows (Some (lit "Connection lost"))
                  | S _ => SendOk
                  end)
        (fun n => SetupOk (mkSocket (S n) true false)) (fun _ => false) 401.

(** A transport whose promise rejects with [undefined]. *)
Definition voidEnv : Env :=
  mkEnv (fun _ g => g) (fun _ => SendRejects Undefined)
        (fun n => SetupOk (mkSocket (S n) true false)) (fun _ => false) 401.

(** Worlds and events of the scenarios. *)
Definition busyWorld : World :=
  setVars (set_isInitializing true) initialWorld.

Definition notReadyWorld : World :=
  mkWorld (mkGlobals (Some (mkSocket 0 true false)) None false None 1 true)
          true 0 [] 0 0 0 0.

Definition openedUpdate : Update := mkUpdate (Some ConnOpen) None None.

(** ** Status reports, session reset and QR generation *)

(** JavaScript values, as far as the status reports need them; an object is
    the list of its keys and values in the order they are written. *)
#[warnings="-register-all"] Inductive JSValue :=
| VUndefined
| VNull
| VBool (b : bool)
| VNum (z : Z)
| VStr (s : jsstring)
| VObj (fields : list (string * JSValue)).

(** [o.key]: [undefined] when the object has no such key. *)
Fixpoint lookupField (fields : list (string * JSValue)) (key : string) : JSValue :=
  match fields with
  | [] => VUndefined
  | (k, v) :: rest => if String.eqb k key then v else lookupField rest key
  end.

Definition getField (o : JSValue) (key : string) : JSValue :=
  match o with
  | VObj fields => lookupField fields key
  | _ => VUndefined
  end.

Definition truthyValue (v : JSValue) : bool :=
  match v with
  | VUndefined | VNull => false
  | VBool b => b
  | VNum z => negb (z =? 0)
  | VStr s => truthy s
  | VObj _ => true
  end.

Fixpoint jsstring_eqb (a b : jsstring) : bool :=
  match a, b with
  | [], [] => true
  | x :: a', y :: b' => (N.eqb x y) && jsstring_eqb a' b'
  | _, _ => false
  end.

(** [v !== 'literal']. *)
Definition differsFromString (v : JSValue) (s : jsstring) : bool :=
  match v with
  | VStr t => negb (jsstring_eqb t s)
  | _ => true
  end.

Definition numberOrNull (z : option Z) : JSValue :=
  match z with Some z => VNum z | None => VNull end.

(** What the status reports take from the process and not from the module
    variables: [sessionPath], [new Date().toISOString()], [process.platform],
    [process.version] and [process.versions.electron]. *)
Record Process := mkProcess {
  sessionPath : jsstring;
  toISOString : Z -> jsstring;
  platform : jsstring;
  nodeVersion : jsstring;
  electronVersion : jsstring
}.

Section Status.

Variable proc : Process.

(** Lines 636-655. *)
Definition getWhatsAppDiagnosticInfo (w : World) : JSValue :=
  let g := vars w in
  VObj
    [ ("isReady", VBool (isReady g));
      ("isInitializing", VBool (isInitializing g));
      ("lastQr", VStr (if truthyOpt (lastQr g) then lit "Present" else lit "None"));
      ("lastReadyAt", numberOrNull (lastReadyAt g));
      ("initializationAttempts", VNum (initializationAttempts g));
      ("sessionPath", VStr (sessionPath proc));
      ("socketExists", VBool (isSome (sock g)));
      ("socketType", VStr (if isSome (sock g) then lit "object" else lit "null"));
      ("hasSendMessageMethod",
         VBool (match sock g with Some s => hasSendMessage s | None => false end));
      ("socketState",
         VStr (if isSome (sock g) then lit "Connected" else lit "Disconnected"));
      ("timestamp", VStr (toISOString proc (now w)));
      ("environment",
         VObj [ ("platform", VStr (platform proc));
                ("nodeVersion", VStr (nodeVersion proc));
                ("electronVersion", VStr (electronVersion proc)) ]) ]%string.

(** Lines 658-669. *)
Definition getWhatsAppStatus (w : World) : JSValue :=
  let diagnostic := getWhatsAppDiagnosticInfo w in
  VObj
    [ ("isReady", getField diagnostic "isReady");
      ("hasQr",
         VBool (truthyValue (getField diagnostic "lastQr")
                && differsFromString (getField diagnostic "lastQr") (lit "None")));
      ("isConnected", getField diagnostic "socketExists");
      ("lastReadyAt", getField diagnostic "lastReadyAt");
      ("status",
         VStr (if truthyValue (getField diagnostic "isReady") then lit "Connected"
               else if truthyValue (getField diagnostic "hasQr") then lit "QR Required"
               else lit "Disconnected"));
      ("diagnostic", diagnostic) ]%string.

End Status.

(** The getters of lines 526-540. *)
Definition getClient (w : World) : option Socket := sock (vars w).
Definition getLastQr (w : World) : option jsstring := lastQr (vars w).
Definition getIsReady (w : World) : bool := isReady (vars w).
Definition getLastReadyAt (w : World) : option Z := lastReadyAt (vars w).

(** What [generateNewQR] resolves to: [{success, error?, details?}]. *)
Inductive QRDetails :=
| PollDetails (maxAttempts actualAttempts : Z)     (* line 765 *)
| ErrorDetails (code : option Z).                  (* lines 779-783; [type] and
                                                      [stack] are not kept *)

Record QRResult := mkQRResult {
  qrSuccess : bool;
  qrError : option jsstring;
  qrDetails : option QRDetails
}.

Section SessionOperations.

Variable env : Env.

(** [await new Promise(resolve => setTimeout(resolve, ms))] at lines 627 and
    748. *)
Definition pause (ms : Z) : M unit :=
  advanceClock ms ;; suspend env.

(** Lines 620-633. *)
Definition resetSession : M unit :=
  clearSessionData env ;;
  pause 500 ;;
  initializeClient env.

(** What [generateNewQR] resolves to when no QR came in [maxAttempts]
    polls (lines 761-766). *)
Definition qrTimeout (attempts : Z) : QRResult :=
  mkQRResult false
    (Some (lit "QR code generation timeout - no QR received after maximum attempts"))
    (Some (PollDetails 15 attempts)).

(** The loop of lines 744-759; [remaining] is [maxAttempts - attempts]. *)
Fixpoint waitForQr (remaining : nat) (attempts : Z) : M QRResult :=
  match remaining with
  | O => ret (qrTimeout attempts)
  | S remaining' =>
      pause 2000 ;;
      g <- getVars ;;
      if truthyOpt (lastQr g) then ret (mkQRResult true None None)
      else waitForQr remaining' (attempts + 1)
  end.

(** [error?.message || 'Unknown error']. *)
Definition messageOrUnknown (error : Exn) : jsstring :=
  match exnMessage error with
  | Some m => if truthy m then m else lit "Unknown error"
  | None => lit "Unknown error"
  end.

(** Lines 706-734 of [generateNewQR]: the state, the socket and the session
    directory are cleared. *)
Definition generateNewQR_prepare : M unit :=
  assign (set_lastQr None) ;;
  assign (set_isReady false) ;;
  endSocket ;;
  w <- getWorld ;;
  (if sessionDir w then rmSync env else ret tt) ;;
  assign (set_initializationAttempts 0) ;;
  assign (set_isInitializing false).

(** Lines 702-786. *)
Definition generateNewQR : M QRResult :=
  tryCatch
    (generateNewQR_prepare ;;
     initializeClient env ;;
     waitForQr 15 0)
    (fun error =>
       ret (mkQRResult false (Some (messageOrUnknown error))
                       (Some (ErrorDetails (exnCode error))))).

End SessionOperations.

(** Nothing else runs while the service is suspended. *)
Definition undisturbed (env : Env) : Prop :=
  forall n g, interleave env n g = g.

(** The errors of the connection checks of [sendMessage] (lines 794-831). *)
Definition isConnectionError (e : Exn) : bool :=
  match e with
  | NotInitialized | NotProperlyInitialized | NullSocketTypeError => true
  | _ => false
  end.

(** The last transport call of a course [d] whose first call is the
    [first]-th of the transport. *)
Definition lastCall (env : Env) (first : nat) (d : list DeliveryEvent)
    (P : SendOutcome -> Prop) : Prop :=
  exists j, Z.of_nat j + 1 = count isSend d /\ P (transportSend env (first + j)).

(** How the result of [sendMessage(phone, text, retryCount)] goes with its
    course [d]. *)
Definition sendOutcome (env : Env) (phone text : jsstring) (retryCount : Z)
    (first : nat) (r : Result SendReceipt) (d : list DeliveryEvent) : Prop :=
  match r with
  | Returned receipt =>
      receipt = mkSendReceipt true (finalNumberOf (removeDashesAndSpaces phone)) /\
      invalidInput phone text = false /\
      count isSend d = count isAttempt d /\
      lastCall env first d (fun call => call = SendOk)
  | Thrown (SendFailed n cause) =>
      n = retryCount + count isAttempt d /\
      count isSend d = count isAttempt d /\
      invalidInput phone text = false /\
      (MAX_RETRIES < n \/ isRecoverableError (SendFailed n cause) = false) /\
      lastCall env first d (fun call =>
        exists error,
          rejectionOf call = Some error /\ nullishOf error = None /\
          exnMessage error = cause)
  | Thrown (MessageTypeError v) =>
      count isSend d = count isAttempt d /\
      invalidInput phone text = false /\
      lastCall env first d (fun call => call = SendRejects v)
  | Thrown e =>
      isConnectionError e || isInvalidInput e = true /\
      count isSend d + 1 = count isAttempt d
  | OutOfFuel => False
  end.

(** What a transport call may carry: a target that starts with [+], has no
    dash and no white space and at least 8 characters, followed by the
    WhatsApp domain, and a text without white space at either end that is
    not empty. *)
Definition noDashOrSpace (s : jsstring) : bool :=
  forallb (fun c => negb ((c =? 45)%N || isWhiteSpace c)) s.

Definition wellFormedSend (e : Effect) : Prop :=
  match e with
  | E_TransportSend _ jid text =>
      exists number,
        jid = number ++ lit "@s.whatsapp.net" /\
        startsWith number (lit "+") = true /\
        noDashOrSpace number = true /\
        8 <= lengthOf number /\
        truthy text = true /\
        trim text = text
  | _ => True
  end.

(** A computation [settles] when it returns, whatever the world: it neither
    throws nor runs out of fuel. *)
Definition settles {A} (m : M A) : Prop :=
  forall w, exists a, result (m w) = Returned a.

(** A [connection.update] that carries only a QR. *)
Definition qrEvent (q : jsstring) : Action :=
  ConnectionUpdate (mkUpdate None None (Some q)).

(** A QR that the handler forwards: not empty and not all white space. *)
Definition validQr (q : jsstring) : bool :=
  truthy q && negb (lengthOf (trim q) =? 0).

(** What [endSocket] logs. *)
Definition endEffects (g : Globals) : list Effect :=
  match sock g with
  | Some s => if endThrows s then [] else [E_SockEnd (sockId s)]
  | None => []
  end.

(** A computation [keepsClock] when it leaves [Date.now()] as it found it:
    it does not pause. *)
Definition keepsClock {A} (m : M A) : Prop :=
  forall w, now (final (m w)) = now w.

(** The world that [generateNewQR] initializes in. *)
Definition preparedWorld (env : Env) (w : World) : World :=
  mkWorld (mkGlobals (socketAfterEnd (vars w)) None false
                     (lastReadyAt (vars w)) 0 false)
          (sessionDir w && rmSyncThrows env (removals w))
          (now w) (timers w) (awaits w) (sends w) (setups w)
          (if sessionDir w then S (removals w) else removals w).


(** Scenarios of the further properties: a setup that fails, a transport
    that loses the connection, a close that is transient, a world in which
    the timer of [messages.upsert] is pending, and one that this timer has
    made ready while the initialization is pending. *)
Definition failingSetupEnv : Env :=
  mkEnv (fun _ g => g) (fun _ => SendOk)
        (fun _ => SetupThrows (Some (lit "ENOENT")) None) (fun _ => false) 401.

Definition droppingEnv : Env :=
  mkEnv (fun _ g => g) (fun _ => SendThrows (Some (lit "Connection lost")))
        (fun n => SetupOk (mkSocket (S n) true false)) (fun _ => false) 401.

Definition transientError : option DisconnectError :=
  Some (mkDisconnectError true (Some 428) (Some (lit "Connection Failure"))).

Definition rejected405 : DisconnectError :=
  mkDisconnectError true (Some 405) (Some (lit "Connection Failure")).

Definition autoReadyPendingWorld : World :=
  mkWorld (mkGlobals (Some (mkSocket 0 true false)) None false None 1 true)
          true 0 [mkTimer 0 3000 AutoReadyAfterMessages] 0 0 0 0.

Definition readyWhileInitializingWorld : World :=
  mkWorld (mkGlobals (Some (mkSocket 0 true false)) None true (Some 3000) 1 true)
          true 3000 [] 0 0 0 0.
(** ** Properties *)

(** *** Reconnection delay *)

Section ReconnectScheduler.

Variable env : Env.

Lemma reinitializationDelay_low a :
  a <= 2 -> reinitializationDelay a = (a + 1) * 3000.
Proof.
  intros Ha. unfold reinitializationDelay.
  destruct (Z.leb_spec a 2); [reflexivity | lia].
Qed.

Lemma reinitializationDelay_high a :
  2 < a -> reinitializationDelay a = (a + 1) * 5000.
Proof.
  intros Ha. unfold reinitializationDelay.
  destruct (Z.leb_spec a 2); [lia | reflexivity].
Qed.

Lemma attemptReinitialization_schedules w :
  initializationAttempts (vars w) < MAX_INITIALIZATION_ATTEMPTS ->
  attemptReinitialization env w =
  mkOutcome (Returned tt)
    (mkWorld (vars w) (sessionDir w) (now w)
       (timers w ++ [mkTimer (now w)
                       (reinitializationDelay (initializationAttempts (vars w)))
                       RetryInitialization])
       (awaits w) (sends w) (setups w) (removals w))
    [].
Proof.
  intros Hlt. unfold attemptReinitialization, bind, getVars. cbn.
  destruct (Z.ltb_spec (initializationAttempts (vars w)) MAX_INITIALIZATION_ATTEMPTS);
    [reflexivity | lia].
Qed.

End ReconnectScheduler.

(** *** The monad *)

Section MonadFacts.

Context {A B : Type}.

Lemma emitted_bind (m : M A) (k : A -> M B) w :
  emitted (bind m k w) =
  emitted (m w) ++
  match result (m w) with
  | Returned a => emitted (k a (final (m w)))
  | _ => []
  end.
Proof.
  unfold bind. destruct (m w) as [[a|e|] w' l]; cbn; auto using app_nil_r.
  now destruct (k a w').
Qed.

Lemma emitted_tryCatch (m : M A) (h : Exn -> M A) w :
  emitted (tryCatch m h w) =
  emitted (m w) ++
  match result (m w) with
  | Thrown e => emitted (h e (final (m w)))
  | _ => []
  end.
Proof.
  unfold tryCatch. destruct (m w) as [[a|e|] w' l]; cbn; auto using app_nil_r.
  now destruct (h e w').
Qed.

Lemma result_bind (m : M A) (k : A -> M B) w :
  result (bind m k w) =
  match result (m w) with
  | Returned a => result (k a (final (m w)))
  | Thrown e => Thrown e
  | OutOfFuel => OutOfFuel
  end.
Proof.
  unfold bind. destruct (m w) as [[a|e|] w' l]; cbn; auto.
  now destruct (k a w').
Qed.

Lemma final_bind (m : M A) (k : A -> M B) w :
  final (bind m k w) =
  match result (m w) with
  | Returned a => final (k a (final (m w)))
  | _ => final (m w)
  end.
Proof.
  unfold bind. destruct (m w) as [[a|e|] w' l]; cbn; auto.
  now destruct (k a w').
Qed.

Lemma result_tryCatch (m : M A) (h : Exn -> M A) w :
  result (tryCatch m h w) =
  match result (m w) with
  | Thrown e => result (h e (final (m w)))
  | r => r
  end.
Proof.
  unfold tryCatch. destruct (m w) as [[a|e|] w' l]; cbn; auto.
  now destruct (h e w').
Qed.

Lemma final_tryCatch (m : M A) (h : Exn -> M A) w :
  final (tryCatch m h w) =
  match result (m w) with
  | Thrown e => final (h e (final (m w)))
  | _ => final (m w)
  end.
Proof.
  unfold tryCatch. destruct (m w) as [[a|e|] w' l]; cbn; auto.
  now destruct (h e w').
Qed.

End MonadFacts.

Lemma deliveryEvents_app l1 l2 :
  deliveryEvents (l1 ++ l2) = deliveryEvents l1 ++ deliveryEvents l2.
Proof.
  induction l1 as [|e l1 IH]; cbn; [reflexivity|].
  destruct (deliveryEventOf e); cbn; now rewrite IH.
Qed.

Create HintDb service.

Section Silent.

Context {A B : Type}.

Lemma silent_ret (a : A) : silent (ret a).
Proof. intro w; reflexivity. Qed.

Lemma silent_throw (e : Exn) : silent (@throw A e).
Proof. intro w; reflexivity. Qed.

Lemma silent_bind (m : M A) (k : A -> M B) :
  silent m -> (forall a, silent (k a)) -> silent (bind m k).
Proof.
  intros Hm Hk w. rewrite emitted_bind, deliveryEvents_app, Hm.
  destruct (result (m w)); cbn; [apply Hk | reflexivity | reflexivity].
Qed.

Lemma silent_tryCatch (m : M A) (h : Exn -> M A) :
  silent m -> (forall e, silent (h e)) -> silent (tryCatch m h).
Proof.
  intros Hm Hh w. rewrite emitted_tryCatch, deliveryEvents_app, Hm.
  destruct (result (m w)); cbn; [reflexivity | apply Hh | reflexivity].
Qed.

Lemma silent_if (b : bool) (m1 m2 : M A) :
  silent m1 -> silent m2 -> silent (if b then m1 else m2).
Proof. destruct b; auto. Qed.

Lemma total_ret (a : A) : total (ret a).
Proof. intro w; discriminate. Qed.

Lemma total_throw (e : Exn) : total (@throw A e).
Proof. intro w; discriminate. Qed.

Lemma total_bind (m : M A) (k : A -> M B) :
  total m -> (forall a, total (k a)) -> total (bind m k).
Proof.
  intros Hm Hk w. rewrite result_bind.
  destruct (result (m w)) eqn:E; [apply Hk | discriminate | now apply Hm in E].
Qed.

Lemma total_tryCatch (m : M A) (h : Exn -> M A) :
  total m -> (forall e, total (h e)) -> total (tryCatch m h).
Proof.
  intros Hm Hh w. rewrite result_tryCatch.
  destruct (result (m w)) eqn:E; [discriminate | apply Hh | now apply Hm in E].
Qed.

Lemma total_if (b : bool) (m1 m2 : M A) :
  total m1 -> total m2 -> total (if b then m1 else m2).
Proof. destruct b; auto. Qed.

End Silent.

Lemma silent_emit e : deliveryEventOf e = None -> silent (emit e).
Proof. intros He w. cbn. now rewrite He. Qed.

Lemma silent_modifyWorld f : silent (modifyWorld f).
Proof. intro w; reflexivity. Qed.

Lemma silent_getWorld : silent getWorld.
Proof. intro w; reflexivity. Qed.

Lemma silent_getVars : silent getVars.
Proof. intro w; reflexivity. Qed.

Lemma total_emit e : total (emit e).
Proof. intro w; discriminate. Qed.

Lemma total_modifyWorld f : total (modifyWorld f).
Proof. intro w; discriminate. Qed.

Lemma total_getWorld : total getWorld.
Proof. intro w; discriminate. Qed.

Lemma total_getVars : total getVars.
Proof. intro w; discriminate. Qed.

#[local] Hint Resolve silent_ret silent_throw silent_bind silent_tryCatch
  silent_if silent_emit silent_modifyWorld silent_getWorld silent_getVars
  total_ret total_throw total_bind total_tryCatch total_if total_emit
  total_modifyWorld total_getWorld total_getVars : service.

Ltac service_auto :=
  repeat (intros;
    match goal with
    | |- silent (match ?x with _ => _ end) => destruct x
    | |- total (match ?x with _ => _ end) => destruct x
    | |- silent (bind _ _) => apply silent_bind
    | |- total (bind _ _) => apply total_bind
    | |- silent (tryCatch _ _) => apply silent_tryCatch
    | |- total (tryCatch _ _) => apply total_tryCatch
    | |- _ => solve [auto with service]
    end).

Section ServiceFacts.

Variable env : Env.

Lemma silent_assign f : silent (assign f).
Proof. apply silent_modifyWorld. Qed.

Lemma total_assign f : total (assign f).
Proof. apply total_modifyWorld. Qed.

Lemma silent_notify n : silent (notify n).
Proof. now apply silent_emit. Qed.

Lemma total_notify n : total (notify n).
Proof. apply total_emit. Qed.

Lemma silent_setTimeout t ms : silent (setTimeout t ms).
Proof. apply silent_modifyWorld. Qed.

Lemma total_setTimeout t ms : total (setTimeout t ms).
Proof. apply total_modifyWorld. Qed.

Lemma silent_suspend : silent (suspend env).
Proof. apply silent_modifyWorld. Qed.

Lemma total_suspend : total (suspend env).
Proof. apply total_modifyWorld. Qed.

Hint Resolve silent_assign total_assign silent_notify total_notify
  silent_setTimeout total_setTimeout silent_suspend total_suspend : service.

Lemma silent_endSocket : silent (endSocket).
Proof. unfold endSocket. service_auto. Qed.

Lemma total_endSocket : total (endSocket).
Proof. unfold endSocket. service_auto. Qed.

Lemma silent_rmSync : silent (rmSync env).
Proof. intro w. unfold rmSync. now destruct (rmSyncThrows env (removals w)). Qed.

Lemma total_rmSync : total (rmSync env).
Proof. intro w. unfold rmSync. now destruct (rmSyncThrows env (removals w)). Qed.

Hint Resolve silent_endSocket total_endSocket silent_rmSync total_rmSync : service.

Lemma silent_clearSessionData : silent (clearSessionData env).
Proof. unfold clearSessionData. service_auto. Qed.

Lemma total_clearSessionData : total (clearSessionData env).
Proof. unfold clearSessionData. service_auto. Qed.

Hint Resolve silent_clearSessionData total_clearSessionData : service.

Lemma silent_attemptReinitialization : silent (attemptReinitialization env).
Proof. unfold attemptReinitialization. service_auto. Qed.

Lemma total_attemptReinitialization : total (attemptReinitialization env).
Proof. unfold attemptReinitialization. service_auto. Qed.

Hint Resolve silent_attemptReinitialization total_attemptReinitialization : service.

Lemma silent_createSocket : silent (createSocket env).
Proof.
  unfold createSocket. apply silent_bind; [auto with service|].
  intros _ w. now destruct (authSetup env (setups w)).
Qed.

Lemma total_createSocket : total (createSocket env).
Proof.
  unfold createSocket. apply total_bind; [auto with service|].
  intros _ w. now destruct (authSetup env (setups w)).
Qed.

Hint Resolve silent_createSocket total_createSocket : service.

Lemma silent_initializeClient : silent (initializeClient env).
Proof.
  unfold initializeClient, initializeClient_catch, mkdirSync. service_auto.
Qed.

Lemma total_initializeClient : total (initializeClient env).
Proof.
  unfold initializeClient, initializeClient_catch, mkdirSync. service_auto.
Qed.

End ServiceFacts.

(** *** The handlers *)

Section Handlers.

Variable env : Env.

Lemma clearSessionData_eq w :
  clearSessionData env w =
  mkOutcome (Returned tt) (clearedWorld env w) (clearingEffects env w).
Proof.
  unfold clearSessionData, clearedWorld, clearingEffects, socketAfterEnd,
    endSocket, rmSync, bind, getVars, getWorld, assign, modifyWorld, notify,
    emit, ret, setVars.
  destruct w as [[sk q r ra n i] d t ts a sn st rm]; cbn.
  destruct sk as [s|]; [destruct (endThrows s)|]; cbn;
    (destruct d; cbn; [destruct (rmSyncThrows env rm)|]; reflexivity).
Qed.

Lemma session_cleared_notified w :
  In (E_Notify (N_session_cleared (now w))) (clearingEffects env w).
Proof. unfold clearingEffects. rewrite !in_app_iff. cbn. auto. Qed.

Arguments clearSessionData : simpl never.
Arguments attemptReinitialization : simpl never.

Lemma attemptReinitialization_exhausted w :
  MAX_INITIALIZATION_ATTEMPTS <= initializationAttempts (vars w) ->
  attemptReinitialization env w =
  mkOutcome (Returned tt) (clearedWorld env w)
    (clearingEffects env w ++
     [E_Notify (N_auth_failure MaxAttemptsReached (now w))]).
Proof.
  intros Hge. unfold attemptReinitialization, bind, getVars. cbn.
  destruct (Z.ltb_spec (initializationAttempts (vars w)) MAX_INITIALIZATION_ATTEMPTS);
    [lia|].
  rewrite clearSessionData_eq. reflexivity.
Qed.

Lemma reconnectTimers_app l1 l2 :
  reconnectTimers (l1 ++ l2) = reconnectTimers l1 ++ reconnectTimers l2.
Proof. apply filter_app. Qed.

Lemma retryDelays_app l1 l2 :
  retryDelays (l1 ++ l2) = retryDelays l1 ++ retryDelays l2.
Proof. unfold retryDelays. now rewrite filter_app, map_app. Qed.

(** C9.  A call of [initializeClient] while [isInitializing] is set returns
    at once: it only logs that an initialization is in progress, and the
    socket, the QR, the readiness, the attempt counter and everything else
    are as before. *)
Theorem initializeClient_reentrant_noop (w : World) :
  isInitializing (vars w) = true ->
  initializeClient env w = mkOutcome (Returned tt) w [E_Log L_init_in_progress].
Proof.
  intros H. unfold initializeClient, bind, getVars. cbn. rewrite H. reflexivity.
Qed.

(** C8.  When the attempt counter has reached [MAX_INITIALIZATION_ATTEMPTS],
    [attemptReinitialization] schedules nothing: it clears the session (the
    session directory is removed unless [rmSync] throws) and sends the
    [auth_failure] notification "Maximum initialization attempts reached".
    The catch block of [initializeClient] (lines 468-476) schedules nothing
    either: after its [init_failure] notification, which carries the number
    of attempts, it clears the session, and [clearSessionData] sends
    [session_cleared]. *)
Theorem max_attempts_permanent_failure (w : World) :
  MAX_INITIALIZATION_ATTEMPTS <= initializationAttempts (vars w) ->
  (let o := attemptReinitialization env w in
   result o = Returned tt /\
   timers (final o) = timers w /\
   setups (final o) = setups w /\
   (rmSyncThrows env (removals w) = false -> sessionDir (final o) = false) /\
   isReady (vars (final o)) = false /\
   lastQr (vars (final o)) = None /\
   isInitializing (vars (final o)) = false /\
   In (E_Notify (N_session_cleared (now w))) (emitted o) /\
   In (E_Notify (N_auth_failure MaxAttemptsReached (now w))) (emitted o)) /\
  (forall error,
   let o := initializeClient_catch env error w in
   result o = Thrown error /\
   timers (final o) = timers w /\
   setups (final o) = setups w /\
   (rmSyncThrows env (removals w) = false -> sessionDir (final o) = false) /\
   isReady (vars (final o)) = false /\
   lastQr (vars (final o)) = None /\
   isInitializing (vars (final o)) = false /\
   In (E_Notify (N_init_failure (exnMessage error) (exnCode error) (now w)
                                (initializationAttempts (vars w)))) (emitted o) /\
   In (E_Notify (N_session_cleared (now w))) (emitted o)).
Proof.
  intros Hge. split.
  - rewrite attemptReinitialization_exhausted by assumption. cbn.
    repeat split; auto.
    + intros H. rewrite H. apply andb_false_r.
    + apply in_or_app. left. apply session_cleared_notified.
    + apply in_or_app. right. now left.
  - intros error. unfold initializeClient_catch, bind, getWorld, assign, notify. cbn.
    destruct (Z.ltb_spec (initializationAttempts (vars w)) MAX_INITIALIZATION_ATTEMPTS);
      [lia|].
    rewrite clearSessionData_eq. cbn.
    repeat split; auto.
    + intros E. rewrite E. apply andb_false_r.
    + right. rewrite app_nil_r.
      apply (session_cleared_notified
               (setVars (set_isInitializing false)
                  (setVars (set_lastQr None) (setVars (set_isReady false) w)))).
Qed.

(** A close that reconnects, met with the counter at 0, adds one
    reinitialization, due after the delay of attempt 0. *)
Lemma onClose_from_zero w error :
  shouldReconnect env error = true ->
  initializationAttempts (vars w) = 0 ->
  retryDelays (timers (final (onClose env error w))) =
  retryDelays (timers w) ++ [reinitializationDelay 0].
Proof.
  intros Hs H0. unfold onClose. rewrite Hs.
  unfold handle405Error_start, bind, getWorld, assign, notify, setTimeout.
  destruct (optZ_eqb (errorCodeOf error) (Some 405)); cbn;
    [|destruct (optZ_eqb (errorCodeOf error) (Some 401)); cbn];
    rewrite ?clearSessionData_eq; cbn;
    rewrite ?attemptReinitialization_schedules by (cbn; rewrite ?H0; reflexivity);
    cbn; unfold retryDelays; rewrite ?filter_app, ?map_app; cbn;
    rewrite ?H0, ?app_nil_r; reflexivity.
Qed.

(** C5.  A [connection.update] with [connection === 'open'] sets the attempt
    counter to 0, records readiness and its time, clears [isInitializing] and
    sends the [ready] notification; the next close that reconnects is
    scheduled with the delay of attempt 0. *)
Theorem open_resets_attempts (u : Update) (w : World) :
  connection u = Some ConnOpen ->
  blankQr u = false ->
  let o := onConnectionUpdate env u w in
  result o = Returned tt /\
  initializationAttempts (vars (final o)) = 0 /\
  isReady (vars (final o)) = true /\
  lastReadyAt (vars (final o)) = Some (now w) /\
  isInitializing (vars (final o)) = false /\
  In (E_Notify (N_ready (Some (now w)) false)) (emitted o) /\
  (forall error,
     shouldReconnect env error = true ->
     retryDelays (timers (final (onClose env error (final o)))) =
     retryDelays (timers (final o)) ++ [reinitializationDelay 0]).
Proof.
  intros Hc Hq. unfold onConnectionUpdate, blankQr in *. rewrite Hc.
  destruct (qr u) as [q|]; [destruct (truthy q); cbn in Hq|];
    unfold onQr, onOpen, bind, getWorld, assign, notify, setTimeout; cbn;
    rewrite ?Hq; cbn; repeat split; auto; intros;
    apply onClose_from_zero; auto.
Qed.


(** C1.  What [attemptReinitialization] schedules, against the policy of
    the claim.  For a counter [a] in [0, 5) the next initialization is
    scheduled after [reinitializationDelay a]: the delay of the claim when
    [a] is 0, 1, 3 or 4, but 9 seconds when [a] is 2, where the claim says
    15: the tier test of line 487 is [<= 2], although the comment of line
    488 gives the first tier two attempts.  A close with code 405 that
    reconnects has the session cleared first, which resets the counter; it
    leaves two timers pending, the recovery of [handle405Error] after 2
    seconds and the reinitialization after 3 seconds, the shortest delay
    there is, whatever the counter was: nothing is multiplied, where the
    claim doubles the delay (6 seconds at least) and lines 482 and 485
    announce a slower backoff for 405. *)
Theorem reconnect_delay (w : World) (a : Z) :
  initializationAttempts (vars w) = a ->
  0 <= a < MAX_INITIALIZATION_ATTEMPTS ->
  (let o := attemptReinitialization env w in
   result o = Returned tt /\
   emitted o = [] /\
   vars (final o) = vars w /\
   timers (final o) =
   timers w ++ [mkTimer (now w) (reinitializationDelay a) RetryInitialization] /\
   (a <> 2 -> reinitializationDelay a = nextDelay_spec a Transient) /\
   (a = 2 ->
    reinitializationDelay a = 9000 /\ nextDelay_spec a Transient = 15000)) /\
  (forall error,
     errorCodeOf error = Some 405 ->
     shouldReconnect env error = true ->
     timers (final (onClose env error w)) =
     timers w ++ [mkTimer (now w) 2000 Recover405;
                  mkTimer (now w) 3000 RetryInitialization] /\
     6000 <= nextDelay_spec a ProtocolRejected).
Proof.
  intros Ha Hr. split.
  - rewrite attemptReinitialization_schedules by (rewrite Ha; apply Hr).
    cbn [result emitted final vars timers]. rewrite Ha.
    do 4 (split; [reflexivity|]). split.
    + intros H2. unfold nextDelay_spec.
      destruct (Z.leb_spec a 1);
        [rewrite reinitializationDelay_low by lia
        |rewrite reinitializationDelay_high by lia]; lia.
    + intros ->. split; reflexivity.
  - intros error H405 Hs. split.
    + unfold onClose. rewrite Hs, H405.
      unfold handle405Error_start, bind, getWorld, assign, notify, setTimeout.
      cbn. rewrite clearSessionData_eq. cbn.
      rewrite attemptReinitialization_schedules by reflexivity.
      cbn. now rewrite <- app_assoc.
    + unfold nextDelay_spec, MAX_INITIALIZATION_ATTEMPTS in *.
      destruct (a <=? 1); lia.
Qed.

(** C6, as the code has it.  A close with code 401 clears the session (the
    directory is removed unless [rmSync] throws; [session_cleared] and
    [session_auto_cleared] are sent), and leaves the client not ready with no
    QR held.  A reinitialization is scheduled, 3 seconds ahead from a counter
    reset to 0, exactly when line 289 says to reconnect: when the error is
    not a Boom error or [DisconnectReason.loggedOut] is not 401.  Otherwise
    nothing is scheduled and the logged-out notification is sent. *)
Theorem unauthorized_close (u : Update) (e : DisconnectError) (w : World) :
  connection u = Some ConnClose ->
  lastDisconnect u = Some e ->
  statusCode e = Some 401 ->
  blankQr u = false ->
  let o := onConnectionUpdate env u w in
  result o = Returned tt /\
  (rmSyncThrows env (removals w) = false -> sessionDir (final o) = false) /\
  In (E_Notify (N_session_cleared (now w))) (emitted o) /\
  In (E_Notify (N_session_auto_cleared Unauthorized401 (now w))) (emitted o) /\
  isReady (vars (final o)) = false /\
  lastQr (vars (final o)) = None /\
  shouldReconnect env (Some e) = negb (isBoom e && (loggedOut env =? 401)) /\
  (shouldReconnect env (Some e) = true ->
   reconnectTimers (timers (final o)) =
   reconnectTimers (timers w) ++
   [mkTimer (now w) (reinitializationDelay 0) RetryInitialization]) /\
  (shouldReconnect env (Some e) = false ->
   reconnectTimers (timers (final o)) = reconnectTimers (timers w) /\
   setups (final o) = setups w /\
   In (E_Notify (N_auth_failure LoggedOutFromWhatsApp (now w))) (emitted o)).
Proof.
  intros Hc Hd Hs Hq.
  assert (Hsr : shouldReconnect env (Some e) = negb (isBoom e && (loggedOut env =? 401))).
  { unfold shouldReconnect. rewrite Hs. cbn. rewrite Z.eqb_sym. now destruct (isBoom e). }
  unfold onConnectionUpdate, blankQr in *. rewrite Hc, Hd.
  unfold onClose, errorCodeOf. rewrite Hs. cbn [optZ_eqb Z.eqb Pos.eqb].
  destruct (shouldReconnect env (Some e)) eqn:Hsh;
    (destruct (qr u) as [q|]; [destruct (truthy q); cbn in Hq|]);
    unfold onQr, bind, getWorld, assign, notify, setTimeout; cbn;
    rewrite ?Hq; cbn; rewrite clearSessionData_eq; cbn;
    rewrite ?attemptReinitialization_schedules by reflexivity; cbn;
    unfold reconnectTimers; rewrite ?filter_app; cbn; rewrite ?app_nil_r.
  all: repeat split; auto; try discriminate;
    try (intros Hrm; rewrite Hrm; apply andb_false_r);
    try solve [unfold clearingEffects; rewrite ?in_app_iff; cbn [In]; auto 12].
Qed.


Lemma reconnectTimers_removeNth i ts :
  reconnectTimers ts = [] -> reconnectTimers (removeNth i ts) = [].
Proof.
  revert i. induction ts as [|t ts IH]; intros [|i] H; cbn in *; auto;
    destruct (startsInitialization t); try discriminate; auto.
Qed.

Lemma reconnectTimers_nth i ts t :
  reconnectTimers ts = [] -> nth_error ts i = Some t ->
  startsInitialization t = false.
Proof.
  revert i. induction ts as [|t' ts IH]; intros [|i] H Hn; cbn in *;
    try discriminate.
  - injection Hn as <-. now destruct (startsInitialization t').
  - destruct (startsInitialization t'); try discriminate. eauto.
Qed.

(** While no reinitialization is pending, an action that is neither a call
    from outside nor a close starts none. *)
Lemma passive_step a w :
  passive a = true ->
  reconnectTimers (timers w) = [] ->
  let o := step env a w in
  result o = Returned tt /\
  reconnectTimers (timers (final o)) = [] /\
  setups (final o) = setups w.
Proof.
  intros Hp Hr. destruct a as [|u|ms|i]; cbn [step passive] in *.
  - discriminate.
  - unfold onConnectionUpdate.
    destruct (qr u) as [q|]; [destruct (truthy q)|];
      unfold onQr, bind, assign, notify, setTimeout, getWorld; cbn;
      try (destruct (lengthOf (trim q) =? 0); cbn; [auto|]);
      (destruct (connection u) as [[| |]|]; try discriminate;
       unfold onOpen, bind, assign, notify, getWorld; cbn;
       unfold reconnectTimers; rewrite ?filter_app; cbn;
       fold (reconnectTimers (timers w)); rewrite ?Hr; auto).
  - unfold onMessagesUpsert, bind, getVars, setTimeout. cbn.
    destruct ms as [ms|]; cbn; auto.
    destruct (negb (isReady (vars w)) && (0 <? Z.of_nat (List.length ms))); cbn;
      unfold reconnectTimers; rewrite ?filter_app; cbn;
      fold (reconnectTimers (timers w)); rewrite ?Hr; auto.
  - unfold fireTimer, bind, getWorld. cbn.
    destruct (nth_error (timers w) i) as [t|] eqn:Hn; cbn; auto.
    pose proof (reconnectTimers_nth _ _ Hr Hn) as Ht.
    pose proof (reconnectTimers_removeNth i _ Hr) as Hrem.
    unfold startsInitialization in Ht.
    destruct (task t); try discriminate;
      unfold runTask, autoReadyAfterQr, autoReadyAfterMessages, bind,
        getVars, getWorld, assign, notify; cbn.
    + destruct (sock (vars w)) as [s|]; cbn; auto.
      destruct (negb (isReady (vars w)) && truthyOpt (lastQr (vars w))); cbn; auto.
      destruct (hasSendMessage s); cbn; auto.
    + destruct (negb (isReady (vars w)) && isSome (sock (vars w))); cbn; auto.
Qed.

Lemma passive_run actions : forall w,
  forallb passive actions = true ->
  reconnectTimers (timers w) = [] ->
  let o := run env actions w in
  result o = Returned tt /\
  reconnectTimers (timers (final o)) = [] /\
  setups (final o) = setups w.
Proof.
  induction actions as [|a actions IH]; intros w Hp Hr; cbn [run].
  - cbn. auto.
  - cbn in Hp. apply andb_true_iff in Hp as [Ha Hp].
    destruct (passive_step a w Ha Hr) as (H1 & H2 & H3).
    destruct (IH (final (step env a w)) Hp H2) as (H4 & H5 & H6).
    cbv zeta. rewrite result_bind, final_bind, H1. cbv zeta in H4, H5, H6.
    rewrite H4, H5, H6. auto.
Qed.

(** C4.  A close whose Boom error carries [DisconnectReason.loggedOut]
    clears readiness and the QR, sends the [auth_failure] notification
    "Logged out from WhatsApp" and schedules no reinitialization; if none was
    pending, no socket is created afterwards, whatever timers fire and
    whatever messages, QR or open events arrive. *)
Theorem logged_out_no_reconnect (u : Update) (e : DisconnectError) (w : World) :
  connection u = Some ConnClose ->
  lastDisconnect u = Some e ->
  isBoom e = true ->
  statusCode e = Some (loggedOut env) ->
  loggedOut env <> 405 ->
  blankQr u = false ->
  let o := onConnectionUpdate env u w in
  result o = Returned tt /\
  isReady (vars (final o)) = false /\
  lastQr (vars (final o)) = None /\
  In (E_Notify (N_auth_failure LoggedOutFromWhatsApp (now w))) (emitted o) /\
  reconnectTimers (timers (final o)) = reconnectTimers (timers w) /\
  setups (final o) = setups w /\
  (reconnectTimers (timers w) = [] ->
   forall actions,
     forallb passive actions = true ->
     setups (final (run env actions (final o))) = setups w).
Proof.
  intros Hc Hd Hb Hs Hl Hq.
  assert (Hmain : let o := onConnectionUpdate env u w in
    result o = Returned tt /\
    isReady (vars (final o)) = false /\
    lastQr (vars (final o)) = None /\
    In (E_Notify (N_auth_failure LoggedOutFromWhatsApp (now w))) (emitted o) /\
    reconnectTimers (timers (final o)) = reconnectTimers (timers w) /\
    setups (final o) = setups w).
  { unfold onConnectionUpdate, blankQr in *. rewrite Hc, Hd.
    unfold onClose, shouldReconnect, errorCodeOf. rewrite Hb, Hs.
    cbn [optZ_eqb negb]. rewrite Z.eqb_refl. cbn [negb].
    destruct (Z.eqb_spec (loggedOut env) 405) as [|_]; [contradiction|].
    destruct (loggedOut env =? 401);
      (destruct (qr u) as [q|]; [destruct (truthy q); cbn in Hq|]);
      unfold onQr, bind, getWorld, assign, notify, setTimeout; cbn;
      rewrite ?Hq; cbn; rewrite ?clearSessionData_eq; cbn;
      unfold reconnectTimers; rewrite ?filter_app; cbn; rewrite ?app_nil_r;
      repeat split; auto;
      try solve [unfold clearingEffects; rewrite ?in_app_iff; cbn [In]; auto 12]. }
  cbv zeta in *. destruct Hmain as (H1 & H2 & H3 & H4 & H5 & H6).
  repeat split; auto.
  intros Hr actions Hp. rewrite Hr in H5.
  destruct (passive_run actions _ Hp H5) as (_ & _ & H7).
  cbv zeta in H7. congruence.
Qed.


Lemma nth_error_last {A} (l : list A) (x : A) :
  nth_error (l ++ [x]) (List.length l) = Some x.
Proof. induction l; cbn; auto. Qed.

Lemma removeNth_last {A} (l : list A) (x : A) :
  removeNth (List.length l) (l ++ [x]) = l.
Proof. induction l; cbn; congruence. Qed.

(** C10.  With a socket that can send and the client not ready, a [qr] event
    followed 30 seconds later by its timer leaves the client ready, the time
    recorded and a [ready] notification marked [autoReady] sent; a
    [messages.upsert] with at least one message followed 3 seconds later by
    its timer leaves the client ready too.  No [connection === 'open'] event
    is involved, and the state is reached from the initial one. *)
Theorem auto_ready_without_open (w : World) (s : Socket) :
  sock (vars w) = Some s ->
  hasSendMessage s = true ->
  isReady (vars w) = false ->
  (forall q,
     truthy q = true ->
     (lengthOf (trim q) =? 0) = false ->
     let o := run env [ConnectionUpdate (mkUpdate None None (Some q));
                       TimerFires (List.length (timers w))] w in
     result o = Returned tt /\
     isReady (vars (final o)) = true /\
     lastReadyAt (vars (final o)) = Some (now w + 30000) /\
     now (final o) = now w + 30000 /\
     emitted o = [E_Notify (N_qr q); E_IpcEmitQr q;
                  E_Notify (N_ready (Some (now w + 30000)) true)]) /\
  (forall m ms,
     let o := run env [MessagesUpsert (Some (m :: ms));
                       TimerFires (List.length (timers w))] w in
     result o = Returned tt /\
     isReady (vars (final o)) = true /\
     lastReadyAt (vars (final o)) = Some (now w + 3000) /\
     now (final o) = now w + 3000 /\
     emitted o = []) /\
  (exists actions,
     forallb (fun a => negb (isOpenUpdate a)) actions = true /\
     isReady (vars (final (run quietEnv actions initialWorld))) = true).
Proof.
  intros Hs Hh Hr. split; [|split].
  - intros q Hq Hb.
    unfold run, step, onConnectionUpdate, onQr, fireTimer, bind, getWorld,
      assign, notify, setTimeout. cbn.
    rewrite Hq. cbn. rewrite Hb. cbn.
    rewrite nth_error_last. cbn.
    unfold autoReadyAfterQr, bind, getVars, getWorld, assign, notify. cbn.
    rewrite Hs, Hr, Hq, Hh. cbn.
    replace (Z.max (now w) (now w + 30000)) with (now w + 30000) by lia.
    auto.
  - intros m ms.
    unfold run, step, onMessagesUpsert, fireTimer, bind, getWorld, getVars,
      setTimeout. cbn [vars].
    rewrite Hr. cbn.
    rewrite nth_error_last. cbn.
    unfold autoReadyAfterMessages, bind, getVars, getWorld, assign. cbn.
    rewrite Hs, Hr. cbn.
    replace (Z.max (now w) (now w + 3000)) with (now w + 3000) by lia.
    auto.
  - exists [Start; ConnectionUpdate (mkUpdate None None (Some (lit "ABC")));
            TimerFires 0].
    split; reflexivity.
Qed.

End Handlers.

(** *** Delivery *)

Section KeepsSends.

Context {A B : Type}.

Lemma keepsSends_ret (a : A) : keepsSends (ret a).
Proof. intro w; reflexivity. Qed.

Lemma keepsSends_throw (e : Exn) : keepsSends (@throw A e).
Proof. intro w; reflexivity. Qed.

Lemma keepsSends_bind (m : M A) (k : A -> M B) :
  keepsSends m -> (forall a, keepsSends (k a)) -> keepsSends (bind m k).
Proof.
  intros Hm Hk w. rewrite final_bind.
  destruct (result (m w)); [rewrite Hk| |]; apply Hm.
Qed.

Lemma keepsSends_tryCatch (m : M A) (h : Exn -> M A) :
  keepsSends m -> (forall e, keepsSends (h e)) -> keepsSends (tryCatch m h).
Proof.
  intros Hm Hh w. rewrite final_tryCatch.
  destruct (result (m w)); [|rewrite Hh|]; apply Hm.
Qed.

Lemma keepsSends_if (b : bool) (m1 m2 : M A) :
  keepsSends m1 -> keepsSends m2 -> keepsSends (if b then m1 else m2).
Proof. destruct b; auto. Qed.

End KeepsSends.

Lemma keepsSends_emit e : keepsSends (emit e).
Proof. intro w; reflexivity. Qed.

Lemma keepsSends_getWorld : keepsSends getWorld.
Proof. intro w; reflexivity. Qed.

Lemma keepsSends_getVars : keepsSends getVars.
Proof. intro w; reflexivity. Qed.

Lemma keepsSends_assign f : keepsSends (assign f).
Proof. intro w; reflexivity. Qed.

Lemma keepsSends_notify n : keepsSends (notify n).
Proof. intro w; reflexivity. Qed.

Lemma keepsSends_setTimeout t ms : keepsSends (setTimeout t ms).
Proof. intro w; reflexivity. Qed.

#[local] Hint Resolve keepsSends_ret keepsSends_throw keepsSends_bind
  keepsSends_tryCatch keepsSends_if keepsSends_emit keepsSends_getWorld
  keepsSends_getVars keepsSends_assign keepsSends_notify
  keepsSends_setTimeout : service.

Ltac sends_auto :=
  repeat (intros;
    match goal with
    | |- keepsSends (match ?x with _ => _ end) => destruct x
    | |- keepsSends (bind _ _) => apply keepsSends_bind
    | |- keepsSends (tryCatch _ _) => apply keepsSends_tryCatch
    | |- _ => solve [auto with service]
    end).

Section NoTransportCall.

Variable env : Env.

Lemma keepsSends_suspend : keepsSends (suspend env).
Proof. intro w; reflexivity. Qed.

Lemma keepsSends_sleep site ms : keepsSends (sleep env site ms).
Proof. intro w; reflexivity. Qed.

Lemma keepsSends_endSocket : keepsSends endSocket.
Proof. unfold endSocket. sends_auto. Qed.

Lemma keepsSends_rmSync : keepsSends (rmSync env).
Proof. intro w. unfold rmSync. now destruct (rmSyncThrows env (removals w)). Qed.

Hint Resolve keepsSends_suspend keepsSends_sleep keepsSends_endSocket
  keepsSends_rmSync : service.

Lemma keepsSends_clearSessionData : keepsSends (clearSessionData env).
Proof. unfold clearSessionData. sends_auto. Qed.

Hint Resolve keepsSends_clearSessionData : service.

Lemma keepsSends_attemptReinitialization :
  keepsSends (attemptReinitialization env).
Proof. unfold attemptReinitialization. sends_auto. Qed.

Hint Resolve keepsSends_attemptReinitialization : service.

Lemma keepsSends_createSocket : keepsSends (createSocket env).
Proof.
  unfold createSocket. apply keepsSends_bind; [auto with service|].
  intros _ w. now destruct (authSetup env (setups w)).
Qed.

Hint Resolve keepsSends_createSocket : service.

Lemma keepsSends_initializeClient : keepsSends (initializeClient env).
Proof.
  unfold initializeClient, initializeClient_catch, mkdirSync.
  sends_auto; intro w; reflexivity.
Qed.

Lemma keepsSends_reinitializeConnection :
  keepsSends (tryCatch (reinitializeConnection env) (fun _ => ret tt)).
Proof.
  unfold reinitializeConnection.
  pose proof keepsSends_initializeClient. sends_auto.
Qed.

Lemma keepsSends_waitForReady n : keepsSends (waitForReady env n).
Proof. induction n; cbn [waitForReady]; sends_auto. Qed.

Lemma keepsSends_checkConnection : keepsSends (checkConnection env).
Proof.
  unfold checkConnection. pose proof keepsSends_waitForReady. sends_auto.
Qed.

End NoTransportCall.

Section DeliveryFacts.

Variable env : Env.

Hint Resolve silent_assign total_assign : service.

Lemma lengthOf_zero s : (lengthOf s =? 0) = negb (truthy s).
Proof. destruct s; cbn; reflexivity. Qed.

Lemma truthy_short s : truthy s = false -> (lengthOf s <? 8) = true.
Proof. destruct s; [reflexivity | discriminate]. Qed.

Lemma trim_empty_text text : truthy text = false -> truthy (trim text) = false.
Proof. destruct text; [reflexivity | discriminate]. Qed.

Lemma validate_invalid phone text :
  invalidInput phone text = true ->
  exists error, validate phone text = inl error /\ isInvalidInput error = true.
Proof.
  unfold invalidInput, validate. rewrite lengthOf_zero.
  destruct (truthy phone); cbn; [|eauto].
  destruct (truthy text) eqn:Ht; cbn.
  - destruct (truthy (trim text)); cbn; [|eauto].
    rewrite orb_false_r. intros H. rewrite H, orb_true_r. eauto.
  - eauto.
Qed.

Lemma validate_valid phone text :
  invalidInput phone text = false ->
  validate phone text =
  inr (finalNumberOf (removeDashesAndSpaces phone), trim text).
Proof.
  unfold invalidInput, validate. rewrite lengthOf_zero.
  intros H. apply orb_false_iff in H as [H Ht].
  apply orb_false_iff in H as [Hp Hl].
  apply negb_false_iff in Hp, Ht. rewrite Hp, Ht, Hl. cbn.
  destruct (truthy text) eqn:E; cbn.
  - destruct (truthy (removeDashesAndSpaces phone)) eqn:E2; cbn; [reflexivity|].
    apply truthy_short in E2. congruence.
  - apply trim_empty_text in E. congruence.
Qed.

Lemma silent_sleep site ms : site <> RetryDelay -> silent (sleep env site ms).
Proof.
  intros H. unfold sleep, advanceClock, suspend. service_auto.
  apply silent_emit. destruct site; cbn; congruence.
Qed.

Lemma total_sleep site ms : total (sleep env site ms).
Proof. unfold sleep, advanceClock, suspend. service_auto. Qed.

Lemma silent_waitForReady n : silent (waitForReady env n).
Proof.
  induction n; cbn [waitForReady]; service_auto;
    try apply total_sleep; try (apply silent_sleep; discriminate).
Qed.

Lemma total_waitForReady n : total (waitForReady env n).
Proof.
  induction n; cbn [waitForReady]; service_auto;
    try apply total_sleep; try (apply silent_sleep; discriminate).
Qed.

Lemma silent_checkConnection : silent (checkConnection env).
Proof. unfold checkConnection. service_auto; try apply silent_waitForReady. Qed.

Lemma total_checkConnection : total (checkConnection env).
Proof. unfold checkConnection. service_auto; try apply total_waitForReady. Qed.


Hint Resolve silent_checkConnection total_checkConnection
  silent_initializeClient total_initializeClient
  silent_endSocket total_endSocket silent_assign total_assign : service.

Lemma deliveryEvents_bind {A B} (m : M A) (k : A -> M B) w :
  deliveryEvents (emitted (bind m k w)) =
  deliveryEvents (emitted (m w)) ++
  match result (m w) with
  | Returned a => deliveryEvents (emitted (k a (final (m w))))
  | _ => []
  end.
Proof.
  rewrite emitted_bind, deliveryEvents_app. now destruct (result (m w)).
Qed.

Lemma deliveryEvents_tryCatch {A} (m : M A) (h : Exn -> M A) w :
  deliveryEvents (emitted (tryCatch m h w)) =
  deliveryEvents (emitted (m w)) ++
  match result (m w) with
  | Thrown e => deliveryEvents (emitted (h e (final (m w))))
  | _ => []
  end.
Proof.
  rewrite emitted_tryCatch, deliveryEvents_app. now destruct (result (m w)).
Qed.

Lemma reinitializeConnection_events w :
  deliveryEvents (emitted (reinitializeConnection env w)) = [D_Reinitialize].
Proof.
  unfold reinitializeConnection. rewrite deliveryEvents_bind. cbn.
  f_equal. apply (silent_bind (B := unit)); service_auto;
    try (apply silent_sleep; discriminate).
Qed.

Lemma total_reinitializeConnection : total (reinitializeConnection env).
Proof. unfold reinitializeConnection. service_auto; apply total_sleep. Qed.

Lemma guarded_reinitialization w :
  let o := tryCatch (reinitializeConnection env) (fun _ => ret tt) w in
  result o = Returned tt /\ deliveryEvents (emitted o) = [D_Reinitialize].
Proof.
  cbv zeta. rewrite result_tryCatch, deliveryEvents_tryCatch,
    reinitializeConnection_events.
  pose proof (total_reinitializeConnection w) as Ht.
  destruct (result (reinitializeConnection env w)) as [[]| |]; cbn; auto.
  contradiction.
Qed.

Lemma transportCall_events s jid text w :
  deliveryEvents (emitted (transportCall env s jid text w)) = [D_Send] /\
  result (transportCall env s jid text w) <> OutOfFuel.
Proof.
  unfold transportCall, bind, getWorld, emit, modifyWorld, suspend,
    advanceClock, throw, ret. cbn.
  destruct (transportSend env (sends w)); cbn; split; auto; discriminate.
Qed.

Lemma retryDelay_events w :
  let o := sleep env RetryDelay RETRY_DELAY w in
  result o = Returned tt /\
  deliveryEvents (emitted o) = [D_RetryDelay RETRY_DELAY].
Proof. split; reflexivity. Qed.

Lemma sendMessage_fuel_schedule phone text fuel : forall retryCount w,
  (0 < fuel)%nat ->
  MAX_RETRIES - retryCount < Z.of_nat fuel ->
  RetrySchedule retryCount
    (deliveryEvents (emitted (sendMessage_fuel env fuel phone text retryCount w))).
Proof.
  induction fuel as [|fuel IH]; intros k w Hpos Hf; [lia|].
  cbn [sendMessage_fuel].
  rewrite deliveryEvents_bind. cbn [emit result final emitted deliveryEvents
    deliveryEventOf app].
  rewrite deliveryEvents_bind, silent_checkConnection. cbn [app].
  destruct (result (checkConnection env w)) as [s| |]; try constructor.
  destruct (validate phone text) as [error|[finalNumber trimmed]];
    [constructor|].
  rewrite deliveryEvents_tryCatch, deliveryEvents_bind.
  set (w1 := final (checkConnection env w)).
  destruct (transportCall_events s (jidOf finalNumber) trimmed w1) as [Hs Ht].
  rewrite Hs, result_bind.
  destruct (result (transportCall env s (jidOf finalNumber) trimmed w1))
    as [[]|error|]; cbn [app ret result emitted deliveryEvents];
    try constructor.
  set (w2 := final _).
  destruct (nullishOf error) as [v|]; [constructor|].
  destruct (isRecoverableError error && (k <? MAX_RETRIES)) eqn:Hc;
    [|constructor].
  apply andb_true_iff in Hc as [_ Hk]. apply Z.ltb_lt in Hk.
  assert (Hpos' : (0 < fuel)%nat) by (unfold MAX_RETRIES in *; lia).
  assert (Hf' : MAX_RETRIES - (k + 1) < Z.of_nat fuel) by lia.
  rewrite deliveryEvents_bind. cbn [emit result final emitted deliveryEvents
    deliveryEventOf app].
  rewrite deliveryEvents_bind.
  destruct (retryDelay_events w2) as [Hr He]. cbv zeta in Hr, He.
  rewrite Hr, He. cbn [app].
  rewrite deliveryEvents_bind.
  set (w3 := final (sleep env RetryDelay RETRY_DELAY w2)).
  destruct (k =? 0) eqn:Hk0.
  - destruct (guarded_reinitialization w3) as [Hg Hd]. cbv zeta in Hg, Hd.
    rewrite Hg, Hd.
    pose proof (RS_retry Hk (IH (k + 1) (final (tryCatch
      (reinitializeConnection env) (fun _ => ret tt) w3)) Hpos' Hf')) as R.
    rewrite Hk0 in R. exact R.
  - cbn [ret result final emitted deliveryEvents app].
    pose proof (RS_retry Hk (IH (k + 1) w3 Hpos' Hf')) as R.
    rewrite Hk0 in R. exact R.
Qed.

Lemma RetrySchedule_exhausted k l :
  MAX_RETRIES <= k ->
  RetrySchedule k l ->
  l = [D_Attempt (k + 1)] \/ l = [D_Attempt (k + 1); D_Send].
Proof.
  intros Hk H. inversion H as [| |? ? Hlt _]; subst; auto.
  exfalso. clear - Hk Hlt. lia.
Qed.

Lemma RetrySchedule_plan l :
  RetrySchedule 0 l ->
  exists n, In n courseLengths /\ l = firstn n retryPlan.
Proof.
  intros H0. unfold courseLengths.
  inversion H0 as [| |? r1 _ H1]; subst;
    [exists 1%nat; cbn; auto 10 | exists 2%nat; cbn; auto 10 |].
  inversion H1 as [| |? r2 _ H2]; subst;
    [exists 5%nat; cbn; auto 10 | exists 6%nat; cbn; auto 10 |].
  inversion H2 as [| |? r3 _ H3]; subst;
    [exists 8%nat; cbn; auto 10 | exists 9%nat; cbn; auto 10 |].
  destruct (RetrySchedule_exhausted (k := 0 + 1 + 1 + 1) ltac:(cbv; discriminate) H3)
    as [-> | ->];
    [exists 11%nat; cbn; auto 12 | exists 12%nat; cbn; auto 12].
Qed.

(** What every course has in common. *)
Lemma course_facts n :
  In n courseLengths ->
  let d := firstn n retryPlan in
  count isAttempt d <= 1 + MAX_RETRIES /\
  count isSend d <= count isAttempt d /\
  count isRetryDelay d <= MAX_RETRIES /\
  count isAttempt d <= 1 + count isRetryDelay d /\
  (forall ms, In (D_RetryDelay ms) d -> ms = RETRY_DELAY) /\
  count isReinitialize d <= 1 /\
  (forall i, nth_error d i = Some D_Reinitialize -> i = 3%nat) /\
  (forall ms, nth_error d 2 = Some (D_RetryDelay ms) ->
              nth_error d 3 = Some D_Reinitialize).
Proof.
  unfold courseLengths. intros Hn.
  repeat (destruct Hn as [<-|Hn]; [cbn; repeat split; try lia; intros;
    repeat match goal with
           | H : _ \/ _ |- _ => destruct H
           | H : False |- _ => destruct H
           | H : D_RetryDelay _ = D_RetryDelay _ |- _ => injection H as <-
           | H : _ = D_RetryDelay _ |- _ => discriminate H
           | H : nth_error _ ?i = Some _ |- _ =>
               is_var i; destruct i; cbn in H; try discriminate H
           end; auto; try discriminate; try lia|]).
  destruct Hn.
Qed.

Lemma total_sendMessage_fuel phone text fuel : forall retryCount w,
  (0 < fuel)%nat ->
  MAX_RETRIES - retryCount < Z.of_nat fuel ->
  result (sendMessage_fuel env fuel phone text retryCount w) <> OutOfFuel.
Proof.
  induction fuel as [|fuel IH]; intros k w Hpos Hf; [lia|].
  cbn [sendMessage_fuel]. revert w.
  change (total (emit (E_Log (L_attempt (k + 1)));;
                 s <- checkConnection env;;
                 match validate phone text with
                 | inl error => throw error
                 | inr (finalNumber, trimmed) =>
                     tryCatch
                       (transportCall env s (jidOf finalNumber) trimmed;;
                        ret (mkSendReceipt true finalNumber))
                       (fun error =>
                          match nullishOf error with
                          | Some v => throw (MessageTypeError v)
                          | None =>
                              if isRecoverableError error && (k <? MAX_RETRIES) then
                                emit (E_Log (L_retrying RETRY_DELAY (k + 2)));;
                                sleep env RetryDelay RETRY_DELAY;;
                                (if k =? 0 then
                                   tryCatch (reinitializeConnection env)
                                            (fun _ => ret tt)
                                 else ret tt);;
                                sendMessage_fuel env fuel phone text (k + 1)
                              else throw (SendFailed (k + 1) (exnMessage error))
                          end)
                 end)).
  apply total_bind; [apply total_emit|]. intros _.
  apply total_bind; [apply total_checkConnection|]. intros s.
  destruct (validate phone text) as [error|[finalNumber trimmed]];
    [apply total_throw|].
  apply total_tryCatch.
  - apply total_bind; [|intros; apply total_ret].
    intro w. apply transportCall_events.
  - intros error.
    destruct (nullishOf error) as [v|]; [apply total_throw|].
    destruct (isRecoverableError error && (k <? MAX_RETRIES)) eqn:Hc;
      [|apply total_throw].
    apply andb_true_iff in Hc as [_ Hk]. apply Z.ltb_lt in Hk.
    apply total_bind; [apply total_emit|]. intros _.
    apply total_bind; [apply total_sleep|]. intros _.
    apply total_bind.
    + destruct (k =? 0); [|apply total_ret].
      apply total_tryCatch; [apply total_reinitializeConnection|].
      intros; apply total_ret.
    + intros _ w. apply IH; unfold MAX_RETRIES in *; lia.
Qed.

Lemma count_cons f x l :
  count f (x :: l) = (if f x then 1 else 0) + count f l.
Proof.
  unfold count. cbn [filter]. destruct (f x); cbn [List.length]; lia.
Qed.

Lemma count_app f l1 l2 : count f (l1 ++ l2) = count f l1 + count f l2.
Proof.
  unfold count. rewrite filter_app, length_app. lia.
Qed.

Lemma count_nonneg f l : 0 <= count f l.
Proof. unfold count. lia. Qed.

Lemma isRecoverableError_message e e' :
  exnMessage e = exnMessage e' -> isRecoverableError e = isRecoverableError e'.
Proof. unfold isRecoverableError. now intros ->. Qed.

Lemma waitForReady_returns n : forall w,
  result (waitForReady env n w) = Returned tt.
Proof.
  induction n as [|n IH]; intros w; cbn [waitForReady]; [reflexivity|].
  rewrite result_bind. cbn [getVars result final].
  destruct (negb (isReady (vars w)) && isSome (sock (vars w))); [|reflexivity].
  rewrite result_bind.
  change (result (sleep env WaitReady 1000 w)) with (Returned (A := unit) tt).
  apply IH.
Qed.

(** [checkConnection] throws nothing but the errors of the connection
    checks. *)
Lemma checkConnection_throws w e :
  result (checkConnection env w) = Thrown e -> isConnectionError e = true.
Proof.
  unfold checkConnection. rewrite result_bind. cbn [getVars result final].
  destruct (sock (vars w)) as [s0|]; [|intros E; now injection E as <-].
  rewrite result_bind.
  assert (Hw : forall w', result
            (match sock (vars w') with
             | Some s => if hasSendMessage s then ret s
                         else throw NotProperlyInitialized
             | None => throw NullSocketTypeError
             end w') = Thrown e -> isConnectionError e = true).
  { intros w'. destruct (sock (vars w')) as [s1|];
      [destruct (hasSendMessage s1)|]; cbn; intros E;
      try discriminate E; now injection E as <-. }
  destruct (negb (isReady (vars w))).
  - destruct (hasSendMessage s0).
    + rewrite waitForReady_returns, result_bind. apply Hw.
    + cbn. intros E. now injection E as <-.
  - cbn [ret result final]. rewrite result_bind. apply Hw.
Qed.

Lemma transportCall_outcome s jid text w :
  let o := transportCall env s jid text w in
  result o = match rejectionOf (transportSend env (sends w)) with
             | None => Returned tt
             | Some error => Thrown error
             end /\
  sends (final o) = S (sends w).
Proof.
  unfold transportCall, bind, getWorld, emit, modifyWorld, suspend,
    advanceClock, throw, ret. cbn.
  destruct (transportSend env (sends w)); cbn; split; reflexivity.
Qed.

(** One attempt of [sendMessage], by what its connection checks, its
    validation and its transport call give. *)
Lemma sendMessage_fuel_step phone text fuel k w :
  let o := sendMessage_fuel env (S fuel) phone text k w in
  let d := deliveryEvents (emitted o) in
  match result (checkConnection env w) with
  | Returned s =>
      if invalidInput phone text then
        d = [D_Attempt (k + 1)] /\
        exists e, result o = Thrown e /\ isInvalidInput e = true
      else
        match rejectionOf (transportSend env (sends w)) with
        | None =>
            d = [D_Attempt (k + 1); D_Send] /\
            result o = Returned (mkSendReceipt true
                         (finalNumberOf (removeDashesAndSpaces phone)))
        | Some error =>
            match nullishOf error with
            | Some v =>
                d = [D_Attempt (k + 1); D_Send] /\
                result o = Thrown (MessageTypeError v)
            | None =>
                if isRecoverableError error && (k <? MAX_RETRIES) then
                  exists w',
                    sends w' = S (sends w) /\
                    result o =
                      result (sendMessage_fuel env fuel phone text (k + 1) w') /\
                    d = D_Attempt (k + 1) :: D_Send :: D_RetryDelay RETRY_DELAY ::
                        (if k =? 0 then [D_Reinitialize] else []) ++
                        deliveryEvents
                          (emitted (sendMessage_fuel env fuel phone text (k + 1) w'))
                else
                  d = [D_Attempt (k + 1); D_Send] /\
                  result o = Thrown (SendFailed (k + 1) (exnMessage error))
            end
        end
  | Thrown e =>
      d = [D_Attempt (k + 1)] /\ result o = Thrown e /\ isConnectionError e = true
  | OutOfFuel => False
  end.
Proof.
  cbv zeta. cbn [sendMessage_fuel].
  rewrite result_bind, deliveryEvents_bind.
  cbn [emit result final emitted deliveryEvents deliveryEventOf app].
  rewrite result_bind, deliveryEvents_bind, silent_checkConnection. cbn [app].
  pose proof (keepsSends_checkConnection env w) as Hsw.
  destruct (result (checkConnection env w)) as [s|e|] eqn:Hc.
  2:{ apply checkConnection_throws in Hc. now split. }
  2:{ now apply total_checkConnection in Hc. }
  set (w1 := final (checkConnection env w)) in *.
  destruct (invalidInput phone text) eqn:Hi.
  { destruct (validate_invalid phone text Hi) as (e & -> & He).
    cbn [throw result emitted deliveryEvents]. split; [reflexivity|eauto]. }
  rewrite (validate_valid phone text Hi).
  rewrite result_tryCatch, deliveryEvents_tryCatch, deliveryEvents_bind, result_bind.
  destruct (transportCall_events s
              (jidOf (finalNumberOf (removeDashesAndSpaces phone))) (trim text) w1)
    as [Hs _].
  destruct (transportCall_outcome s
              (jidOf (finalNumberOf (removeDashesAndSpaces phone))) (trim text) w1)
    as [Hres Hsn].
  cbv zeta in Hres, Hsn. rewrite Hs, Hres.
  set (w2 := final ((transportCall env s
              (jidOf (finalNumberOf (removeDashesAndSpaces phone))) (trim text);;
              ret (mkSendReceipt true (finalNumberOf (removeDashesAndSpaces phone))))
              w1)).
  assert (Hw2 : sends w2 = S (sends w)).
  { unfold w2. rewrite final_bind, Hres.
    destruct (rejectionOf (transportSend env (sends w1)));
      cbn [ret final]; congruence. }
  rewrite Hsw.
  destruct (rejectionOf (transportSend env (sends w))) as [error|];
    cbn [app ret result emitted deliveryEvents]; [|now split].
  destruct (nullishOf error) as [v|]; [now split|].
  destruct (isRecoverableError error && (k <? MAX_RETRIES)) eqn:Hcnd;
    [|now split].
  rewrite result_bind, deliveryEvents_bind.
  cbn [emit result final emitted deliveryEvents deliveryEventOf app].
  rewrite result_bind, deliveryEvents_bind.
  destruct (retryDelay_events w2) as [Hr He]. cbv zeta in Hr, He.
  rewrite Hr, He. clear Hr He. cbn [app].
  rewrite result_bind, deliveryEvents_bind.
  pose proof (keepsSends_sleep env RetryDelay RETRY_DELAY w2) as Hw3.
  set (w3 := final (sleep env RetryDelay RETRY_DELAY w2)) in *.
  destruct (k =? 0).
  - destruct (guarded_reinitialization w3) as [Hg Hd]. cbv zeta in Hg, Hd.
    rewrite Hg, Hd.
    exists (final (tryCatch (reinitializeConnection env) (fun _ => ret tt) w3)).
    split; [|split; reflexivity].
    rewrite keepsSends_reinitializeConnection. congruence.
  - cbn [ret result final emitted deliveryEvents app].
    exists w3. split; [congruence | split; reflexivity].
Qed.

Lemma sendMessage_fuel_head phone text fuel k w :
  (0 < fuel)%nat ->
  MAX_RETRIES - k < Z.of_nat fuel ->
  exists rest,
    deliveryEvents (emitted (sendMessage_fuel env fuel phone text k w)) =
    D_Attempt (k + 1) :: rest.
Proof.
  intros Hpos Hf.
  pose proof (sendMessage_fuel_schedule phone text k w Hpos Hf) as R.
  inversion R; eauto.
Qed.

(** Every transport call of a send that fails with a recoverable error,
    the fourth apart, is followed by a retry, and no other call is. *)
Lemma sendMessage_fuel_retries phone text fuel : forall k w j,
  (0 < fuel)%nat ->
  MAX_RETRIES - k < Z.of_nat fuel ->
  let d := deliveryEvents (emitted (sendMessage_fuel env fuel phone text k w)) in
  Z.of_nat j < count isSend d ->
  if recoverableFailure (transportSend env (sends w + j))
     && (k + Z.of_nat j <? MAX_RETRIES)
  then exists pre post,
         d = pre ++ D_Send :: retryAfter (k + Z.of_nat j) ++ post /\
         count isSend pre = Z.of_nat j
  else exists pre, d = pre ++ [D_Send] /\ count isSend pre = Z.of_nat j.
Proof.
  induction fuel as [|fuel IH]; intros k w j Hpos Hf; [lia|].
  pose proof (sendMessage_fuel_step phone text fuel k w) as Hstep.
  cbv zeta in *.
  set (d := deliveryEvents _) in *.
  destruct (result (checkConnection env w)) as [s|e|];
    [|destruct Hstep as (Hd & _); rewrite Hd; cbn; lia|destruct Hstep].
  destruct (invalidInput phone text);
    [destruct Hstep as (Hd & _); rewrite Hd; cbn; lia|].
  assert (Hlast : d = [D_Attempt (k + 1); D_Send] ->
            Z.of_nat j < count isSend d ->
            j = 0%nat /\ exists pre, d = pre ++ [D_Send] /\ count isSend pre = Z.of_nat j).
  { intros Hd Hj. rewrite Hd in Hj |- *. cbn in Hj.
    assert (j = 0%nat) by lia. subst j.
    split; [reflexivity|]. now exists [D_Attempt (k + 1)]. }
  destruct j as [|j].
  - rewrite Nat.add_0_r. change (Z.of_nat 0) with 0. rewrite Z.add_0_r.
    unfold recoverableFailure.
    destruct (rejectionOf (transportSend env (sends w))) as [error|];
      [|intros Hj; now apply Hlast].
    destruct (nullishOf error) as [v|]; [intros Hj; now apply Hlast|].
    destruct (isRecoverableError error && (k <? MAX_RETRIES)) eqn:Hcnd;
      [|intros Hj; now apply Hlast].
    destruct Hstep as (w' & Hs' & _ & Hd). intros _.
    apply andb_true_iff in Hcnd as [_ Hk]. apply Z.ltb_lt in Hk.
    destruct (sendMessage_fuel_head phone text (fuel := fuel) (k + 1) w')
      as [post Hpost]; [unfold MAX_RETRIES in *; lia | lia |].
    exists [D_Attempt (k + 1)], post. split; [|reflexivity].
    rewrite Hd, Hpost. unfold retryAfter. cbn [app].
    rewrite <- !app_assoc. cbn [app].
    now replace (k + 1 + 1) with (k + 2) by lia.
  - intros Hj.
    destruct (rejectionOf (transportSend env (sends w))) as [error|];
      [|apply Hlast in Hj; [destruct Hj; discriminate | apply Hstep]].
    destruct (nullishOf error) as [v|];
      [apply Hlast in Hj; [destruct Hj; discriminate | apply Hstep]|].
    destruct (isRecoverableError error && (k <? MAX_RETRIES)) eqn:Hcnd;
      [|apply Hlast in Hj; [destruct Hj; discriminate | apply Hstep]].
    destruct Hstep as (w' & Hs' & _ & Hd).
    apply andb_true_iff in Hcnd as [_ Hk]. apply Z.ltb_lt in Hk.
    assert (Hcount : count isSend d =
              1 + count isSend (deliveryEvents
                    (emitted (sendMessage_fuel env fuel phone text (k + 1) w')))).
    { rewrite Hd, !count_cons, count_app. cbn [isSend].
      destruct (k =? 0); cbn; lia. }
    specialize (IH (k + 1) w' j ltac:(unfold MAX_RETRIES in *; lia) ltac:(lia)
                   ltac:(lia)).
    rewrite Hs' in IH. cbn [Nat.add] in IH. rewrite <- plus_n_Sm.
    replace (k + Z.of_nat (S j)) with (k + 1 + Z.of_nat j) by lia.
    set (pre0 := D_Attempt (k + 1) :: D_Send :: D_RetryDelay RETRY_DELAY ::
                 (if k =? 0 then [D_Reinitialize] else [])).
    assert (Hpre0 : count isSend pre0 = 1)
      by (unfold pre0; destruct (k =? 0); reflexivity).
    assert (Hd' : d = pre0 ++ deliveryEvents
                    (emitted (sendMessage_fuel env fuel phone text (k + 1) w')))
      by (rewrite Hd; unfold pre0; reflexivity).
    destruct (recoverableFailure (transportSend env (S (sends w + j)))
              && (k + 1 + Z.of_nat j <? MAX_RETRIES)).
    + destruct IH as (pre & post & Hd1 & Hc1). exists (pre0 ++ pre), post.
      split; [rewrite Hd', Hd1, app_assoc; reflexivity|].
      rewrite count_app, Hpre0, Hc1. lia.
    + destruct IH as (pre & Hd1 & Hc1). exists (pre0 ++ pre).
      split; [rewrite Hd', Hd1, app_assoc; reflexivity|].
      rewrite count_app, Hpre0, Hc1. lia.
Qed.


(** C3, as the code has it.  For an invalid input, [sendMessage] fails in
    its one attempt, without a transport call, a retry pause or a
    re-establishment; when the
    socket is there, can send and the client is ready, it fails at once with
    the validation error.  (The readiness check of lines 794-831 runs before
    the validation.) *)
Theorem invalid_input_never_sent (phone text : jsstring) (retryCount : Z)
    (w : World) :
  invalidInput phone text = true ->
  let o := sendMessage env phone text retryCount w in
  deliveryEvents (emitted o) = [D_Attempt (retryCount + 1)] /\
  (exists error, result o = Thrown error) /\
  (forall s,
     sock (vars w) = Some s ->
     hasSendMessage s = true ->
     isReady (vars w) = true ->
     exists error,
       isInvalidInput error = true /\
       o = mkOutcome (Thrown error) w [E_Log (L_attempt (retryCount + 1))]).
Proof.
  intros Hinv. destruct (validate_invalid _ _ Hinv) as (error & Hv & Hi).
  cbv zeta. unfold sendMessage. cbn [sendMessage_fuel]. rewrite Hv.
  split; [|split].
  - rewrite deliveryEvents_bind. cbn.
    rewrite deliveryEvents_bind, silent_checkConnection.
    now destruct (result (checkConnection env w)).
  - rewrite result_bind. cbn. rewrite result_bind.
    pose proof (total_checkConnection w) as Ht.
    destruct (result (checkConnection env w)); cbn; eauto. contradiction.
  - intros s Hs Hh Hr. exists error. split; [assumption|].
    unfold bind, checkConnection, getVars, emit, throw, ret. cbn.
    rewrite Hs, Hr. cbn. rewrite Hs, Hh. reflexivity.
Qed.

(** C2, as the code has it.  With the connection open, the target
    "555-1234" is rejected at once as too short (7 characters without the
    dash) and the target "" as invalid, both without a transport call; a
    valid input, such as the target "5555-1234", succeeds on the first
    transport call with nothing after it. *)
Theorem send_when_open (w : World) (s : Socket) :
  sock (vars w) = Some s ->
  hasSendMessage s = true ->
  isReady (vars w) = true ->
  send env (lit "555-1234") (lit "hi") w =
    mkOutcome (Thrown PhoneTooShort) w [E_Log (L_attempt 1)] /\
  send env (lit "") (lit "hi") w =
    mkOutcome (Thrown InvalidPhoneNumber) w [E_Log (L_attempt 1)] /\
  (forall phone text,
     invalidInput phone text = false ->
     transportSend env (sends w) = SendOk ->
     let o := send env phone text w in
     let finalNumber := finalNumberOf (removeDashesAndSpaces phone) in
     result o = Returned (mkSendReceipt true finalNumber) /\
     emitted o = [E_Log (L_attempt 1);
                  E_TransportSend (sockId s) (jidOf finalNumber) (trim text)]) /\
  invalidInput (lit "5555-1234") (lit "hi") = false.
Proof.
  intros Hs Hh Hr.
  assert (Hcheck : checkConnection env w = mkOutcome (Returned s) w []).
  { unfold bind, checkConnection, getVars, emit, throw, ret. cbn.
    rewrite Hs, Hr. cbn. rewrite Hs, Hh. reflexivity. }
  repeat split.
  - unfold send, sendMessage. cbn [sendMessage_fuel]. unfold bind at 1. cbn.
    unfold bind. rewrite Hcheck. reflexivity.
  - unfold send, sendMessage. cbn [sendMessage_fuel]. unfold bind at 1. cbn.
    unfold bind. rewrite Hcheck. reflexivity.
  - unfold send, sendMessage. cbn [sendMessage_fuel].
    rewrite (validate_valid _ _ H). unfold bind at 1. cbn.
    unfold bind at 1. rewrite Hcheck.
    unfold tryCatch, transportCall, bind, getWorld, emit, modifyWorld, suspend, ret.
    cbn. rewrite H0. reflexivity.
  - unfold send, sendMessage. cbn [sendMessage_fuel].
    rewrite (validate_valid _ _ H). unfold bind at 1. cbn.
    unfold bind at 1. rewrite Hcheck.
    unfold tryCatch, transportCall, bind, getWorld, emit, modifyWorld, suspend, ret.
    cbn. rewrite H0. reflexivity.
Qed.

End DeliveryFacts.

(** *** Scenarios *)

(** When every transport call times out, the send goes through the whole of
    [retryPlan] and fails after its fourth attempt with the last cause. *)
Example send_retries_exhausted :
  let o := send hangingEnv (lit "5555-1234") (lit "hi") openWorld in
  result o = Thrown (SendFailed 4 (Some (lit "Message send timeout"))) /\
  deliveryEvents (emitted o) = retryPlan.
Proof. split; vm_compute; reflexivity. Qed.

(** An error that is not recoverable is not retried. *)
Example send_not_retried :
  let o := send refusingEnv (lit "5555-1234") (lit "hi") openWorld in
  result o = Thrown (SendFailed 1 (Some (lit "not-acceptable"))) /\
  deliveryEvents (emitted o) = [D_Attempt 1; D_Send].
Proof. split; vm_compute; reflexivity. Qed.

(** A recoverable error is retried: after the pause and the
    re-establishment the second attempt goes through, to the new socket. *)
Example send_retried_once :
  let o := send flakyEnv (lit "5555-1234") (lit "hi") openWorld in
  result o = Returned (mkSendReceipt true (lit "+55551234")) /\
  deliveryEvents (emitted o) =
    [D_Attempt 1; D_Send; D_RetryDelay 1000; D_Reinitialize; D_Attempt 2; D_Send] /\
  sends (final o) = 2%nat.
Proof. vm_compute. repeat split. Qed.

(** A rejection with [undefined] ends the send with the [TypeError] of line
    871, after the one transport call. *)
Example send_rejected_with_undefined :
  let o := send voidEnv (lit "5555-1234") (lit "hi") openWorld in
  result o = Thrown (MessageTypeError Undefined) /\
  deliveryEvents (emitted o) = [D_Attempt 1; D_Send].
Proof. vm_compute. repeat split. Qed.

(** Five initializations, each followed by a transient close, exhaust the
    attempts: the delays are 6, 9, 20 and 25 seconds, and the fifth close
    clears the session instead of scheduling a sixth initialization. *)
Example five_closes_exhaust_the_attempts :
  let drop := ConnectionUpdate (closeWith 428) in
  let o := run quietEnv
             [Start; drop; TimerFires 0; drop; TimerFires 0; drop;
              TimerFires 0; drop; TimerFires 0; drop] initialWorld in
  List.last (emitted o) E_Mkdir =
    E_Notify (N_auth_failure MaxAttemptsReached 60000) /\
  timers (final o) = [] /\
  now (final o) = 6000 + 9000 + 20000 + 25000 /\
  sessionDir (final o) = false.
Proof. vm_compute. repeat split. Qed.

(** The third reconnection is scheduled after 9 seconds where the claim
    says 15, and a close with code 405 leaves the recovery due after 2
    seconds and the reinitialization due after 3 seconds, where the claim
    doubles 15 seconds. *)
Lemma reconnect_delay_witness :
  initializationAttempts (vars (withAttempts 2 openWorld)) = 2 /\
  0 <= 2 < MAX_INITIALIZATION_ATTEMPTS /\
  timers (final (attemptReinitialization quietEnv (withAttempts 2 openWorld))) =
    [mkTimer 0 9000 RetryInitialization] /\
  nextDelay_spec 2 Transient = 15000 /\
  errorCodeOf (lastDisconnect (closeWith 405)) = Some 405 /\
  shouldReconnect quietEnv (lastDisconnect (closeWith 405)) = true /\
  timers (final (onClose quietEnv (lastDisconnect (closeWith 405))
                         (withAttempts 2 openWorld))) =
    [mkTimer 0 2000 Recover405; mkTimer 0 3000 RetryInitialization] /\
  nextDelay_spec 2 ProtocolRejected = 30000.
Proof.
  assert (H1 : initializationAttempts (vars (withAttempts 2 openWorld)) = 2)
    by reflexivity.
  assert (H2 : 0 <= 2 < MAX_INITIALIZATION_ATTEMPTS)
    by (unfold MAX_INITIALIZATION_ATTEMPTS; lia).
  split; [exact H1|]. split; [exact H2|].
  split; [exact (proj1 (proj2 (proj2 (proj2 (proj1
    (reconnect_delay quietEnv (withAttempts 2 openWorld) H1 H2))))))|].
  split; [reflexivity|]. split; [reflexivity|]. split; [reflexivity|].
  split; [|reflexivity].
  exact (proj1 (proj2 (reconnect_delay quietEnv (withAttempts 2 openWorld) H1 H2)
                  (lastDisconnect (closeWith 405)) eq_refl eq_refl)).
Defined.

Lemma send_when_open_witness :
  sock (vars openWorld) = Some (mkSocket 0 true false) /\
  hasSendMessage (mkSocket 0 true false) = true /\
  isReady (vars openWorld) = true /\
  send quietEnv (lit "555-1234") (lit "hi") openWorld =
  mkOutcome (Thrown PhoneTooShort) openWorld [E_Log (L_attempt 1)].
Proof.
  do 3 (split; [reflexivity|]).
  exact (proj1 (send_when_open quietEnv openWorld
                  (s := mkSocket 0 true false) eq_refl eq_refl eq_refl)).
Defined.

(** With the connection open and a transport that accepts every message, the
    send of "hi" to "555-1234" fails. *)
Lemma send_when_open_counterexample :
  result (send quietEnv (lit "555-1234") (lit "hi") openWorld) =
  Thrown PhoneTooShort.
Proof. reflexivity. Qed.

Lemma invalid_input_never_sent_witness :
  invalidInput (lit "") (lit "hi") = true /\
  deliveryEvents (emitted (sendMessage quietEnv (lit "") (lit "hi") 0 notReadyWorld))
  = [D_Attempt 1].
Proof.
  split; [reflexivity|].
  exact (proj1 (invalid_input_never_sent quietEnv (lit "") (lit "hi") 0
                  notReadyWorld eq_refl)).
Defined.

(** Without a socket the empty target fails with the not-initialized error,
    which is not a validation error; with a socket that is not ready the
    failure comes after five pauses of one second. *)
Lemma invalid_input_never_sent_counterexample :
  result (send quietEnv (lit "") (lit "hi") initialWorld) = Thrown NotInitialized /\
  isInvalidInput NotInitialized = false /\
  emitted (send quietEnv (lit "") (lit "hi") notReadyWorld) =
  [E_Log (L_attempt 1);
   E_Sleep WaitReady 1000; E_Sleep WaitReady 1000; E_Sleep WaitReady 1000;
   E_Sleep WaitReady 1000; E_Sleep WaitReady 1000].
Proof. repeat split. Qed.

Lemma logged_out_no_reconnect_witness :
  connection (closeWith 401) = Some ConnClose /\
  lastDisconnect (closeWith 401) =
    Some (mkDisconnectError true (Some 401) (Some (lit "Connection Failure"))) /\
  loggedOut quietEnv <> 405 /\
  blankQr (closeWith 401) = false /\
  timers (final (onConnectionUpdate quietEnv (closeWith 401) openWorld)) = [].
Proof.
  assert (H : loggedOut quietEnv <> 405) by (cbn; lia).
  do 2 (split; [reflexivity|]). split; [exact H|]. split; [reflexivity|].
  exact (proj1 (proj2 (proj2 (proj2 (proj2
    (logged_out_no_reconnect quietEnv (closeWith 401) openWorld
       (e := mkDisconnectError true (Some 401) (Some (lit "Connection Failure")))
       eq_refl eq_refl eq_refl eq_refl H eq_refl)))))).
Defined.

Lemma open_resets_attempts_witness :
  connection openedUpdate = Some ConnOpen /\
  blankQr openedUpdate = false /\
  initializationAttempts
    (vars (final (onConnectionUpdate quietEnv openedUpdate
                    (withAttempts 4 notReadyWorld)))) = 0.
Proof.
  do 2 (split; [reflexivity|]).
  exact (proj1 (proj2 (open_resets_attempts quietEnv openedUpdate
                         (withAttempts 4 notReadyWorld) eq_refl eq_refl))).
Defined.

Lemma unauthorized_close_witness :
  connection (closeWith 401) = Some ConnClose /\
  statusCode (mkDisconnectError true (Some 401) (Some (lit "Connection Failure")))
    = Some 401 /\
  blankQr (closeWith 401) = false /\
  lastQr (vars (final (onConnectionUpdate quietEnv (closeWith 401) openWorld))) = None.
Proof.
  do 3 (split; [reflexivity|]).
  exact (proj1 (proj2 (proj2 (proj2 (proj2 (proj2
    (unauthorized_close quietEnv (closeWith 401) openWorld
       (e := mkDisconnectError true (Some 401) (Some (lit "Connection Failure")))
       eq_refl eq_refl eq_refl eq_refl))))))).
Defined.

(** With [DisconnectReason.loggedOut] = 401, a close with a Boom error of
    code 401 leaves no reinitialization pending and no initialization
    started: the session is cleared and the logged-out notification sent. *)
Lemma unauthorized_close_counterexample :
  timers (final (onConnectionUpdate quietEnv (closeWith 401) openWorld)) = [] /\
  setups (final (onConnectionUpdate quietEnv (closeWith 401) openWorld)) = 0%nat /\
  emitted (onConnectionUpdate quietEnv (closeWith 401) openWorld) =
  [E_SockEnd 0; E_RmSync; E_Notify (N_session_cleared 0);
   E_Notify (N_session_auto_cleared Unauthorized401 0);
   E_Notify (N_auth_failure LoggedOutFromWhatsApp 0)].
Proof. repeat split. Qed.

Lemma max_attempts_permanent_failure_witness :
  MAX_INITIALIZATION_ATTEMPTS <= initializationAttempts (vars (withAttempts 5 openWorld)) /\
  timers (final (attemptReinitialization quietEnv (withAttempts 5 openWorld))) = [].
Proof.
  assert (H : MAX_INITIALIZATION_ATTEMPTS
              <= initializationAttempts (vars (withAttempts 5 openWorld)))
    by (cbn; unfold MAX_INITIALIZATION_ATTEMPTS; lia).
  split; [exact H|].
  exact (proj1 (proj2 (proj1
    (max_attempts_permanent_failure quietEnv (withAttempts 5 openWorld) H)))).
Defined.

Lemma initializeClient_reentrant_noop_witness :
  isInitializing (vars busyWorld) = true /\
  initializeClient quietEnv busyWorld =
  mkOutcome (Returned tt) busyWorld [E_Log L_init_in_progress].
Proof.
  split; [reflexivity|].
  exact (initializeClient_reentrant_noop quietEnv busyWorld eq_refl).
Defined.

Lemma auto_ready_without_open_witness :
  sock (vars notReadyWorld) = Some (mkSocket 0 true false) /\
  hasSendMessage (mkSocket 0 true false) = true /\
  isReady (vars notReadyWorld) = false /\
  isReady
    (vars (final (run quietEnv
                    [MessagesUpsert (Some [lit "hello"]); TimerFires 0]
                    notReadyWorld))) = true.
Proof.
  do 3 (split; [reflexivity|]).
  exact (proj1 (proj2
    (proj1 (proj2 (auto_ready_without_open quietEnv notReadyWorld
                     (s := mkSocket 0 true false) eq_refl eq_refl eq_refl))
       (lit "hello") []))).
Defined.

(** ** Further properties of the service *)

(** *** The event loop never throws *)

Section Settles.

Context {A B : Type}.

Lemma settles_ret (a : A) : settles (ret a).
Proof. intro w. now exists a. Qed.

Lemma settles_bind (m : M A) (k : A -> M B) :
  settles m -> (forall a, settles (k a)) -> settles (bind m k).
Proof.
  intros Hm Hk w. rewrite result_bind.
  destruct (Hm w) as [a ->]. apply Hk.
Qed.

Lemma settles_tryCatch (m : M A) (h : Exn -> M A) :
  total m -> (forall e, settles (h e)) -> settles (tryCatch m h).
Proof.
  intros Hm Hh w. rewrite result_tryCatch.
  destruct (result (m w)) as [a|e|] eqn:E; [now exists a | apply Hh |].
  now apply Hm in E.
Qed.

Lemma settles_if (b : bool) (m1 m2 : M A) :
  settles m1 -> settles m2 -> settles (if b then m1 else m2).
Proof. destruct b; auto. Qed.

End Settles.

Lemma settles_emit e : settles (emit e).
Proof. intro w. now exists tt. Qed.

Lemma settles_modifyWorld f : settles (modifyWorld f).
Proof. intro w. now exists tt. Qed.

Lemma settles_getWorld : settles getWorld.
Proof. intro w. now exists w. Qed.

Lemma settles_getVars : settles getVars.
Proof. intro w. now exists (vars w). Qed.

#[local] Hint Resolve settles_ret settles_bind settles_if settles_emit
  settles_modifyWorld settles_getWorld settles_getVars : service.

Ltac settle :=
  repeat (intros;
    match goal with
    | |- settles (match ?x with _ => _ end) => destruct x
    | |- settles (bind _ _) => apply settles_bind
    | |- _ => solve [auto with service]
    end).

Section NeverThrows.

Variable env : Env.

Lemma settles_assign f : settles (assign f).
Proof. apply settles_modifyWorld. Qed.

Lemma settles_notify n : settles (notify n).
Proof. apply settles_emit. Qed.

Lemma settles_setTimeout t ms : settles (setTimeout t ms).
Proof. apply settles_modifyWorld. Qed.

Hint Resolve settles_assign settles_notify settles_setTimeout
  total_assign total_initializeClient : service.

Lemma settles_clearSessionData : settles (clearSessionData env).
Proof. intro w. rewrite clearSessionData_eq. now exists tt. Qed.

Hint Resolve settles_clearSessionData : service.

Lemma settles_attemptReinitialization : settles (attemptReinitialization env).
Proof. unfold attemptReinitialization. settle. Qed.

Hint Resolve settles_attemptReinitialization : service.

Lemma settles_guarded_initializeClient :
  settles (tryCatch (initializeClient env) (fun _ => ret tt)).
Proof.
  apply settles_tryCatch; [apply total_initializeClient | intros; apply settles_ret].
Qed.

Lemma settles_retryInitialization : settles (retryInitialization env).
Proof.
  unfold retryInitialization. apply settles_tryCatch.
  - apply total_bind; [apply total_modifyWorld | intros; apply total_initializeClient].
  - intros; apply settles_ret.
Qed.

Lemma settles_recover405 : settles (recover405 env).
Proof.
  unfold recover405, handle405Error_resume.
  apply settles_bind; [|settle].
  apply settles_tryCatch; [|intros; apply settles_ret].
  service_auto.
Qed.

Lemma settles_runTask t : settles (runTask env t).
Proof.
  destruct t; cbn [runTask].
  - unfold autoReadyAfterQr. settle.
  - unfold autoReadyAfterMessages. settle.
  - apply settles_retryInitialization.
  - apply settles_recover405.
Qed.

Lemma settles_onConnectionUpdate u : settles (onConnectionUpdate env u).
Proof.
  unfold onConnectionUpdate, onQr, onClose, onOpen, handle405Error_start. settle.
Qed.

Lemma settles_step a : settles (step env a).
Proof.
  destruct a; cbn [step].
  - apply settles_guarded_initializeClient.
  - apply settles_onConnectionUpdate.
  - unfold onMessagesUpsert. settle.
  - unfold fireTimer. settle. intros _. apply settles_runTask.
Qed.

(** X1.  No handler and no timer callback throws: whatever the environment
    does (a setup that fails, an [end] or an [rmSync] that throws, other
    tasks changing the variables at an await), every run of the event loop
    returns. *)
Theorem event_loop_never_throws (actions : list Action) (w : World) :
  result (run env actions w) = Returned tt.
Proof.
  revert w. induction actions as [|a actions IH]; intro w; cbn [run].
  - reflexivity.
  - rewrite result_bind. destruct (settles_step a w) as [[] ->]. apply IH.
Qed.

End NeverThrows.

(** *** Status reports *)

Section StatusFacts.

Variable proc : Process.
Variable env : Env.

(** X2.  [getWhatsAppStatus] reports 'Connected' when the client is ready and
    'Disconnected' otherwise: it never reports 'QR Required', because the
    object of [getWhatsAppDiagnosticInfo] has no [hasQr] key.  Its own
    [hasQr] tells whether a QR is held and [isConnected] whether a socket
    exists, so that after a QR event on a client that is not ready the
    report has [hasQr] true and the status 'Disconnected'. *)
Theorem status_never_qr_required (w : World) :
  getField (getWhatsAppStatus proc w) "status" =
    VStr (if isReady (vars w) then lit "Connected" else lit "Disconnected") /\
  getField (getWhatsAppStatus proc w) "hasQr" = VBool (truthyOpt (lastQr (vars w))) /\
  getField (getWhatsAppStatus proc w) "isConnected" = VBool (isSome (sock (vars w))) /\
  getField (getWhatsAppStatus proc w) "isReady" = VBool (isReady (vars w)) /\
  (forall q,
     truthy q = true ->
     (lengthOf (trim q) =? 0) = false ->
     isReady (vars w) = false ->
     let w' := final (onConnectionUpdate env (mkUpdate None None (Some q)) w) in
     getField (getWhatsAppStatus proc w') "hasQr" = VBool true /\
     getField (getWhatsAppStatus proc w') "status" = VStr (lit "Disconnected")).
Proof.
  split; [|split; [|split; [|split]]].
  - cbn. now destruct (isReady (vars w)).
  - cbn. now destruct (truthyOpt (lastQr (vars w))).
  - reflexivity.
  - reflexivity.
  - intros q Hq Hb Hr.
    unfold onConnectionUpdate, onQr, bind, assign, notify, setTimeout. cbn.
    rewrite Hq. cbn. rewrite Hb. cbn. rewrite Hq, Hr. split; reflexivity.
Qed.

End StatusFacts.

(** *** QR events *)

Section QrFacts.

Variable env : Env.

(** X3.  A QR that is not empty but all white space is stored as the last
    QR and nothing else happens: it is not forwarded, no timer is set, and
    the rest of the update is dropped with it, be it an 'open' or a
    'close'. *)
Theorem blank_qr_swallows_update (u : Update) (q : jsstring) (w : World) :
  qr u = Some q ->
  truthy q = true ->
  lengthOf (trim q) = 0 ->
  onConnectionUpdate env u w =
  mkOutcome (Returned tt) (setVars (set_lastQr (Some q)) w) [].
Proof.
  intros Hu Hq Hb. unfold onConnectionUpdate, onQr, bind, assign. rewrite Hu, Hq.
  cbn. rewrite Hb. reflexivity.
Qed.

Lemma qrEvent_step q w :
  validQr q = true ->
  step env (qrEvent q) w =
  mkOutcome (Returned tt)
    (mkWorld (set_lastQr (Some q) (vars w)) (sessionDir w) (now w)
       (timers w ++ [mkTimer (now w) 30000 AutoReadyAfterQr])
       (awaits w) (sends w) (setups w) (removals w))
    [E_Notify (N_qr q); E_IpcEmitQr q].
Proof.
  unfold validQr. intros H. apply andb_true_iff in H as [Hq Hb].
  apply negb_true_iff in Hb.
  unfold qrEvent, step, onConnectionUpdate, onQr, bind, assign, notify, setTimeout.
  cbn. rewrite Hq. cbn. rewrite Hb. reflexivity.
Qed.

Lemma last_cons_default {A} (xs : list A) : forall x d d',
  last (x :: xs) d = last (x :: xs) d'.
Proof.
  induction xs as [|y xs IH]; intros x d d'; [reflexivity|].
  change (last (y :: xs) d = last (y :: xs) d'). apply IH.
Qed.

Lemma last_cons_cons {A} (xs : list A) (x y : A) :
  last (y :: xs) x = last xs y.
Proof.
  destruct xs as [|z xs]; [reflexivity|].
  change (last (z :: xs) x = last (z :: xs) y). apply last_cons_default.
Qed.

Lemma qrEvents_run qs : forall q w,
  forallb validQr (q :: qs) = true ->
  run env (List.map qrEvent (q :: qs)) w =
  mkOutcome (Returned tt)
    (mkWorld (set_lastQr (Some (last qs q)) (vars w)) (sessionDir w) (now w)
       (timers w ++ List.map (fun _ => mkTimer (now w) 30000 AutoReadyAfterQr) (q :: qs))
       (awaits w) (sends w) (setups w) (removals w))
    (List.flat_map (fun q => [E_Notify (N_qr q); E_IpcEmitQr q]) (q :: qs)).
Proof.
  induction qs as [|q' qs IH]; intros q w Hv;
    cbn [forallb] in Hv; apply andb_true_iff in Hv as [Hq Hv].
  - cbn [List.map run]. unfold bind. rewrite (@qrEvent_step q w Hq). reflexivity.
  - set (rest := q' :: qs) in *.
    change (List.map qrEvent (q :: rest)) with (qrEvent q :: List.map qrEvent rest).
    cbn [run]. unfold bind at 1. rewrite (@qrEvent_step q w Hq).
    unfold rest at 1. rewrite (IH q' _ Hv).
    cbn [vars timers now sessionDir awaits sends setups removals app].
    unfold rest. rewrite last_cons_cons. cbn [List.map flat_map app].
    rewrite <- app_assoc. destruct (vars w); reflexivity.
Qed.

Lemma nth_error_middle {A} (l : list A) (x : A) (r : list A) :
  nth_error (l ++ x :: r) (List.length l) = Some x.
Proof. induction l; cbn; auto. Qed.

Lemma removeNth_middle {A} (l : list A) (x : A) (r : list A) :
  removeNth (List.length l) (l ++ x :: r) = l ++ r.
Proof. induction l; cbn; congruence. Qed.

(** X4.  Of QR events that follow one another only the last QR is held, each
    is forwarded to the windows and to the main process, and each sets its
    own 30 s timer: no timer is cancelled.  So the timer of the first QR
    marks the client ready 30 s after the first QR, however recent the last
    one is, when a socket that can send is there. *)
Theorem repeated_qr_events (q : jsstring) (qs : list jsstring) (w : World)
    (s : Socket) :
  forallb validQr (q :: qs) = true ->
  sock (vars w) = Some s ->
  hasSendMessage s = true ->
  isReady (vars w) = false ->
  let o := run env (List.map qrEvent (q :: qs)) w in
  lastQr (vars (final o)) = Some (last qs q) /\
  timers (final o) =
    timers w ++ List.map (fun _ => mkTimer (now w) 30000 AutoReadyAfterQr) (q :: qs) /\
  emitted o = List.flat_map (fun q => [E_Notify (N_qr q); E_IpcEmitQr q]) (q :: qs) /\
  let o' := fireTimer env (List.length (timers w)) (final o) in
  isReady (vars (final o')) = true /\
  now (final o') = now w + 30000 /\
  timers (final o') =
    timers w ++ List.map (fun _ => mkTimer (now w) 30000 AutoReadyAfterQr) qs.
Proof.
  intros Hv Hs Hh Hr. cbv zeta. rewrite (qrEvents_run qs q w Hv).
  cbn [final emitted vars lastQr set_lastQr timers]. repeat split.
  all: unfold fireTimer, bind, getWorld; cbn [result final emitted timers List.map];
    rewrite nth_error_middle; cbn [modifyWorld result final emitted timers task
      runTask vars now scheduledAt delay sessionDir awaits sends setups removals];
    unfold autoReadyAfterQr, bind, getVars, getWorld, assign, notify;
    cbn [result final emitted vars sock isReady lastQr set_lastQr];
    rewrite Hs, Hr;
    assert (Ht : truthy (last qs q) = true)
      by (clear - Hv; revert q Hv; induction qs as [|q' qs IH]; intros q Hv;
          cbn [forallb] in Hv; apply andb_true_iff in Hv as [Hq Hv];
          [unfold validQr in Hq; now apply andb_true_iff in Hq
          |rewrite last_cons_cons; now apply IH]);
    cbn [negb andb truthyOpt]; rewrite Ht, Hh; cbn.
  - reflexivity.
  - lia.
  - now rewrite removeNth_middle.
Qed.

End QrFacts.

(** *** Initialization *)

Section InitializationFacts.

Variable env : Env.

Arguments clearSessionData : simpl never.
Arguments attemptReinitialization : simpl never.
Arguments endSocket : simpl never.

Lemma endSocket_eq w :
  endSocket w =
  mkOutcome (Returned tt) (setVars (set_sock (socketAfterEnd (vars w))) w)
            (endEffects (vars w)).
Proof.
  unfold endSocket, endEffects, socketAfterEnd, bind, getVars, assign, emit. cbn.
  destruct w as [[sk q r ra n i] d t ts a sn st rm]; cbn.
  destruct sk as [s|]; [destruct (endThrows s)|]; reflexivity.
Qed.

(** A call while a socket is there and the client is ready only counts an
    attempt. *)
Lemma initializeClient_connected w s :
  isInitializing (vars w) = false ->
  sock (vars w) = Some s ->
  isReady (vars w) = true ->
  initializeClient env w =
  mkOutcome (Returned tt)
            (withAttempts (initializationAttempts (vars w) + 1) w) [].
Proof.
  intros Hi Hs Hr. unfold initializeClient, bind, getVars, assign. cbn.
  rewrite Hi. cbn. rewrite Hs, Hr. cbn.
  destruct w as [[sk q r ra n i] d t ts a sn st rm]; cbn in *. now subst.
Qed.

(** X6.  When the setup succeeds, [initializeClient] ends the previous socket
    (unless its [end] throws), creates the session directory if it is
    missing, installs the new socket and counts one attempt.  It leaves
    [isInitializing] set and readiness and the QR untouched, so that a
    further call is a no-op until an 'open' or a 'close' arrives. *)
Theorem initializeClient_setup_ok w s :
  undisturbed env ->
  isInitializing (vars w) = false ->
  isSome (sock (vars w)) && isReady (vars w) = false ->
  authSetup env (setups w) = SetupOk s ->
  initializeClient env w =
  mkOutcome (Returned tt)
    (mkWorld
       (mkGlobals (Some s) (lastQr (vars w)) (isReady (vars w))
                  (lastReadyAt (vars w)) (initializationAttempts (vars w) + 1) true)
       true (now w) (timers w) (S (awaits w)) (sends w) (S (setups w))
       (removals w))
    (endEffects (vars w) ++ (if sessionDir w then [] else [E_Mkdir])
     ++ [E_SocketCreated (sockId s)]) /\
  let w' := final (initializeClient env w) in
  initializeClient env w' = mkOutcome (Returned tt) w' [E_Log L_init_in_progress].
Proof.
  intros Hu Hi Hc Hs.
  destruct w as [[sk q r ra n i] d t ts a sn st rm]; cbn in Hi, Hc, Hs |- *.
  match goal with |- ?L = ?R /\ _ => assert (Heq : L = R) end.
  { unfold initializeClient, createSocket, mkdirSync, tryCatch, bind, getVars,
      getWorld, assign, emit, suspend.
    cbn. rewrite Hi. cbn. rewrite Hc. rewrite endSocket_eq. cbn.
    destruct d; cbn; rewrite Hs, Hu; cbn; rewrite ?app_nil_r; reflexivity. }
  split; [exact Heq|]. cbv zeta. rewrite Heq. reflexivity.
Qed.

(** X7.  When the setup throws and the attempts counted so far, this one
    included, are fewer than 5, [initializeClient] rethrows the error after
    it has cleared readiness, the QR and [isInitializing], sent
    [init_failure] with the number of attempts, and scheduled one
    reinitialization, due after the delay of the counter as incremented: 6 s
    after the first failure, not 3 s.  The previous socket has been ended
    before. *)
Theorem initializeClient_setup_fails w msg code :
  undisturbed env ->
  isInitializing (vars w) = false ->
  isSome (sock (vars w)) && isReady (vars w) = false ->
  authSetup env (setups w) = SetupThrows msg code ->
  initializationAttempts (vars w) + 1 < MAX_INITIALIZATION_ATTEMPTS ->
  initializeClient env w =
  mkOutcome (Thrown (SetupError msg code))
    (mkWorld
       (mkGlobals (socketAfterEnd (vars w)) None false
                  (lastReadyAt (vars w)) (initializationAttempts (vars w) + 1) false)
       true (now w)
       (timers w ++
        [mkTimer (now w)
                 (reinitializationDelay (initializationAttempts (vars w) + 1))
                 RetryInitialization])
       (S (awaits w)) (sends w) (S (setups w)) (removals w))
    (endEffects (vars w) ++ (if sessionDir w then [] else [E_Mkdir])
     ++ [E_Notify (N_init_failure msg code (now w)
                     (initializationAttempts (vars w) + 1))]).
Proof.
  intros Hu Hi Hc Hs Hlt.
  destruct w as [[sk q r ra n i] d t ts a sn st rm]; cbn in Hi, Hc, Hs, Hlt |- *.
  unfold initializeClient, initializeClient_catch, createSocket, mkdirSync,
    tryCatch, bind, getVars, getWorld, assign, notify, emit, suspend, throw.
  cbn. rewrite Hi. cbn. rewrite Hc. rewrite endSocket_eq. cbn.
  destruct d; cbn; rewrite Hs, Hu; cbn;
    (destruct (Z.ltb_spec (n + 1) MAX_INITIALIZATION_ATTEMPTS); [|lia]);
    rewrite attemptReinitialization_schedules by (cbn; assumption);
    cbn; rewrite ?app_nil_r; reflexivity.
Qed.

Lemma connected_calls n : forall w s,
  isInitializing (vars w) = false ->
  sock (vars w) = Some s ->
  isReady (vars w) = true ->
  run env (repeat Start n) w =
  mkOutcome (Returned tt)
            (withAttempts (initializationAttempts (vars w) + Z.of_nat n) w) [].
Proof.
  induction n as [|n IH]; intros w s Hi Hs Hr.
  - cbn. f_equal. destruct w as [[sk q r ra k i] d t ts a sn st rm]; cbn.
    now rewrite Z.add_0_r.
  - cbn [repeat run step]. unfold bind, tryCatch.
    rewrite (initializeClient_connected w Hi Hs Hr).
    rewrite (IH _ s) by assumption.
    destruct w as [[sk q r ra k i] d t ts a sn st rm]. cbn.
    replace (k + 1 + Z.of_nat n) with (k + Z.pos (Pos.of_succ_nat n)) by lia.
    reflexivity.
Qed.

(** X5.  Each call of [initializeClient] while the client is connected and
    ready does nothing but count an attempt.  The attempts so counted are not
    given back: once they reach 5, the next close that would reconnect (one
    whose code is neither 401 nor 405) clears the session and reports that
    the maximum of attempts is reached, instead of reconnecting. *)
Theorem connected_calls_consume_attempts (n : nat) (w : World) (s : Socket)
    (error : option DisconnectError) :
  isInitializing (vars w) = false ->
  sock (vars w) = Some s ->
  isReady (vars w) = true ->
  MAX_INITIALIZATION_ATTEMPTS <= initializationAttempts (vars w) + Z.of_nat n ->
  shouldReconnect env error = true ->
  optZ_eqb (errorCodeOf error) (Some 405) = false ->
  optZ_eqb (errorCodeOf error) (Some 401) = false ->
  let o := run env (repeat Start n) w in
  final o = withAttempts (initializationAttempts (vars w) + Z.of_nat n) w /\
  emitted o = [] /\
  let o' := onClose env error (final o) in
  timers (final o') = timers w /\
  setups (final o') = setups w /\
  initializationAttempts (vars (final o')) = 0 /\
  (rmSyncThrows env (removals w) = false -> sessionDir (final o') = false) /\
  In (E_Notify (N_auth_failure MaxAttemptsReached (now w))) (emitted o').
Proof.
  intros Hi Hs Hr Hmax Hsr H405 H401. cbv zeta.
  rewrite (connected_calls n w Hi Hs Hr). cbn [final emitted].
  split; [reflexivity|]. split; [reflexivity|].
  unfold onClose. rewrite H405, H401, Hsr.
  unfold bind, getWorld, assign, notify. cbn.
  rewrite attemptReinitialization_exhausted by (cbn; assumption).
  cbn. repeat split.
  - intros H. rewrite H. apply andb_false_r.
  - right. apply in_or_app. right. now left.
Qed.

End InitializationFacts.

(** *** Timers that outlive their purpose *)

Section StaleTimers.

Variable env : Env.

Arguments clearSessionData : simpl never.
Arguments attemptReinitialization : simpl never.
Arguments initializeClient : simpl never.
Arguments shouldReconnect : simpl never.

(** X9.  A close that reconnects leaves the socket in place, and a timer set
    by an earlier [messages.upsert] is still pending.  When that timer fires
    first, it marks the client ready again although the connection is
    closed; the reinitialization that follows then finds a socket and a
    ready client, counts an attempt and returns: no socket is created and
    nothing is left to reconnect. *)
Theorem stale_messages_timer_blocks_reconnect (w : World) (s : Socket)
    (tm : Timer) (error : option DisconnectError) :
  sock (vars w) = Some s ->
  timers w = [tm] ->
  task tm = AutoReadyAfterMessages ->
  initializationAttempts (vars w) < MAX_INITIALIZATION_ATTEMPTS ->
  shouldReconnect env error = true ->
  optZ_eqb (errorCodeOf error) (Some 405) = false ->
  optZ_eqb (errorCodeOf error) (Some 401) = false ->
  let o := run env [ConnectionUpdate (mkUpdate (Some ConnClose) error None);
                    TimerFires 0; TimerFires 0] w in
  result o = Returned tt /\
  isReady (vars (final o)) = true /\
  sock (vars (final o)) = Some s /\
  setups (final o) = setups w /\
  timers (final o) = [] /\
  initializationAttempts (vars (final o)) = initializationAttempts (vars w) + 1 /\
  emitted o = [E_Notify (N_connection_failure (errorMessageOf error)
                           (errorCodeOf error) (now w) true)].
Proof.
  intros Hs Ht Htm Hlt Hsr H405 H401.
  destruct w as [[sk q r ra n i] d t ts a sn st rm]; cbn in Hs, Ht, Hlt |- *.
  subst sk ts. destruct tm as [t0 d0 k0]. cbn in Htm. subst k0.
  unfold run, step, onConnectionUpdate, onClose, fireTimer, bind, getWorld,
    assign, notify. cbn.
  rewrite H405, H401, Hsr. cbn.
  rewrite attemptReinitialization_schedules by (cbn; assumption). cbn.
  unfold retryInitialization, tryCatch, bind, assign. cbn.
  match goal with
  | |- context [initializeClient env ?W] =>
      rewrite (@initializeClient_connected env W s eq_refl eq_refl eq_refl)
  end.
  cbn. repeat split.
Qed.

(** X8.  A close with code 405 that reconnects sets two timers: the recovery
    of [handle405Error], due after 2 s, and the reinitialization of
    [attemptReinitialization], due after 3 s.  When nothing else runs and
    both setups succeed, both initialize: the socket that the recovery
    creates is ended one second later by the reinitialization, which creates
    another one and counts a second attempt. *)
Theorem close_405_initializes_twice (w : World) (e : DisconnectError)
    (s1 s2 : Socket) :
  undisturbed env ->
  statusCode e = Some 405 ->
  shouldReconnect env (Some e) = true ->
  authSetup env (setups w) = SetupOk s1 ->
  authSetup env (S (setups w)) = SetupOk s2 ->
  endThrows s1 = false ->
  let n := List.length (timers w) in
  let closed := onConnectionUpdate env (mkUpdate (Some ConnClose) (Some e) None) w in
  timers (final closed) =
    timers w ++ [mkTimer (now w) 2000 Recover405;
                 mkTimer (now w) 3000 RetryInitialization] /\
  let o := run env [TimerFires n; TimerFires n] (final closed) in
  result o = Returned tt /\
  setups (final o) = S (S (setups w)) /\
  sock (vars (final o)) = Some s2 /\
  initializationAttempts (vars (final o)) = 2 /\
  timers (final o) = timers w /\
  now (final o) = now w + 3000 /\
  In (E_SocketCreated (sockId s1)) (emitted o) /\
  In (E_SockEnd (sockId s1)) (emitted o) /\
  In (E_SocketCreated (sockId s2)) (emitted o).
Proof.
  intros Hu H405 Hsr Hs1 Hs2 He1. cbv zeta.
  unfold onConnectionUpdate, onClose, handle405Error_start, errorCodeOf,
    bind, getWorld, assign, notify, setTimeout.
  cbn. rewrite H405. cbn. rewrite Hsr. rewrite clearSessionData_eq. cbn.
  rewrite attemptReinitialization_schedules by reflexivity. cbn.
  rewrite <- app_assoc. cbn [app]. split; [reflexivity|].
  unfold run, step, fireTimer, bind, getWorld. cbn.
  rewrite nth_error_middle. cbn. rewrite removeNth_middle.
  unfold recover405, handle405Error_resume, tryCatch, bind, assign, getWorld, notify.
  cbn.
  match goal with
  | |- context [initializeClient env ?W] =>
      rewrite (proj1 (@initializeClient_setup_ok env W s1 Hu eq_refl
                        (andb_false_r _) Hs1))
  end.
  cbn. rewrite nth_error_middle. cbn. rewrite removeNth_middle.
  unfold retryInitialization, tryCatch, bind, assign. cbn.
  match goal with
  | |- context [initializeClient env ?W] =>
      rewrite (proj1 (@initializeClient_setup_ok env W s2 Hu eq_refl
                        (andb_false_r _) Hs2))
  end.
  cbn. unfold endEffects. cbn. rewrite He1, app_nil_r.
  repeat split; try lia.
  all: rewrite ?in_app_iff; cbn [In]; auto 12.
Qed.

End StaleTimers.

(** *** Clearing and resetting the session *)

Section ResetFacts.

Variable env : Env.

Arguments clearSessionData : simpl never.
Arguments attemptReinitialization : simpl never.
Arguments initializeClient : simpl never.

(** X10.  [clearSessionData] resets the variables and is idempotent on them;
    once the directory is gone a second call only repeats the notification
    (and the attempt to end a socket whose [end] threw).  It cancels no
    timer: a reinitialization that was pending before is pending after, and
    when it fires with nothing else running and a setup that succeeds, it
    creates a socket and the session directory anew. *)
Theorem clearSessionData_keeps_timers (w : World) :
  let o1 := clearSessionData env w in
  let o2 := clearSessionData env (final o1) in
  timers (final o1) = timers w /\
  vars (final o2) = vars (final o1) /\
  (rmSyncThrows env (removals w) = false ->
   final o2 = final o1 /\
   emitted o2 = endEffects (vars (final o1)) ++ [E_Notify (N_session_cleared (now w))]) /\
  (forall i t s,
     undisturbed env ->
     nth_error (timers w) i = Some t ->
     task t = RetryInitialization ->
     authSetup env (setups w) = SetupOk s ->
     let o := fireTimer env i (final o1) in
     result o = Returned tt /\
     sock (vars (final o)) = Some s /\
     sessionDir (final o) = true /\
     initializationAttempts (vars (final o)) = 1 /\
     setups (final o) = S (setups w)).
Proof.
  cbv zeta. rewrite !clearSessionData_eq. cbn [final emitted].
  split; [reflexivity|]. split; [|split].
  - destruct w as [[sk q r ra n i] d t ts a sn st rm].
    destruct sk as [s|]; [destruct (endThrows s) eqn:E|];
      cbn; unfold socketAfterEnd; cbn; rewrite ?E; reflexivity.
  - intros Hrm.
    destruct w as [[sk q r ra n i] d t ts a sn st rm]. cbn in Hrm.
    unfold clearedWorld, clearingEffects, endEffects, socketAfterEnd.
    cbn. rewrite Hrm, !andb_false_r. cbn.
    destruct sk as [s|]; [destruct (endThrows s) eqn:E|];
      cbn; rewrite ?E; split; reflexivity.
  - intros i t s Hu Hn Ht Hs.
    unfold fireTimer, bind, getWorld. cbn. rewrite Hn. cbn. rewrite Ht. cbn.
    unfold retryInitialization, tryCatch, bind, assign. cbn.
    match goal with
    | |- context [initializeClient env ?W] =>
        rewrite (proj1 (@initializeClient_setup_ok env W s Hu eq_refl
                          (andb_false_r _) Hs))
    end.
    cbn. repeat split.
Qed.

(** X11.  [resetSession] does not end idle: after it has cleared the session
    and paused 500 ms it initializes again, whatever the state it was called
    in, a set [isInitializing] included.  When nothing else runs and the
    setup succeeds it leaves a new socket, one attempt counted,
    [isInitializing] set and the session directory created anew; when the
    setup throws, it throws and a reinitialization is pending, 6 s ahead.
    The timers that were pending are still pending. *)
Theorem resetSession_reinitializes (w : World) :
  undisturbed env ->
  (forall s,
     authSetup env (setups w) = SetupOk s ->
     let o := resetSession env w in
     result o = Returned tt /\
     vars (final o) = mkGlobals (Some s) None false (lastReadyAt (vars w)) 1 true /\
     sessionDir (final o) = true /\
     timers (final o) = timers w /\
     now (final o) = now w + 500 /\
     In (E_Notify (N_session_cleared (now w))) (emitted o) /\
     In (E_SocketCreated (sockId s)) (emitted o)) /\
  (forall msg code,
     authSetup env (setups w) = SetupThrows msg code ->
     let o := resetSession env w in
     result o = Thrown (SetupError msg code) /\
     isInitializing (vars (final o)) = false /\
     timers (final o) =
       timers w ++ [mkTimer (now w + 500) 6000 RetryInitialization]).
Proof.
  intros Hu. split.
  - intros s Hs. cbv zeta.
    unfold resetSession, pause, advanceClock, suspend, bind.
    rewrite clearSessionData_eq. cbn. rewrite Hu.
    match goal with
    | |- context [initializeClient env ?W] =>
        rewrite (proj1 (@initializeClient_setup_ok env W s Hu eq_refl
                          (andb_false_r _) Hs))
    end.
    cbn. repeat split.
    + apply in_or_app. left. apply session_cleared_notified.
    + rewrite !in_app_iff. right. right. destruct (_ && _); cbn; auto.
  - intros msg code Hs. cbv zeta.
    unfold resetSession, pause, advanceClock, suspend, bind.
    rewrite clearSessionData_eq. cbn. rewrite Hu.
    match goal with
    | |- context [initializeClient env ?W] =>
        rewrite (@initializeClient_setup_fails env W msg code Hu eq_refl
                   (andb_false_r _) Hs ltac:(cbn; unfold MAX_INITIALIZATION_ATTEMPTS; lia))
    end.
    cbn. repeat split.
Qed.

End ResetFacts.

(** *** QR generation *)

Section KeepsClock.

Context {A B : Type}.

Lemma keepsClock_ret (a : A) : keepsClock (ret a).
Proof. intro w; reflexivity. Qed.

Lemma keepsClock_throw (e : Exn) : keepsClock (@throw A e).
Proof. intro w; reflexivity. Qed.

Lemma keepsClock_bind (m : M A) (k : A -> M B) :
  keepsClock m -> (forall a, keepsClock (k a)) -> keepsClock (bind m k).
Proof.
  intros Hm Hk w. rewrite final_bind.
  destruct (result (m w)); [rewrite Hk| |]; apply Hm.
Qed.

Lemma keepsClock_tryCatch (m : M A) (h : Exn -> M A) :
  keepsClock m -> (forall e, keepsClock (h e)) -> keepsClock (tryCatch m h).
Proof.
  intros Hm Hh w. rewrite final_tryCatch.
  destruct (result (m w)); [|rewrite Hh|]; apply Hm.
Qed.

Lemma keepsClock_if (b : bool) (m1 m2 : M A) :
  keepsClock m1 -> keepsClock m2 -> keepsClock (if b then m1 else m2).
Proof. destruct b; auto. Qed.

End KeepsClock.

Lemma keepsClock_emit e : keepsClock (emit e).
Proof. intro w; reflexivity. Qed.

Lemma keepsClock_getWorld : keepsClock getWorld.
Proof. intro w; reflexivity. Qed.

Lemma keepsClock_getVars : keepsClock getVars.
Proof. intro w; reflexivity. Qed.

Lemma keepsClock_assign f : keepsClock (assign f).
Proof. intro w; reflexivity. Qed.

Lemma keepsClock_notify n : keepsClock (notify n).
Proof. intro w; reflexivity. Qed.

Lemma keepsClock_setTimeout t ms : keepsClock (setTimeout t ms).
Proof. intro w; reflexivity. Qed.

#[local] Hint Resolve keepsClock_ret keepsClock_throw keepsClock_bind
  keepsClock_tryCatch keepsClock_if keepsClock_emit keepsClock_getWorld
  keepsClock_getVars keepsClock_assign keepsClock_notify
  keepsClock_setTimeout : service.

Ltac clock_auto :=
  repeat (intros;
    match goal with
    | |- keepsClock (match ?x with _ => _ end) => destruct x
    | |- keepsClock (bind _ _) => apply keepsClock_bind
    | |- keepsClock (tryCatch _ _) => apply keepsClock_tryCatch
    | |- _ => solve [auto with service]
    end).

Section QrGeneration.

Variable env : Env.

Lemma keepsClock_suspend : keepsClock (suspend env).
Proof. intro w; reflexivity. Qed.

Lemma keepsClock_endSocket : keepsClock endSocket.
Proof. unfold endSocket. clock_auto. Qed.

Lemma keepsClock_rmSync : keepsClock (rmSync env).
Proof. intro w. unfold rmSync. now destruct (rmSyncThrows env (removals w)). Qed.

Hint Resolve keepsClock_suspend keepsClock_endSocket keepsClock_rmSync : service.

Lemma keepsClock_clearSessionData : keepsClock (clearSessionData env).
Proof. unfold clearSessionData. clock_auto. Qed.

Hint Resolve keepsClock_clearSessionData : service.

Lemma keepsClock_attemptReinitialization :
  keepsClock (attemptReinitialization env).
Proof. unfold attemptReinitialization. clock_auto. Qed.

Hint Resolve keepsClock_attemptReinitialization : service.

Lemma keepsClock_createSocket : keepsClock (createSocket env).
Proof.
  unfold createSocket. apply keepsClock_bind; [auto with service|].
  intros _ w. now destruct (authSetup env (setups w)).
Qed.

Hint Resolve keepsClock_createSocket : service.

Lemma keepsClock_initializeClient : keepsClock (initializeClient env).
Proof.
  unfold initializeClient, initializeClient_catch, mkdirSync. clock_auto.
Qed.

Lemma waitForQr_outcome n : forall attempts w,
  let o := waitForQr env n attempts w in
  exists polls,
    (polls <= n)%nat /\
    now (final o) = now w + 2000 * Z.of_nat polls /\
    (result o = Returned (mkQRResult true None None) /\
     truthyOpt (lastQr (vars (final o))) = true
     \/
     result o = Returned (qrTimeout (attempts + Z.of_nat n)) /\ polls = n).
Proof.
  induction n as [|n IH]; intros attempts w; cbn [waitForQr].
  - exists 0%nat. cbn -[Z.of_nat Z.mul Z.add].
    split; [lia|]. split; [lia|]. right. split; [|reflexivity].
    now rewrite Z.add_0_r.
  - unfold pause, advanceClock, suspend, bind, getVars.
    cbn -[Z.of_nat Z.mul Z.add].
    match goal with
    | |- context [truthyOpt (lastQr ?g)] => destruct (truthyOpt (lastQr g)) eqn:Hq
    end.
    + exists 1%nat. cbn -[Z.of_nat Z.mul Z.add].
      split; [lia|]. split; [lia|]. left. split; [reflexivity | exact Hq].
    + match goal with
      | |- context [waitForQr env n ?a ?W] =>
          destruct (IH a W) as (polls & Hle & Hnow & Hres)
      end.
      cbv zeta in Hnow, Hres. exists (S polls).
      destruct (waitForQr env n (attempts + 1) _) as [r w' l].
      cbn -[Z.of_nat Z.mul Z.add] in *.
      split; [lia|]. split; [lia|].
      destruct Hres as [[-> Ht] | [-> ->]]; [left; now split | right].
      split; [|reflexivity]. do 2 f_equal. lia.
Qed.

Lemma generateNewQR_prepare_eq w :
  generateNewQR_prepare env w =
  mkOutcome (Returned tt) (preparedWorld env w)
    (endEffects (vars w)
     ++ (if sessionDir w && negb (rmSyncThrows env (removals w))
         then [E_RmSync] else [])).
Proof.
  unfold generateNewQR_prepare, preparedWorld, endEffects, socketAfterEnd,
    endSocket, rmSync, bind, getVars, getWorld, assign, modifyWorld, emit, ret,
    setVars.
  destruct w as [[sk q r ra n i] d t ts a sn st rm]; cbn.
  destruct sk as [s|]; [destruct (endThrows s)|]; cbn;
    (destruct d; cbn; [destruct (rmSyncThrows env rm)|]; reflexivity).
Qed.


End QrGeneration.

(** *** Readiness before a send *)

Section ReadinessFacts.

Variable env : Env.

(** X13.  Without a socket [sendMessage] rejects with the not-initialized
    error, and with a socket that has no [sendMessage] with the
    not-properly-initialized error, ready or not: in both cases at once,
    before it looks at its input, and with the world as it was. *)
Theorem send_without_socket (phone text : jsstring) (retryCount : Z) (w : World) :
  (sock (vars w) = None ->
   sendMessage env phone text retryCount w =
   mkOutcome (Thrown NotInitialized) w [E_Log (L_attempt (retryCount + 1))]) /\
  (forall s,
     sock (vars w) = Some s ->
     hasSendMessage s = false ->
     sendMessage env phone text retryCount w =
     mkOutcome (Thrown NotProperlyInitialized) w
               [E_Log (L_attempt (retryCount + 1))]).
Proof.
  split.
  - intros Hs. unfold sendMessage. cbn [sendMessage_fuel].
    unfold bind, checkConnection, getVars, emit, throw. cbn. rewrite Hs. reflexivity.
  - intros s Hs Hh. unfold sendMessage. cbn [sendMessage_fuel].
    unfold bind, checkConnection, getVars, emit, throw. cbn. rewrite Hs. cbn.
    destruct (isReady (vars w)); cbn; rewrite ?Hh; cbn; rewrite ?Hs, ?Hh; reflexivity.
Qed.

Lemma waitForReady_outcome n : forall w,
  let o := waitForReady env n w in
  exists k,
    (k <= n)%nat /\
    result o = Returned tt /\
    emitted o = repeat (E_Sleep WaitReady 1000) k /\
    now (final o) = now w + 1000 * Z.of_nat k /\
    sessionDir (final o) = sessionDir w /\
    timers (final o) = timers w /\
    sends (final o) = sends w /\
    ((k < n)%nat ->
     isReady (vars (final o)) = true \/ sock (vars (final o)) = None) /\
    (k = 0%nat -> final o = w).
Proof.
  induction n as [|n IH]; intros w; cbn [waitForReady].
  - exists 0%nat. cbn -[Z.of_nat Z.mul Z.add].
    split; [lia|]. do 2 (split; [reflexivity|]). split; [lia|].
    do 3 (split; [reflexivity|]). split; [lia | reflexivity].
  - unfold sleep, advanceClock, suspend, bind, getVars, emit, modifyWorld.
    cbv beta iota.
    destruct (negb (isReady (vars w)) && isSome (sock (vars w))) eqn:Hc.
    + cbv beta iota.
      match goal with
      | |- context [waitForReady env n ?W] =>
          destruct (IH W) as (k & Hle & Hres & Hem & Hnow & Hd & Ht & Hs & Hearly & _)
      end.
      cbv zeta in Hres, Hem, Hnow, Hd, Ht, Hs, Hearly.
      destruct (waitForReady env n _) as [r w' l].
      cbn -[Z.of_nat Z.mul Z.add] in *. subst r l.
      exists (S k).
      split; [lia|]. do 2 (split; [reflexivity|]). split; [lia|].
      do 3 (split; [assumption|]). split; [|lia].
      intros Hlt. apply Hearly. lia.
    + exists 0%nat. cbn -[Z.of_nat Z.mul Z.add].
      split; [lia|]. do 2 (split; [reflexivity|]). split; [lia|].
      do 3 (split; [reflexivity|]). split; [|reflexivity].
      intros _. apply andb_false_iff in Hc as [Hc | Hc].
      * left. now apply negb_false_iff in Hc.
      * right. now destruct (sock (vars w)).
Qed.


End ReadinessFacts.

(** *** What a send does with the transport *)

Section TransportFacts.

Variable env : Env.

Lemma checkConnection_ready w s :
  sock (vars w) = Some s ->
  hasSendMessage s = true ->
  isReady (vars w) = true ->
  checkConnection env w = mkOutcome (Returned s) w [].
Proof.
  intros Hs Hh Hr. unfold bind, checkConnection, getVars, emit, throw, ret. cbn.
  rewrite Hs, Hr. cbn. rewrite Hs, Hh. reflexivity.
Qed.

(** X15.  A transport error that matches none of the patterns of lines
    870-882 is not retried: the send rejects after its one transport call,
    with the count of 1 attempt and the message of the error.  An error
    without a message, or with an empty one, is such an error. *)
Theorem unrecoverable_error_is_not_retried (phone text : jsstring) (w : World)
    (s : Socket) (msg : option jsstring) :
  sock (vars w) = Some s ->
  hasSendMessage s = true ->
  isReady (vars w) = true ->
  invalidInput phone text = false ->
  transportSend env (sends w) = SendThrows msg ->
  isRecoverableError (TransportError msg) = false ->
  let o := send env phone text w in
  let finalNumber := finalNumberOf (removeDashesAndSpaces phone) in
  result o = Thrown (SendFailed 1 msg) /\
  emitted o = [E_Log (L_attempt 1);
               E_TransportSend (sockId s) (jidOf finalNumber) (trim text)] /\
  isRecoverableError (TransportError None) = false /\
  isRecoverableError (TransportError (Some [])) = false.
Proof.
  intros Hs Hh Hr Hv Ht Hrec. cbv zeta.
  assert (Heq : send env phone text w =
            mkOutcome (Thrown (SendFailed 1 msg))
              (mkWorld (interleave env (awaits w) (vars w)) (sessionDir w) (now w)
                       (timers w) (S (awaits w)) (S (sends w)) (setups w)
                       (removals w))
              [E_Log (L_attempt 1);
               E_TransportSend (sockId s)
                 (jidOf (finalNumberOf (removeDashesAndSpaces phone))) (trim text)]).
  { unfold send, sendMessage. cbn [sendMessage_fuel].
    rewrite (validate_valid _ _ Hv). unfold bind at 1. cbn.
    unfold bind at 1. rewrite (checkConnection_ready w Hs Hh Hr).
    unfold tryCatch, transportCall, bind, getWorld, emit, modifyWorld, suspend,
      ret, throw.
    cbn. rewrite Ht. cbn. rewrite Hrec. reflexivity. }
  rewrite Heq. repeat split.
Qed.

Lemma waitForReady_undisturbed n : forall w s,
  undisturbed env ->
  sock (vars w) = Some s ->
  isReady (vars w) = false ->
  waitForReady env n w =
  mkOutcome (Returned tt)
    (mkWorld (vars w) (sessionDir w) (now w + 1000 * Z.of_nat n) (timers w)
             (awaits w + n) (sends w) (setups w) (removals w))
    (repeat (E_Sleep WaitReady 1000) n).
Proof.
  induction n as [|n IH]; intros w s Hu Hs Hr; cbn [waitForReady].
  - cbn -[Z.of_nat Z.mul Z.add]. rewrite Z.add_0_r, Nat.add_0_r. now destruct w.
  - unfold sleep, advanceClock, suspend, bind, getVars, emit, modifyWorld.
    cbv beta iota. rewrite Hs, Hr. cbn [negb isSome andb]. cbv beta iota.
    cbn [vars sessionDir now timers awaits sends setups removals].
    rewrite Hu.
    rewrite (IH _ s Hu) by assumption.
    cbn [vars sessionDir now timers awaits sends setups removals repeat app].
    do 2 f_equal; [lia | lia].
Qed.

(** X16.  A client that is not ready does not stop a send.  When the socket
    has [sendMessage], nothing else runs and the transport accepts the
    message, [sendMessage] waits the full 5 s for a readiness that does not
    come, sends all the same and succeeds, and the client is as little ready
    after as before. *)
Theorem send_while_not_ready (phone text : jsstring) (w : World) (s : Socket) :
  undisturbed env ->
  sock (vars w) = Some s ->
  hasSendMessage s = true ->
  isReady (vars w) = false ->
  invalidInput phone text = false ->
  transportSend env (sends w) = SendOk ->
  let o := send env phone text w in
  let finalNumber := finalNumberOf (removeDashesAndSpaces phone) in
  result o = Returned (mkSendReceipt true finalNumber) /\
  emitted o =
    E_Log (L_attempt 1) :: repeat (E_Sleep WaitReady 1000) 5 ++
    [E_TransportSend (sockId s) (jidOf finalNumber) (trim text)] /\
  now (final o) = now w + 5000 /\
  isReady (vars (final o)) = false.
Proof.
  intros Hu Hs Hh Hr Hv Ht. cbv zeta.
  assert (Hcheck : checkConnection env w =
            mkOutcome (Returned s)
              (mkWorld (vars w) (sessionDir w) (now w + 5000) (timers w)
                       (awaits w + 5) (sends w) (setups w) (removals w))
              (repeat (E_Sleep WaitReady 1000) 5)).
  { unfold checkConnection, bind, getVars, ret, throw. cbv beta iota.
    rewrite Hs, Hr. cbn [negb]. rewrite Hh.
    rewrite (waitForReady_undisturbed 5 w Hu Hs Hr).
    cbn [vars]. rewrite Hs, Hh. cbn. reflexivity. }
  assert (Heq : send env phone text w =
            mkOutcome (Returned (mkSendReceipt true
                         (finalNumberOf (removeDashesAndSpaces phone))))
              (mkWorld (vars w) (sessionDir w) (now w + 5000)
                       (timers w) (S (awaits w + 5)) (S (sends w)) (setups w)
                       (removals w))
              (E_Log (L_attempt 1) :: repeat (E_Sleep WaitReady 1000) 5 ++
               [E_TransportSend (sockId s)
                  (jidOf (finalNumberOf (removeDashesAndSpaces phone)))
                  (trim text)])).
  { unfold send, sendMessage. cbn [sendMessage_fuel].
    rewrite (validate_valid _ _ Hv).
    unfold bind at 1. cbn [emit]. unfold bind at 1. rewrite Hcheck.
    unfold tryCatch, transportCall, bind, getWorld, emit, modifyWorld, suspend, ret.
    cbn. rewrite Ht, Hu. reflexivity. }
  rewrite Heq. cbn [result final emitted now vars]. repeat split. exact Hr.
Qed.

End TransportFacts.

(** *** What reaches the transport, and what a send resolves to *)

Section JsStringFacts.

Lemma trimStart_head s :
  match trimStart s with
  | [] => True
  | c :: _ => isWhiteSpace c = false
  end.
Proof.
  induction s as [|c s IH]; cbn; [exact I|].
  destruct (isWhiteSpace c) eqn:E; [exact IH | exact E].
Qed.

Lemma trimStart_fixed s :
  match s with [] => True | c :: _ => isWhiteSpace c = false end ->
  trimStart s = s.
Proof. destruct s as [|c s]; cbn; [reflexivity|]. now intros ->. Qed.

Lemma trimStart_suffix s : exists p, s = p ++ trimStart s.
Proof.
  induction s as [|c s [p IH]]; [now exists []|]. cbn.
  destruct (isWhiteSpace c); [|now exists []].
  exists (c :: p). cbn. now f_equal.
Qed.

(** [trim] leaves no white space at either end: trimming again changes
    nothing. *)
Lemma trim_idempotent s : trim (trim s) = trim s.
Proof.
  unfold trim. set (t := trimStart s). set (u := trimStart (rev t)).
  assert (Hu : trimStart u = u) by (apply trimStart_fixed, trimStart_head).
  assert (Hr : trimStart (rev u) = rev u).
  { apply trimStart_fixed.
    destruct (trimStart_suffix (rev t)) as [p Hp]. fold u in Hp.
    apply (f_equal (@rev N)) in Hp. rewrite rev_involutive, rev_app_distr in Hp.
    pose proof (trimStart_head s) as Ht. fold t in Ht.
    destruct (rev u) as [|c r]; [exact I|]. rewrite Hp in Ht. exact Ht. }
  now rewrite Hr, rev_involutive, Hu.
Qed.

Lemma noDashOrSpace_sanitized s :
  noDashOrSpace (removeDashesAndSpaces s) = true.
Proof.
  unfold noDashOrSpace, removeDashesAndSpaces.
  induction s as [|c s IH]; cbn; [reflexivity|].
  destruct (negb ((c =? 45)%N || isWhiteSpace c)) eqn:E; cbn; [now rewrite E|exact IH].
Qed.

(** What the validation lets through. *)
Lemma validate_wellFormed phone text number trimmed :
  validate phone text = inr (number, trimmed) ->
  startsWith number (lit "+") = true /\
  noDashOrSpace number = true /\
  8 <= lengthOf number /\
  truthy trimmed = true /\
  trim trimmed = trimmed.
Proof.
  unfold validate.
  destruct (negb (truthy phone)); [discriminate|].
  destruct (negb (truthy text) || (lengthOf (trim text) =? 0)) eqn:Et; [discriminate|].
  destruct (negb (truthy (removeDashesAndSpaces phone))
            || (lengthOf (removeDashesAndSpaces phone) <? 8)) eqn:Ep; [discriminate|].
  intros E. injection E as <- <-.
  apply orb_false_iff in Et as [_ Et]. apply orb_false_iff in Ep as [_ Ep].
  apply Z.ltb_ge in Ep.
  pose proof (noDashOrSpace_sanitized phone) as Hn.
  unfold finalNumberOf.
  assert (Htr : truthy (trim text) = true).
  { apply Z.eqb_neq in Et. unfold lengthOf in Et.
    destruct (trim text); [now elim Et | reflexivity]. }
  destruct (startsWith (removeDashesAndSpaces phone) (lit "+")) eqn:Es.
  - split; [exact Es|]. split; [exact Hn|]. split; [exact Ep|].
    split; [exact Htr | apply trim_idempotent].
  - split; [cbn; now destruct (removeDashesAndSpaces phone)|].
    split; [exact Hn|].
    split; [|split; [exact Htr | apply trim_idempotent]].
    unfold lengthOf in *. rewrite length_app. cbn [lit List.map list_ascii_of_string
      List.length]. lia.
Qed.

End JsStringFacts.

Section DeliveryOutcome.

Variable env : Env.

(** A run without a transport call has only well-formed ones. *)
Lemma no_send_wellFormed l :
  count isSend (deliveryEvents l) = 0 -> Forall wellFormedSend l.
Proof.
  induction l as [|e l IH]; [constructor|].
  cbn [deliveryEvents]. destruct (deliveryEventOf e) as [d|] eqn:E.
  - rewrite count_cons. pose proof (count_nonneg isSend (deliveryEvents l)).
    destruct d; cbn [isSend]; intros H0; try lia;
      (constructor; [|apply IH; lia]);
      destruct e; try exact I; discriminate E.
  - intros H0. constructor; [|apply IH, H0].
    destruct e; try exact I; discriminate E.
Qed.

Lemma transportCall_wellFormed s phone text number trimmed w :
  validate phone text = inr (number, trimmed) ->
  Forall wellFormedSend (emitted (transportCall env s (jidOf number) trimmed w)).
Proof.
  intros Hv. apply validate_wellFormed in Hv.
  unfold transportCall, bind, getWorld, emit, modifyWorld, suspend,
    advanceClock, throw, ret. cbn.
  destruct (transportSend env (sends w)); cbn;
    (constructor; [exists number; split; [reflexivity | exact Hv] | constructor]).
Qed.

Lemma sendMessage_fuel_wellFormed phone text fuel : forall retryCount w,
  Forall wellFormedSend
    (emitted (sendMessage_fuel env fuel phone text retryCount w)).
Proof.
  induction fuel as [|fuel IH]; intros k w; [constructor|].
  cbn [sendMessage_fuel].
  rewrite emitted_bind. apply Forall_app. split; [repeat constructor|].
  cbn [emit result final].
  rewrite emitted_bind. apply Forall_app. split.
  { apply no_send_wellFormed. now rewrite silent_checkConnection. }
  destruct (result (checkConnection env w)) as [s| |]; try constructor.
  destruct (validate phone text) as [error|[finalNumber trimmed]] eqn:Hv;
    [constructor|].
  set (w1 := final (checkConnection env w)).
  rewrite emitted_tryCatch. apply Forall_app. split.
  { rewrite emitted_bind. apply Forall_app. split.
    - apply (transportCall_wellFormed s _ _ w1 Hv).
    - destruct (result _); constructor. }
  destruct (result _) as [r|error|]; try constructor.
  set (w2 := final _).
  destruct (nullishOf error) as [v|]; [constructor|].
  destruct (isRecoverableError error && (k <? MAX_RETRIES)); [|constructor].
  rewrite emitted_bind. apply Forall_app. split; [repeat constructor|].
  cbn [emit result final].
  rewrite emitted_bind. apply Forall_app. split; [repeat constructor|].
  destruct (retryDelay_events env w2) as [Hr _]. cbv zeta in Hr. rewrite Hr.
  clear Hr. set (w3 := final _).
  rewrite emitted_bind. apply Forall_app. split.
  { apply no_send_wellFormed. destruct (k =? 0); [|reflexivity].
    destruct (guarded_reinitialization env w3) as [_ Hd]. cbv zeta in Hd.
    now rewrite Hd. }
  destruct (result _); try constructor. apply IH.
Qed.

(** X17.  Whatever [sendMessage] is called with and whatever happens during
    its attempts, each message it hands to the transport goes to a target
    that starts with [+], has no dash and no white space and at least 8
    characters, followed by [@s.whatsapp.net], and carries a text that is
    not empty and has no white space at either end. *)
Theorem transport_gets_sanitized_messages (phone text : jsstring)
    (retryCount : Z) (w : World) :
  Forall wellFormedSend (emitted (sendMessage env phone text retryCount w)).
Proof. apply sendMessage_fuel_wellFormed. Qed.

Lemma lastCall_first (first : nat) (d : list DeliveryEvent)
    (P : SendOutcome -> Prop) :
  count isSend d = 1 ->
  P (transportSend env first) ->
  lastCall env first d P.
Proof.
  intros Hc HP. exists 0%nat. rewrite Nat.add_0_r. split; [lia | exact HP].
Qed.

Lemma lastCall_later (first : nat) (d d' : list DeliveryEvent)
    (P : SendOutcome -> Prop) :
  count isSend d = 1 + count isSend d' ->
  lastCall env (S first) d' P ->
  lastCall env first d P.
Proof.
  intros Hc (j & Hj & HP). exists (S j). rewrite <- plus_n_Sm.
  split; [lia | exact HP].
Qed.

Lemma sendMessage_fuel_outcome phone text fuel : forall retryCount w,
  (0 < fuel)%nat ->
  MAX_RETRIES - retryCount < Z.of_nat fuel ->
  let o := sendMessage_fuel env fuel phone text retryCount w in
  sendOutcome env phone text retryCount (sends w) (result o)
              (deliveryEvents (emitted o)).
Proof.
  induction fuel as [|fuel IH]; intros k w Hpos Hf; [lia|].
  pose proof (sendMessage_fuel_step env phone text fuel k w) as Hstep.
  cbv zeta in *.
  set (d := deliveryEvents _) in *.
  set (r := result (sendMessage_fuel env (S fuel) phone text k w)) in *.
  destruct (result (checkConnection env w)) as [s|e|]; [| |destruct Hstep].
  2:{ destruct Hstep as (-> & -> & He). unfold sendOutcome.
      destruct e; try discriminate He; cbn; split; reflexivity. }
  destruct (invalidInput phone text) eqn:Hi.
  { destruct Hstep as (-> & e & -> & He). unfold sendOutcome.
    destruct e; try discriminate He; cbn; split; reflexivity. }
  destruct (rejectionOf (transportSend env (sends w))) as [error|] eqn:Hrej.
  2:{ destruct Hstep as (-> & ->). unfold sendOutcome.
      split; [reflexivity|]. split; [exact Hi|]. split; [reflexivity|].
      apply lastCall_first; [reflexivity|].
      destruct (transportSend env (sends w)); try discriminate Hrej.
      reflexivity. }
  destruct (nullishOf error) as [v|] eqn:Hnull.
  { destruct Hstep as (-> & ->). unfold sendOutcome.
    split; [reflexivity|]. split; [exact Hi|].
    apply lastCall_first; [reflexivity|].
    destruct (transportSend env (sends w)); try discriminate Hrej;
      injection Hrej as <-; try discriminate Hnull.
    now injection Hnull as <-. }
  destruct (isRecoverableError error && (k <? MAX_RETRIES)) eqn:Hcnd.
  2:{ destruct Hstep as (-> & ->). unfold sendOutcome.
      split; [cbn; lia|]. split; [reflexivity|]. split; [exact Hi|]. split.
      - apply andb_false_iff in Hcnd as [Hn|Hn].
        + right. rewrite <- Hn. now apply isRecoverableError_message.
        + left. apply Z.ltb_ge in Hn. lia.
      - apply lastCall_first; [reflexivity|]. rewrite Hrej. eauto. }
  apply andb_true_iff in Hcnd as [_ Hk]. apply Z.ltb_lt in Hk.
  destruct Hstep as (w' & Hs' & Hres & Hd).
  specialize (IH (k + 1) w' ltac:(unfold MAX_RETRIES in *; lia) ltac:(lia)).
  rewrite Hs' in IH. fold r in Hres. rewrite <- Hres in IH.
  set (d' := deliveryEvents _) in *.
  assert (Hcs : count isSend d = 1 + count isSend d').
  { rewrite Hd, !count_cons, count_app. cbn [isSend].
    destruct (k =? 0); cbn; lia. }
  assert (Hca : count isAttempt d = 1 + count isAttempt d').
  { rewrite Hd, !count_cons, count_app. cbn [isAttempt].
    destruct (k =? 0); cbn; lia. }
  clearbody d d' r. clear Hd Hres. revert IH. unfold sendOutcome.
  destruct r as [receipt|e|]; [intros (-> & _ & Hcnt & Hl) | | intros []].
  - split; [reflexivity|]. split; [exact Hi|]. split; [lia|].
    exact (@lastCall_later _ _ _ _ Hcs Hl).
  - destruct e; intros H;
      try (destruct H as [H1 H2]; split; [exact H1 | lia]).
    + destruct H as (H1 & H2 & _ & H4 & H5).
      split; [lia|]. split; [lia|]. split; [exact Hi|]. split; [exact H4|].
      exact (@lastCall_later _ _ _ _ Hcs H5).
    + destruct H as (H1 & _ & H3).
      split; [lia|]. split; [exact Hi|]. exact (@lastCall_later _ _ _ _ Hcs H3).
Qed.


End DeliveryOutcome.


(** *** Re-establishing the connection while an initialization is pending *)

Section PendingInitialization.

Variable env : Env.

Arguments endSocket : simpl never.

Lemma reinitializeConnection_pending w :
  undisturbed env ->
  isInitializing (vars w) = true ->
  reinitializeConnection env w =
  mkOutcome (Returned tt)
    (mkWorld (mkGlobals (socketAfterEnd (vars w)) None false
                        (lastReadyAt (vars w))
                        (initializationAttempts (vars w)) true)
             (sessionDir w) (now w + 1000) (timers w) (S (awaits w))
             (sends w) (setups w) (removals w))
    (E_Log L_reinitializing_connection :: endEffects (vars w) ++
     [E_Sleep ReinitCleanup 1000; E_Log L_init_in_progress]).
Proof.
  intros Hu Hi.
  unfold reinitializeConnection, initializeClient, sleep, advanceClock, suspend.
  unfold bind at 1. cbn [emit result final emitted].
  unfold bind at 1. rewrite endSocket_eq.
  destruct w as [[sk q r ra n i] d t ts a sn st rm]. cbn in Hi. subst i.
  unfold tryCatch, bind, assign, modifyWorld, getVars, emit, setVars. cbn.
  rewrite Hu. reflexivity.
Qed.

(** X19.  While an initialization is pending, re-establishing the connection
    only takes it down: the socket is ended, the readiness and the QR code
    are dropped, and after the pause of 1 s [initializeClient] returns at
    once, so no socket is created and no attempt is counted. *)
Theorem reinitializeConnection_while_initializing (w : World) (s : Socket) :
  undisturbed env ->
  isInitializing (vars w) = true ->
  sock (vars w) = Some s ->
  endThrows s = false ->
  let o := reinitializeConnection env w in
  result o = Returned tt /\
  emitted o = [E_Log L_reinitializing_connection; E_SockEnd (sockId s);
               E_Sleep ReinitCleanup 1000; E_Log L_init_in_progress] /\
  sock (vars (final o)) = None /\
  isReady (vars (final o)) = false /\
  lastQr (vars (final o)) = None /\
  initializationAttempts (vars (final o)) = initializationAttempts (vars w) /\
  setups (final o) = setups w /\
  now (final o) = now w + 1000.
Proof.
  intros Hu Hi Hs He. cbv zeta.
  rewrite (reinitializeConnection_pending w Hu Hi).
  unfold endEffects, socketAfterEnd. rewrite Hs, He. cbn.
  split; [reflexivity|]. split; [reflexivity|]. split; [reflexivity|].
  split; [reflexivity|]. split; [reflexivity|]. split; [reflexivity|].
  split; reflexivity.
Qed.

Arguments reinitializeConnection : simpl never.

(** X20.  A send that meets a recoverable transport error while an
    initialization is pending does not get its retry through: the
    re-establishment before the first retry ends the socket and creates
    none, so the second attempt fails at the first connection check with
    [WhatsApp client is not initialized.], after one transport call, and
    the service is left without a socket. *)
Theorem retry_while_initializing_loses_socket (phone text : jsstring)
    (w : World) (s : Socket) (msg : option jsstring) :
  undisturbed env ->
  sock (vars w) = Some s ->
  hasSendMessage s = true ->
  endThrows s = false ->
  isReady (vars w) = true ->
  isInitializing (vars w) = true ->
  invalidInput phone text = false ->
  transportSend env (sends w) = SendThrows msg ->
  isRecoverableError (TransportError msg) = true ->
  let o := send env phone text w in
  result o = Thrown NotInitialized /\
  deliveryEvents (emitted o) =
    [D_Attempt 1; D_Send; D_RetryDelay RETRY_DELAY; D_Reinitialize; D_Attempt 2] /\
  sock (vars (final o)) = None /\
  sends (final o) = S (sends w).
Proof.
  intros Hu Hs Hh Hend Hr Hi Hv Ht Hrec. cbv zeta.
  assert (Heq : send env phone text w =
            mkOutcome (Thrown NotInitialized)
              (mkWorld (mkGlobals None None false (lastReadyAt (vars w))
                                  (initializationAttempts (vars w)) true)
                       (sessionDir w) (now w + RETRY_DELAY + 1000) (timers w)
                       (S (S (S (awaits w)))) (S (sends w)) (setups w)
                       (removals w))
              [E_Log (L_attempt 1);
               E_TransportSend (sockId s)
                 (jidOf (finalNumberOf (removeDashesAndSpaces phone))) (trim text);
               E_Log (L_retrying RETRY_DELAY 2);
               E_Sleep RetryDelay RETRY_DELAY;
               E_Log L_reinitializing_connection; E_SockEnd (sockId s);
               E_Sleep ReinitCleanup 1000; E_Log L_init_in_progress;
               E_Log (L_attempt 2)]).
  { unfold send, sendMessage.
    change (S (Z.to_nat (MAX_RETRIES - 0))) with 4%nat.
    cbn [sendMessage_fuel].
    rewrite (validate_valid _ _ Hv). unfold bind at 1. cbn [emit result final emitted].
    unfold bind at 1. rewrite (checkConnection_ready env w Hs Hh Hr).
    unfold tryCatch at 1. unfold transportCall, sleep, advanceClock, suspend.
    unfold bind, getWorld, emit, modifyWorld, ret, throw.
    cbn -[Z.add]. rewrite Ht. cbn -[Z.add]. rewrite Hrec. cbn -[Z.add].
    rewrite !Hu.
    unfold tryCatch.
    match goal with
    | |- context [reinitializeConnection env ?W] =>
        rewrite (@reinitializeConnection_pending W Hu Hi)
    end.
    unfold endEffects, socketAfterEnd. cbn -[Z.add]. rewrite Hs, Hend.
    cbn -[Z.add]. unfold checkConnection, bind, getVars, throw. cbn -[Z.add].
    reflexivity. }
  rewrite Heq. cbn.
  split; [reflexivity|]. split; [reflexivity|]. split; reflexivity.
Qed.

End PendingInitialization.


(** ** Scenarios of the further properties *)

Lemma blank_qr_swallows_update_witness :
  lengthOf (trim (lit "  ")) = 0 /\
  onConnectionUpdate quietEnv (mkUpdate (Some ConnOpen) None (Some (lit "  ")))
                     notReadyWorld =
  mkOutcome (Returned tt) (setVars (set_lastQr (Some (lit "  "))) notReadyWorld) [].
Proof.
  split; [reflexivity|].
  exact (@blank_qr_swallows_update quietEnv
           (mkUpdate (Some ConnOpen) None (Some (lit "  "))) (lit "  ")
           notReadyWorld eq_refl eq_refl eq_refl).
Defined.

Lemma repeated_qr_events_witness :
  forallb validQr [lit "qr-1"; lit "qr-2"] = true /\
  isReady (vars notReadyWorld) = false /\
  lastQr (vars (final (run quietEnv (List.map qrEvent [lit "qr-1"; lit "qr-2"])
                           notReadyWorld))) = Some (lit "qr-2").
Proof.
  do 2 (split; [reflexivity|]).
  exact (proj1 (@repeated_qr_events quietEnv (lit "qr-1") [lit "qr-2"]
                  notReadyWorld (mkSocket 0 true false)
                  eq_refl eq_refl eq_refl eq_refl)).
Defined.

Lemma connected_calls_consume_attempts_witness :
  isReady (vars openWorld) = true /\
  MAX_INITIALIZATION_ATTEMPTS <= initializationAttempts (vars openWorld) + Z.of_nat 5 /\
  shouldReconnect quietEnv transientError = true /\
  emitted (run quietEnv (repeat Start 5) openWorld) = [].
Proof.
  assert (H : MAX_INITIALIZATION_ATTEMPTS <=
              initializationAttempts (vars openWorld) + Z.of_nat 5)
    by (unfold MAX_INITIALIZATION_ATTEMPTS; cbn; lia).
  split; [reflexivity|]. split; [exact H|]. split; [reflexivity|].
  exact (proj1 (proj2
    (@connected_calls_consume_attempts quietEnv 5 openWorld (mkSocket 0 true false)
       transientError eq_refl eq_refl eq_refl H eq_refl eq_refl eq_refl))).
Defined.

Lemma initializeClient_setup_ok_witness :
  undisturbed quietEnv /\
  authSetup quietEnv (setups initialWorld) = SetupOk (mkSocket 0 true false) /\
  initializeClient quietEnv (final (initializeClient quietEnv initialWorld)) =
  mkOutcome (Returned tt) (final (initializeClient quietEnv initialWorld))
            [E_Log L_init_in_progress].
Proof.
  assert (Hu : undisturbed quietEnv) by (intros n g; reflexivity).
  split; [exact Hu|]. split; [reflexivity|].
  exact (proj2 (@initializeClient_setup_ok quietEnv initialWorld
                  (mkSocket 0 true false) Hu
                  eq_refl eq_refl eq_refl)).
Defined.

Lemma initializeClient_setup_fails_witness :
  undisturbed failingSetupEnv /\
  authSetup failingSetupEnv (setups initialWorld) =
    SetupThrows (Some (lit "ENOENT")) None /\
  initializationAttempts (vars initialWorld) + 1 < MAX_INITIALIZATION_ATTEMPTS /\
  result (initializeClient failingSetupEnv initialWorld) =
  Thrown (SetupError (Some (lit "ENOENT")) None).
Proof.
  assert (Hu : undisturbed failingSetupEnv) by (intros n g; reflexivity).
  assert (H : initializationAttempts (vars initialWorld) + 1 <
              MAX_INITIALIZATION_ATTEMPTS)
    by (unfold MAX_INITIALIZATION_ATTEMPTS; cbn; lia).
  split; [exact Hu|]. split; [reflexivity|]. split; [exact H|].
  exact (f_equal (@result unit)
           (@initializeClient_setup_fails failingSetupEnv initialWorld
              (Some (lit "ENOENT")) None Hu eq_refl eq_refl eq_refl H)).
Defined.

Lemma close_405_initializes_twice_witness :
  undisturbed quietEnv /\
  statusCode rejected405 = Some 405 /\
  shouldReconnect quietEnv (Some rejected405) = true /\
  timers (final (onConnectionUpdate quietEnv
                   (mkUpdate (Some ConnClose) (Some rejected405) None) openWorld)) =
  [mkTimer 0 2000 Recover405; mkTimer 0 3000 RetryInitialization].
Proof.
  assert (Hu : undisturbed quietEnv) by (intros n g; reflexivity).
  split; [exact Hu|]. do 2 (split; [reflexivity|]).
  exact (proj1 (@close_405_initializes_twice quietEnv openWorld rejected405
                  (mkSocket 0 true false) (mkSocket 1 true false)
                  Hu eq_refl eq_refl eq_refl eq_refl eq_refl)).
Defined.

Lemma stale_messages_timer_blocks_reconnect_witness :
  timers autoReadyPendingWorld = [mkTimer 0 3000 AutoReadyAfterMessages] /\
  initializationAttempts (vars autoReadyPendingWorld) < MAX_INITIALIZATION_ATTEMPTS /\
  shouldReconnect quietEnv transientError = true /\
  setups (final (run quietEnv
                   [ConnectionUpdate (mkUpdate (Some ConnClose) transientError None);
                    TimerFires 0; TimerFires 0] autoReadyPendingWorld)) =
  setups autoReadyPendingWorld.
Proof.
  assert (H : initializationAttempts (vars autoReadyPendingWorld) <
              MAX_INITIALIZATION_ATTEMPTS)
    by (unfold MAX_INITIALIZATION_ATTEMPTS; cbn; lia).
  split; [reflexivity|]. split; [exact H|]. split; [reflexivity|].
  exact (proj1 (proj2 (proj2 (proj2
    (@stale_messages_timer_blocks_reconnect quietEnv autoReadyPendingWorld
       (mkSocket 0 true false) (mkTimer 0 3000 AutoReadyAfterMessages)
       transientError eq_refl eq_refl eq_refl H eq_refl eq_refl eq_refl))))).
Defined.

Lemma resetSession_reinitializes_witness :
  undisturbed quietEnv /\
  authSetup quietEnv (setups openWorld) = SetupOk (mkSocket 0 true false) /\
  result (resetSession quietEnv openWorld) = Returned tt.
Proof.
  assert (Hu : undisturbed quietEnv) by (intros n g; reflexivity).
  split; [exact Hu|]. split; [reflexivity|].
  exact (proj1 (proj1 (@resetSession_reinitializes quietEnv openWorld
                         Hu)
                  (mkSocket 0 true false) eq_refl)).
Defined.

Lemma send_without_socket_witness :
  sock (vars initialWorld) = None /\
  sendMessage quietEnv (lit "5555-1234") (lit "hi") 0 initialWorld =
  mkOutcome (Thrown NotInitialized) initialWorld [E_Log (L_attempt (0 + 1))].
Proof.
  split; [reflexivity|].
  exact (proj1 (@send_without_socket quietEnv (lit "5555-1234") (lit "hi") 0
                  initialWorld) eq_refl).
Defined.

Lemma unrecoverable_error_is_not_retried_witness :
  isReady (vars openWorld) = true /\
  invalidInput (lit "5555-1234") (lit "hi") = false /\
  transportSend refusingEnv (sends openWorld) =
    SendThrows (Some (lit "not-acceptable")) /\
  isRecoverableError (TransportError (Some (lit "not-acceptable"))) = false /\
  result (send refusingEnv (lit "5555-1234") (lit "hi") openWorld) =
  Thrown (SendFailed 1 (Some (lit "not-acceptable"))).
Proof.
  do 4 (split; [reflexivity|]).
  exact (proj1 (@unrecoverable_error_is_not_retried refusingEnv
                  (lit "5555-1234") (lit "hi") openWorld (mkSocket 0 true false)
                  (Some (lit "not-acceptable"))
                  eq_refl eq_refl eq_refl eq_refl eq_refl eq_refl)).
Defined.

Lemma send_while_not_ready_witness :
  undisturbed quietEnv /\
  isReady (vars notReadyWorld) = false /\
  invalidInput (lit "5555-1234") (lit "hi") = false /\
  now (final (send quietEnv (lit "5555-1234") (lit "hi") notReadyWorld)) =
  now notReadyWorld + 5000.
Proof.
  assert (Hu : undisturbed quietEnv) by (intros n g; reflexivity).
  split; [exact Hu|]. do 2 (split; [reflexivity|]).
  exact (proj1 (proj2 (proj2
    (@send_while_not_ready quietEnv (lit "5555-1234") (lit "hi") notReadyWorld
       (mkSocket 0 true false) Hu
       eq_refl eq_refl eq_refl eq_refl eq_refl)))).
Defined.

Lemma reinitializeConnection_while_initializing_witness :
  undisturbed quietEnv /\
  isInitializing (vars notReadyWorld) = true /\
  sock (vars notReadyWorld) = Some (mkSocket 0 true false) /\
  sock (vars (final (reinitializeConnection quietEnv notReadyWorld))) = None.
Proof.
  assert (Hu : undisturbed quietEnv) by (intros n g; reflexivity).
  split; [exact Hu|]. do 2 (split; [reflexivity|]).
  exact (proj1 (proj2 (proj2
    (@reinitializeConnection_while_initializing quietEnv notReadyWorld
       (mkSocket 0 true false) Hu eq_refl eq_refl eq_refl)))).
Defined.

Lemma retry_while_initializing_loses_socket_witness :
  undisturbed droppingEnv /\
  isReady (vars readyWhileInitializingWorld) = true /\
  isInitializing (vars readyWhileInitializingWorld) = true /\
  invalidInput (lit "5555-1234") (lit "hi") = false /\
  isRecoverableError (TransportError (Some (lit "Connection lost"))) = true /\
  result (send droppingEnv (lit "5555-1234") (lit "hi")
               readyWhileInitializingWorld) = Thrown NotInitialized.
Proof.
  assert (Hu : undisturbed droppingEnv) by (intros n g; reflexivity).
  split; [exact Hu|]. do 4 (split; [reflexivity|]).
  exact (proj1 (@retry_while_initializing_loses_socket droppingEnv
                  (lit "5555-1234") (lit "hi") readyWhileInitializingWorld
                  (mkSocket 0 true false) (Some (lit "Connection lost"))
                  Hu eq_refl eq_refl eq_refl eq_refl eq_refl eq_refl eq_refl
                  eq_refl)).
Defined.
